(** * MiKTeX Application Framework: [Application] (app.cpp)

    A shallow embedding of the parts of [Libraries/MiKTeX/App/app.cpp] that
    decide when derived caches are refreshed ([Application::AutoMaintenance]),
    how a missing package is installed ([Application::InstallPackage]), what
    [Application::Init] does to the installer policy, and how trace messages
    are buffered before log4cxx is configured ([Application::Trace]).

    The [Application] object and the file-level statics are one record that
    is threaded through every member function; calls to collaborators
    (session, package manager, installer, UI, process launcher, lock file,
    logger) are the output of a run, in the order they are made, and what the
    collaborators answer is supplied by an environment record.

    Further parts cover the command-line switches ([ExamineArgs]), the
    creation of missing files ([Application::TryCreateFile]), the weekly
    diagnosis ([Application::AutoDiagnose]), the editor command
    ([Application::InvokeEditor]) and [Application::FatalError], and two
    programs built on the framework: the cfg utility
    ([BuildUtilities/cfg/cfg.cpp]) and MakeTFM
    ([Programs/MiKTeX/makex/maketfm.cpp]). *)

From Stdlib Require Import ZArith Ascii String List Bool Lia.
From stdpp Require Import base gmap strings list pretty.

Local Open Scope string_scope.
Local Open Scope Z_scope.
Local Open Scope list_scope.

(** ** Basic data *)

(** [MiKTeX::Core::TriState]. *)
Inductive TriState : Type :=
| TriState_False
| TriState_True
| TriState_Undetermined.

Definition TriState_eqb (a b : TriState) : bool :=
  match a, b with
  | TriState_False, TriState_False => true
  | TriState_True, TriState_True => true
  | TriState_Undetermined, TriState_Undetermined => true
  | _, _ => false
  end.

(** [time_t]; the code only compares values with [>] and [==]. *)
Definition time_t : Type := Z.

(** [time_t] is a 64-bit signed integer on the platforms MiKTeX is built
    for. A sum that leaves its range is given the value the machine
    computes: it wraps around. *)
Definition time_t_wrap (z : Z) : time_t := (z + 2 ^ 63) mod 2 ^ 64 - 2 ^ 63.

Definition time_t_add (a b : time_t) : time_t := time_t_wrap (a + b).

Definition TIME_MIN : time_t := - 2 ^ 63.
Definition TIME_MAX : time_t := 2 ^ 63 - 1.

(** [MiKTeX::Util::PathName], by its string; [PathName()] is the empty path. *)
Definition PathName : Type := string.

Definition PathName_empty : PathName := "".

(** [operator/] on path names. *)
Definition PathName_div (a b : PathName) : PathName := a +:+ "/" +:+ b.

Infix "//" := PathName_div (at level 40, left associativity).

(** [MiKTeX::Trace::TraceLevel] and [TraceCallback::TraceMessage]. *)
Inductive TraceLevel : Type :=
| TraceLevel_Fatal
| TraceLevel_Error
| TraceLevel_Warning
| TraceLevel_Info
| TraceLevel_Trace
| TraceLevel_Debug.

Record TraceMessage : Type := mkTraceMessage {
  facility : string;
  level : TraceLevel;
  message : string
}.

(** The special paths [app.cpp] asks the session for. *)
Inductive SpecialPath : Type :=
| SpecialPath_UserConfigRoot
| SpecialPath_InstallRoot
| SpecialPath_DataRoot
| SpecialPath_ConfigRoot
| SpecialPath_LogDirectory.

(** The configuration values [app.cpp] reads, named by section and value. *)
Inductive ConfigName : Type :=
| CORE_LAST_ADMIN_MAINTENANCE
| CORE_LAST_USER_MAINTENANCE
| MPM_LAST_ADMIN_UPDATE_DB
| MPM_AUTOINSTALL
| MPM_AUTOADMIN.

(** What can leave a member function other than by [return]: [throw 1],
    a [MiKTeXException] (with the four fields the handlers log), or any other
    C++ exception, which [catch (const MiKTeXException&)] does not catch. *)
Inductive Exn : Type :=
| Exn_int (code : Z)
| Exn_MiKTeX (errorMessage info sourceFile : string) (sourceLine : Z)
| Exn_other.

(** What the preprocessor selects in app.cpp: [MIKTEX_WINDOWS], [__APPLE__],
    or neither. *)
Inductive Platform : Type :=
| Platform_Windows
| Platform_Apple
| Platform_Other.

Definition is_Windows (p : Platform) : bool :=
  match p with
  | Platform_Windows => true
  | _ => false
  end.

(** What the process that runs [Init] answers (lines 474-496). *)
Record ProcessEnv : Type := mkProcessEnv {
  (** [thisProcess->GetSystemId()] *)
  GetSystemId : Z;
  (** [parentProcess->get_ProcessName()]; [None] when [get_Parent()] is
      [nullptr] *)
  parent_ProcessName : option string;
  (** the current directory, as [ToDisplayString] shows it *)
  currentDirectory : string;
  (** [WindowsVersion::GetMajorMinorBuildString()] *)
  WindowsVersion_GetMajorMinorBuildString : string
}.

(** ** The session *)

(** The state of [MiKTeX::Core::Session] that [app.cpp] observes.  The only
    field [app.cpp] changes is the admin-mode flag; special paths depend on
    the mode the session is in. *)
Record Session : Type := mkSession {
  adminMode : bool;
  sharedSetup : bool;
  portable : bool;
  runningAsAdministrator : bool;
  configTimeT : ConfigName -> option time_t;
  configTriState : ConfigName -> TriState;
  specialPath : bool -> SpecialPath -> PathName;
  mpmDatabasePathName : bool -> PathName
}.

Definition IsAdminMode (s : Session) : bool := adminMode s.
Definition IsSharedSetup (s : Session) : bool := sharedSetup s.
Definition IsMiKTeXPortable (s : Session) : bool := portable s.
Definition RunningAsAdministrator (s : Session) : bool := runningAsAdministrator s.

Definition GetSpecialPath (s : Session) (p : SpecialPath) : PathName :=
  specialPath s (adminMode s) p.

Definition GetMpmDatabasePathName (s : Session) : PathName :=
  mpmDatabasePathName s (adminMode s).

(** [GetConfigValue(section, name, ConfigValue("0")).GetTimeT()]. *)
Definition GetConfigValue_TimeT (s : Session) (n : ConfigName) : time_t :=
  match configTimeT s n with
  | Some t => t
  | None => 0
  end.

(** [GetConfigValue(section, name).GetTriState()]. *)
Definition GetConfigValue_TriState (s : Session) (n : ConfigName) : TriState :=
  configTriState s n.

(** Modelled from the spec: [Session::SetAdminMode] is not part of app.cpp;
    the spec has it switch the session's mode, so it assigns the flag. *)
Definition SetAdminMode (b : bool) (s : Session) : Session :=
  {| adminMode := b;
     sharedSetup := sharedSetup s;
     portable := portable s;
     runningAsAdministrator := runningAsAdministrator s;
     configTimeT := configTimeT s;
     configTriState := configTriState s;
     specialPath := specialPath s;
     mpmDatabasePathName := mpmDatabasePathName s |}.

(** ** Collaborator calls *)

Inductive LogLevel : Type :=
| LOG_FATAL
| LOG_ERROR
| LOG_WARN
| LOG_INFO
| LOG_TRACE
| LOG_DEBUG.

(** One entry per call that leaves [Application]. *)
Inductive Event : Type :=
| Ev_Log (lvl : LogLevel) (msg : string)
| Ev_Cerr (msg : string)
| Ev_TraceSink (m : TraceMessage)
| Ev_FindFile (name : string)
| Ev_TryLock (lockPath : PathName)
| Ev_PackageManager_Create
| Ev_CreateInstaller
| Ev_SetCallback
| Ev_UpdateDb_FromCache
| Ev_UnloadFilenameDatabase
| Ev_Process_Run (exe : PathName) (args : list string)
| Ev_UI_InitializeFramework
| Ev_InstallPackageMessageBox (packageId : string) (trigger : PathName)
| Ev_TryGetDefaultPackageRepository
| Ev_TryGetProxy
| Ev_ProxyAuthenticationDialog
| Ev_SetFileLists (toInstall toRemove : list string)
| Ev_InstallRemove
| Ev_SetAdminMode (b : bool)
| Ev_InstallSignalHandler
| Ev_ConfigureLogging.

(** ** The application object *)

(** [class Impl], without the members that hold collaborator objects'
    contents: [installer], [packageManager] and [logger] are kept as
    "is not [nullptr]". *)
Record Impl : Type := mkImpl {
  beQuiet : bool;
  commandLine : string;
  enableDiagnose : TriState;
  enableInstaller : TriState;
  enableMaintenance : TriState;
  ignoredPackages : gset string;
  initialized : bool;
  installer : bool;
  logger : bool;
  mpmAutoAdmin : TriState;
  packageManager : bool;
  pendingTraceMessages : list TraceMessage;
  session : Session
}.

(** [pimpl] together with the statics [initUiFrameworkDone] and
    [isLog4cxxConfigured]. *)
Record App : Type := mkApp {
  pimpl : Impl;
  initUiFrameworkDone : bool;
  isLog4cxxConfigured : bool
}.

Definition with_pimpl (f : Impl -> Impl) (a : App) : App :=
  {| pimpl := f (pimpl a);
     initUiFrameworkDone := initUiFrameworkDone a;
     isLog4cxxConfigured := isLog4cxxConfigured a |}.

Definition set_beQuiet (b : bool) (i : Impl) : Impl :=
  mkImpl b (commandLine i) (enableDiagnose i) (enableInstaller i)
    (enableMaintenance i) (ignoredPackages i) (initialized i) (installer i)
    (logger i) (mpmAutoAdmin i) (packageManager i) (pendingTraceMessages i)
    (session i).

Definition set_enableDiagnose (t : TriState) (i : Impl) : Impl :=
  mkImpl (beQuiet i) (commandLine i) t (enableInstaller i)
    (enableMaintenance i) (ignoredPackages i) (initialized i) (installer i)
    (logger i) (mpmAutoAdmin i) (packageManager i) (pendingTraceMessages i)
    (session i).

Definition set_enableInstaller (t : TriState) (i : Impl) : Impl :=
  mkImpl (beQuiet i) (commandLine i) (enableDiagnose i) t
    (enableMaintenance i) (ignoredPackages i) (initialized i) (installer i)
    (logger i) (mpmAutoAdmin i) (packageManager i) (pendingTraceMessages i)
    (session i).

Definition set_enableMaintenance (t : TriState) (i : Impl) : Impl :=
  mkImpl (beQuiet i) (commandLine i) (enableDiagnose i) (enableInstaller i)
    t (ignoredPackages i) (initialized i) (installer i)
    (logger i) (mpmAutoAdmin i) (packageManager i) (pendingTraceMessages i)
    (session i).

Definition set_ignoredPackages (g : gset string) (i : Impl) : Impl :=
  mkImpl (beQuiet i) (commandLine i) (enableDiagnose i) (enableInstaller i)
    (enableMaintenance i) g (initialized i) (installer i)
    (logger i) (mpmAutoAdmin i) (packageManager i) (pendingTraceMessages i)
    (session i).

Definition set_initialized (b : bool) (i : Impl) : Impl :=
  mkImpl (beQuiet i) (commandLine i) (enableDiagnose i) (enableInstaller i)
    (enableMaintenance i) (ignoredPackages i) b (installer i)
    (logger i) (mpmAutoAdmin i) (packageManager i) (pendingTraceMessages i)
    (session i).

Definition set_installer (b : bool) (i : Impl) : Impl :=
  mkImpl (beQuiet i) (commandLine i) (enableDiagnose i) (enableInstaller i)
    (enableMaintenance i) (ignoredPackages i) (initialized i) b
    (logger i) (mpmAutoAdmin i) (packageManager i) (pendingTraceMessages i)
    (session i).

Definition set_logger (b : bool) (i : Impl) : Impl :=
  mkImpl (beQuiet i) (commandLine i) (enableDiagnose i) (enableInstaller i)
    (enableMaintenance i) (ignoredPackages i) (initialized i) (installer i)
    b (mpmAutoAdmin i) (packageManager i) (pendingTraceMessages i)
    (session i).

Definition set_mpmAutoAdmin (t : TriState) (i : Impl) : Impl :=
  mkImpl (beQuiet i) (commandLine i) (enableDiagnose i) (enableInstaller i)
    (enableMaintenance i) (ignoredPackages i) (initialized i) (installer i)
    (logger i) t (packageManager i) (pendingTraceMessages i)
    (session i).

Definition set_packageManager (b : bool) (i : Impl) : Impl :=
  mkImpl (beQuiet i) (commandLine i) (enableDiagnose i) (enableInstaller i)
    (enableMaintenance i) (ignoredPackages i) (initialized i) (installer i)
    (logger i) (mpmAutoAdmin i) b (pendingTraceMessages i)
    (session i).

Definition set_pendingTraceMessages (l : list TraceMessage) (i : Impl) : Impl :=
  mkImpl (beQuiet i) (commandLine i) (enableDiagnose i) (enableInstaller i)
    (enableMaintenance i) (ignoredPackages i) (initialized i) (installer i)
    (logger i) (mpmAutoAdmin i) (packageManager i) l
    (session i).

Definition set_session (s : Session) (i : Impl) : Impl :=
  mkImpl (beQuiet i) (commandLine i) (enableDiagnose i) (enableInstaller i)
    (enableMaintenance i) (ignoredPackages i) (initialized i) (installer i)
    (logger i) (mpmAutoAdmin i) (packageManager i) (pendingTraceMessages i)
    s.

Definition set_initUiFrameworkDone (b : bool) (a : App) : App :=
  mkApp (pimpl a) b (isLog4cxxConfigured a).

Definition set_isLog4cxxConfigured (b : bool) (a : App) : App :=
  mkApp (pimpl a) (initUiFrameworkDone a) b.

(** ** Member functions as state transformers that may throw *)

Inductive Res (A : Type) : Type :=
| Ok (a : A)
| Throw (e : Exn).

Arguments Ok {A} a.
Arguments Throw {A} e.

(** A run of a member function: how it ends, the application object it
    leaves, and the collaborator calls it made, oldest first. *)
Record Run (A : Type) : Type := mkRun {
  result : Res A;
  final : App;
  calls : list Event
}.

Arguments mkRun {A} result final calls.
Arguments result {A} r.
Arguments final {A} r.
Arguments calls {A} r.

Definition Prog (A : Type) : Type := App -> Run A.

Definition ret {A} (a : A) : Prog A := fun st => mkRun (Ok a) st [].

Definition throw {A} (e : Exn) : Prog A := fun st => mkRun (Throw e) st [].

Definition bind {A B} (m : Prog A) (k : A -> Prog B) : Prog B :=
  fun st =>
    let r := m st in
    match result r with
    | Ok a =>
        let r' := k a (final r) in
        mkRun (result r') (final r') (calls r ++ calls r')
    | Throw e => mkRun (Throw e) (final r) (calls r)
    end.

Definition get : Prog App := fun st => mkRun (Ok st) st [].

Definition modify (f : App -> App) : Prog unit :=
  fun st => mkRun (Ok tt) (f st) [].

Definition emit (e : Event) : Prog unit := fun st => mkRun (Ok tt) st [e].

Definition update (f : Impl -> Impl) : Prog unit := modify (with_pimpl f).

(** [try { body } catch (const MiKTeXException& ex) { handler }]: only a
    [MiKTeXException] is handled; anything else keeps unwinding. *)
Definition try_catch_MiKTeX {A} (body : Prog A)
    (handler : string -> string -> string -> Z -> Prog A) : Prog A :=
  fun st =>
    let r := body st in
    match result r with
    | Throw (Exn_MiKTeX m i f l) =>
        let r' := handler m i f l (final r) in
        mkRun (result r') (final r') (calls r ++ calls r')
    | _ => r
    end.

(** An object whose destructor runs when its block is left, by [return] or by
    an exception ([AutoRestore]). *)
Definition scoped {A} (body : Prog A) (on_exit : App -> App) : Prog A :=
  fun st => let r := body st in mkRun (result r) (on_exit (final r)) (calls r).

Definition when (b : bool) (m : Prog unit) : Prog unit :=
  if b then m else ret tt.

Declare Scope prog_scope.
Delimit Scope prog_scope with prog.
Notation "'let*' x ':=' c 'in' k" := (bind c (fun x => k))
  (at level 10, x pattern, c at level 100, k at level 200) : prog_scope.
Notation "c ;; k" := (bind c (fun _ => k))
  (at level 100, k at level 200, right associativity) : prog_scope.

(** [LOG4CXX_*(pimpl->logger, msg)]. *)
Definition LOG4CXX (lvl : LogLevel) (msg : string) : Prog unit :=
  emit (Ev_Log lvl msg).

(** ** Trace buffer: [Trace], [FlushPendingTraceMessages], [TraceInternal] *)

Definition TraceInternal (m : TraceMessage) : Prog unit :=
  fun st =>
    if isLog4cxxConfigured st
    then emit (Ev_TraceSink m) st
    else emit (Ev_Cerr (message m)) st.

Fixpoint for_each {A} (f : A -> Prog unit) (l : list A) : Prog unit :=
  match l with
  | [] => ret tt
  | x :: l' => bind (f x) (fun _ => for_each f l')
  end.

Definition FlushPendingTraceMessages : Prog unit :=
  (let* st := get in
   for_each TraceInternal (pendingTraceMessages (pimpl st)) ;;
   update (set_pendingTraceMessages []))%prog.

Definition Trace (traceMessage : TraceMessage) : Prog bool :=
  (let* st := get in
   if negb (isLog4cxxConfigured st) then
     when (100 <? Z.of_nat (length (pendingTraceMessages (pimpl st))))
       (update (set_pendingTraceMessages [])) ;;
     let* st1 := get in
     update (set_pendingTraceMessages
               (pendingTraceMessages (pimpl st1) ++ [traceMessage])) ;;
     ret true
   else
     FlushPendingTraceMessages ;;
     TraceInternal traceMessage ;;
     ret true)%prog.

(** [Trace] called once for each message of [ms], in order. *)
Fixpoint Trace_all (ms : list TraceMessage) (st : App) : App :=
  match ms with
  | [] => st
  | m :: ms' => Trace_all ms' (final (Trace m st))
  end.

(** ** The file system *)

(** Last-write time of every file that exists. *)
Abbreviation FileSystem := (gmap PathName time_t).

Definition File_Exists (fs : FileSystem) (p : PathName) : bool :=
  match fs !! p with
  | Some _ => true
  | None => false
  end.

(** [File::GetLastWriteTime]; [None] when the file does not exist, where the
    real function throws. *)
Definition File_GetLastWriteTime (fs : FileSystem) (p : PathName)
  : option time_t := fs !! p.

(** C++ [a && b] and [a || b] where evaluating [b] may throw: [b] is only
    evaluated when [a] does not decide the result. *)
Definition and_then (a : bool) (b : option bool) : option bool :=
  if a then b else Some false.

Definition or_else (a : bool) (b : option bool) : option bool :=
  if a then Some true else b.

(** [t > File::GetLastWriteTime(p)]. *)
Definition newer_than (t : time_t) (fs : FileSystem) (p : PathName)
  : option bool :=
  match File_GetLastWriteTime fs p with
  | Some w => Some (w <? t)
  | None => None
  end.

Definition IsNewer (fs : FileSystem) (path1 path2 : PathName) : option bool :=
  and_then (File_Exists fs path1)
    (and_then (File_Exists fs path2)
       (match File_GetLastWriteTime fs path1 with
        | Some w1 => newer_than w1 fs path2
        | None => None
        end)).

(** What the collaborators of [AutoMaintenance] answer. *)
Record MaintenanceEnv : Type := mkMaintenanceEnv {
  files : FileSystem;
  (** [session->FindFile(name, FileType::EXE, result)] *)
  findFile : string -> option PathName;
  (** [lockFile->TryLock(0ms)] on the lock file at the given path *)
  tryLock : PathName -> bool;
  (** [installer->UpdateDb({FromCache})]: returns, or throws *)
  updateDb : option Exn;
  (** [Process::Run(exe, args, nullptr, &exitCode, nullptr)]: the result and
      the exit code it stores *)
  processRun : PathName -> list string -> bool * Z
}.

(** Lifts an expression that may throw into a member function. *)
Definition eval {A} (o : option A) : Prog A :=
  match o with
  | Some a => ret a
  | None => throw (Exn_MiKTeX "File::GetLastWriteTime" "" "" 0)
  end.

(** ** C strings *)

(** Characters of a C string; the string is the list of its characters
    before the terminating NUL. *)
Definition NUL : ascii := Eval cbv in ascii_of_nat 0.
Definition SPACE : ascii := Eval cbv in ascii_of_nat 32.
Definition QUOTE : ascii := Eval cbv in ascii_of_nat 34.
Definition PERCENT : ascii := Eval cbv in ascii_of_nat 37.
Definition BACKSLASH : ascii := Eval cbv in ascii_of_nat 92.

Definition c_str (s : string) : list ascii := list_ascii_of_string s.

Definition endl : string := Eval cbv in String (ascii_of_nat 10) EmptyString.

(** * The cfg utility (BuildUtilities/cfg/cfg.cpp) *)

Module Cfg.

(** [ToStr] (lines 99-118). *)
Fixpoint ToStr (s : list ascii) : list ascii :=
  match s with
  | [] => []
  | ch :: s' =>
      (if Ascii.eqb ch BACKSLASH then [BACKSLASH; BACKSLASH]
       else if Ascii.eqb ch QUOTE then [BACKSLASH; QUOTE]
       else [ch])
      ++ ToStr s'
  end.

(** A key of a configuration file: its name and its values, each with its
    name. *)
Record Key : Type := mkKey {
  key_name : string;
  key_values : list (string * string)
}.

Section PrintClasses.

(** Where [strtol(value.c_str(), &endptr, 0)] leaves [endptr], as an offset
    into the C string. *)
Variable strtol_end : string -> nat.

(** [isNumber] of line 129: [strtol] always sets [endptr], so the test is
    whether it points to a NUL. *)
Definition isNumber (value : string) : bool :=
  Ascii.eqb (nth (strtol_end value) (c_str value) NUL) NUL.

(** The literal or number printed after [return]. *)
Definition print_expression (value : string) : string :=
  if isNumber value then value
  else String QUOTE (string_of_list_ascii (ToStr (c_str value))
                     +:+ String QUOTE EmptyString).

(** What the inner loop prints for one value (lines 130-151). *)
Definition print_value (name value : string) : string :=
  "  public: static "
  +:+ (if isNumber value then "int" else "std::string")
  +:+ " " +:+ name +:+ "() { return "
  +:+ print_expression value
  +:+ "; }" +:+ endl.

(** [DoPrintClasses] (lines 120-155): what goes to [cout]. *)
Definition DoPrintClasses (cfg : list Key) : string :=
  String.concat ""
    (map (fun key =>
            "class " +:+ key_name key +:+ " {" +:+ endl
            +:+ String.concat ""
                  (map (fun val => print_value (fst val) (snd val))
                     (key_values key))
            +:+ "};" +:+ endl)
       cfg).

End PrintClasses.

Inductive TASK : Type :=
| TASK_None
| TASK_ComputeDigest
| TASK_PrintClasses
| TASK_SetValue
| TASK_Sign.

(** The values [GetNextOpt] returns for the options of [aoption]. *)
Inductive Option : Type :=
| OPT_COMPUTE_DIGEST
| OPT_PRINT_CLASSES
| OPT_PRIVATE_KEY_FILE
| OPT_SET_VALUE
| OPT_SIGN
| OPT_VERSION.

(** What [PoptWrapper] makes of a command line: the options [GetNextOpt]
    returns with their arguments, the negative value that ends the loop
    (-1 at the end of the options, another value for an error), the text of
    [BadOption] and [Strerror] for that value, and the leftover arguments. *)
Record Popt : Type := mkPopt {
  popt_options : list (Option * string);
  popt_end : Z;
  popt_BadOption : string;
  popt_Strerror : string;
  popt_leftovers : list string
}.

(** The file system as [Cfg] sees it: [Read] returns the keys and the
    digest of a file, or throws ([None]); [Write] succeeds or throws. *)
Record Files : Type := mkFiles {
  cfg_read : string -> option (list Key * string);
  cfg_write : string -> bool
}.

(** Calls that leave [Main]. *)
Inductive Call : Type :=
| Cout (text : string)
| Cerr (text : string)
| Cfg_Read (fileName : string)
| Cfg_PutValue (keyName valueName value : string)
| Cfg_Write (fileName : string)
| Cfg_Write_signed (fileName privateKeyFile : string)
| PrintException.

(** How a function is left. *)
Inductive Exit : Type :=
| Returned
| Thrown_int (r : Z)
| Thrown_MiKTeXException.

(** The local variables of [Main] that the options set. *)
Record Settings : Type := mkSettings {
  task : TASK;
  privateKeyFile : string;
  values : list (string * string)
}.

(** [optArg.find('=')]. *)
Fixpoint find_equals (s : list ascii) : option nat :=
  match s with
  | [] => None
  | ch :: s' =>
      if Ascii.eqb ch "="%char then Some 0%nat
      else option_map S (find_equals s')
  end.

(** [substr(pos, n)] and [substr(pos)], for [pos] within the string. *)
Definition substr (s : string) (pos : nat) (n : option nat) : string :=
  string_of_list_ascii
    (match n with
     | Some n => take n (drop pos (c_str s))
     | None => drop pos (c_str s)
     end).

Inductive Parsed : Type :=
| Parsed_settings (s : Settings)
| Parsed_version
| Parsed_bad_value.

(** The option loop (lines 221-259). *)
Fixpoint parse_options (opts : list (Option * string)) (s : Settings)
  : Parsed :=
  match opts with
  | [] => Parsed_settings s
  | (option, optArg) :: rest =>
      match option with
      | OPT_COMPUTE_DIGEST =>
          parse_options rest
            (mkSettings TASK_ComputeDigest (privateKeyFile s) (values s))
      | OPT_PRINT_CLASSES =>
          parse_options rest
            (mkSettings TASK_PrintClasses (privateKeyFile s) (values s))
      | OPT_PRIVATE_KEY_FILE =>
          parse_options rest (mkSettings (task s) optArg (values s))
      | OPT_SET_VALUE =>
          match find_equals (c_str optArg) with
          | None => Parsed_bad_value
          | Some pos =>
              parse_options rest
                (mkSettings TASK_SetValue (privateKeyFile s)
                   (values s
                    ++ [(substr optArg 0 (Some pos),
                         substr optArg (pos + 1) None)]))
          end
      | OPT_SIGN =>
          parse_options rest
            (mkSettings TASK_Sign (privateKeyFile s) (values s))
      | OPT_VERSION => Parsed_version
      end
  end.

Section Main.

(** [Utils::GetExeName()], the version text of lines 250-254, the MD5 as
    [operator<<] prints it, and [strtol] as above. *)
Variable GetExeName : string.
Variable version_text : string.
Variable strtol_end : string -> nat.

(** [FatalError] (lines 88-92). *)
Definition FatalError (msg : string) : list Call * Exit :=
  ([Cerr (GetExeName +:+ ": " +:+ msg +:+ endl)], Thrown_int 1).

(** What is done with one file that was read (lines 279-299); [None] when
    [Write] throws. *)
Definition task_calls (fs : Files) (s : Settings) (fileName : string)
    (cfg : list Key) (digest : string) : list Call * bool :=
  match task s with
  | TASK_ComputeDigest => ([Cout (digest +:+ endl)], true)
  | TASK_PrintClasses => ([Cout (DoPrintClasses strtol_end cfg)], true)
  | TASK_Sign =>
      ([Cfg_Write_signed fileName (privateKeyFile s)], cfg_write fs fileName)
  | TASK_SetValue =>
      (map (fun nv => Cfg_PutValue "" (fst nv) (snd nv)) (values s)
       ++ [Cfg_Write fileName],
       cfg_write fs fileName)
  | TASK_None => ([], true)
  end.

(** The loop over the file names (lines 275-300). *)
Fixpoint process_files (fs : Files) (s : Settings) (leftovers : list string)
  : list Call * Exit :=
  match leftovers with
  | [] => ([], Returned)
  | fileName :: rest =>
      match cfg_read fs fileName with
      | None => ([Cfg_Read fileName], Thrown_MiKTeXException)
      | Some (cfg, digest) =>
          let '(calls, ok) := task_calls fs s fileName cfg digest in
          if ok then
            let '(calls', exit) := process_files fs s rest in
            (Cfg_Read fileName :: calls ++ calls', exit)
          else (Cfg_Read fileName :: calls, Thrown_MiKTeXException)
      end
  end.

(** [Main] (lines 209-301). *)
Definition Main (fs : Files) (popt : Popt) : list Call * Exit :=
  match parse_options (popt_options popt)
          (mkSettings TASK_ComputeDigest "" []) with
  | Parsed_version => ([Cout version_text], Returned)
  | Parsed_bad_value => FatalError "bad value"
  | Parsed_settings s =>
      if negb (popt_end popt =? -1) then
        FatalError (popt_BadOption popt +:+ ": " +:+ popt_Strerror popt)
      else
        match popt_leftovers popt with
        | [] => FatalError "no file name arguments"
        | leftovers => process_files fs s leftovers
        end
  end.

(** [main] (lines 303-327): the calls made and the exit code;
    [session_created] tells whether [Session::Create] returned. *)
Definition main (session_created : bool) (fs : Files) (popt : Popt)
  : list Call * Z :=
  if session_created then
    match Main fs popt with
    | (calls, Returned) => (calls, 0)
    | (calls, Thrown_MiKTeXException) => (calls ++ [PrintException], 1)
    | (calls, Thrown_int r) => (calls, r)
    end
  else ([PrintException], 1).

End Main.

(** Reading back what [ToStr] wrote: a backslash stands for the character
    after it. *)
Fixpoint FromStr (s : list ascii) : list ascii :=
  match s with
  | [] => []
  | ch :: s' =>
      if Ascii.eqb ch BACKSLASH then
        match s' with
        | ch' :: s'' => ch' :: FromStr s''
        | [] => [ch]
        end
      else ch :: FromStr s'
  end.

(** Text that can stand between two double quotes: no double quote without
    a backslash before it, and no backslash left over at the end. *)
Fixpoint closes_literal (s : list ascii) : bool :=
  match s with
  | [] => true
  | ch :: s' =>
      if Ascii.eqb ch BACKSLASH then
        match s' with
        | _ :: s'' => closes_literal s''
        | [] => false
        end
      else if Ascii.eqb ch QUOTE then false
      else closes_literal s'
  end.

(** Options before which the loop neither returns nor throws. *)
Definition passes (o : Option * string) : Prop :=
  fst o <> OPT_VERSION /\
  (fst o = OPT_SET_VALUE -> In "="%char (c_str (snd o))).

(** The task an option selects, if it selects one. *)
Definition task_of (o : Option) : option TASK :=
  match o with
  | OPT_COMPUTE_DIGEST => Some TASK_ComputeDigest
  | OPT_PRINT_CLASSES => Some TASK_PrintClasses
  | OPT_SET_VALUE => Some TASK_SetValue
  | OPT_SIGN => Some TASK_Sign
  | OPT_PRIVATE_KEY_FILE | OPT_VERSION => None
  end.

(** The task the options leave: the last one selected, [ComputeDigest]
    when none is. *)
Definition last_task (opts : list (Option * string)) : TASK :=
  match last (omap (fun o => task_of (fst o)) opts) with
  | Some t => t
  | None => TASK_ComputeDigest
  end.

(** The arguments of the [--set-value] options, in order. *)
Definition set_value_args (opts : list (Option * string)) : list string :=
  omap (fun o => match fst o with
                 | OPT_SET_VALUE => Some (snd o)
                 | _ => None
                 end) opts.

Definition is_file_call (c : Call) : bool :=
  match c with
  | Cfg_Read _ | Cfg_PutValue _ _ _ | Cfg_Write _ | Cfg_Write_signed _ _ => true
  | _ => false
  end.

Definition is_write_call (c : Call) : bool :=
  match c with
  | Cfg_PutValue _ _ _ | Cfg_Write _ | Cfg_Write_signed _ _ => true
  | _ => false
  end.


(** The name and the value that [--set-value] takes from its argument. *)
Definition name_value (optArg : string) : string * string :=
  match find_equals (c_str optArg) with
  | Some pos => (substr optArg 0 (Some pos), substr optArg (pos + 1) None)
  | None => (optArg, "")
  end.


End Cfg.


(** * MakeTFM (Programs/MiKTeX/makex/maketfm.cpp) *)

Module MakeTfm.

(** What a placeholder of the destination template is replaced by
    (lines 94-108): nothing for a character that is none of the four. *)
Definition placeholder (supplier typeface : list ascii) (d : ascii)
  : list ascii :=
  if Ascii.eqb d "%"%char then ["%"%char]
  else if Ascii.eqb d "R"%char then ["%"%char; "R"%char]
  else if Ascii.eqb d "s"%char then supplier
  else if Ascii.eqb d "t"%char then typeface
  else [].

(** The loop of [CreateDestinationDirectory] over the template (lines
    90-115): [templ2]. A [%] that is the last character makes the two
    increments of [lpsz] step over the terminating NUL: [None]. *)
Fixpoint expand_template (supplier typeface : list ascii) (lpsz : list ascii)
  : option (list ascii) :=
  match lpsz with
  | [] => Some []
  | c :: rest =>
      if Ascii.eqb c NUL then Some []
      else if Ascii.eqb c PERCENT then
        match rest with
        | [] => None
        | d :: rest' =>
            option_map (app (placeholder supplier typeface d))
              (expand_template supplier typeface rest')
        end
      else option_map (cons c) (expand_template supplier typeface rest)
  end.

(** Calls that change something or tell the user something; questions to
    the session and the file system are given by their answers. *)
Inductive Call : Type :=
| GetOptions
| TemporaryDirectory_Create
| CreateDirectoryFromTemplate (templ : string)
| Message (text : string)
| Verbose (text : string)
| RunProcess (exe : string) (arguments : list string) (workingDirectory : PathName)
| RunMETAFONT (name : string) (workingDirectory : PathName)
| Install (source dest : PathName)
| FatalError (text : string).

(** What the collaborators of one run answer. *)
Record Env : Type := mkEnv {
  (** [argv], and [optionIndex] and the flags after [GetOptions] *)
  argv : list string;
  optionIndex : Z;
  debug : bool;
  verbose : bool;
  printOnly : bool;
  (** [TemporaryDirectory::Create()->GetPathName()] *)
  wrkDir : PathName;
  (** [session->GetFontInfo(name, supplier, typeface, nullptr)] *)
  GetFontInfo : string -> option (string * string);
  (** the configuration value [MakeTFM]/[DestDir] *)
  DestDir : string;
  (** [CreateDirectoryFromTemplate(templ)] *)
  directoryFromTemplate : string -> PathName;
  (** [File::Exists(path)] *)
  File_Exists : PathName -> bool;
  (** [session->FindFile(name, FileType::MF, mfPath)] *)
  FindFile_MF : string -> option PathName;
  (** [RunProcess(exe, arguments, workingDirectory)] *)
  runProcess : string -> list string -> bool;
  (** [RunMETAFONT(name, nullptr, nullptr, workingDirectory)] *)
  runMETAFONT : string -> bool
}.

(** How a member function is left: it returns, [FatalError] throws, or a
    read leaves the template string. *)
Inductive Outcome (A : Type) : Type :=
| Done (a : A)
| Thrown
| Out_of_string.

Arguments Done {A} a.
Arguments Thrown {A}.
Arguments Out_of_string {A}.

Definition M (A : Type) : Type := list Call * Outcome A.

Definition mret {A} (a : A) : M A := ([], Done a).

Definition mbind {A B} (m : M A) (k : A -> M B) : M B :=
  match m with
  | (calls, Done a) => let '(calls', o) := k a in (calls ++ calls', o)
  | (calls, Thrown) => (calls, Thrown)
  | (calls, Out_of_string) => (calls, Out_of_string)
  end.

Definition call (c : Call) : M unit := ([c], Done tt).

(** [Application::FatalError], which [MakeUtility] inherits: it throws. *)
Definition fatal {A} (text : string) : M A := ([FatalError text], Thrown).

Section Run.

Variable MIKTEX_HBF2GF_EXE : string.
Variable MIKTEX_PLTOTF_EXE : string.
Variable MIKTEX_MAKEMF_EXE : string.

(** The macro [Q_]. *)
Variable Q_ : string -> string.

(** [CreateDestinationDirectory] (lines 76-120): [destinationDirectory]. *)
Definition CreateDestinationDirectory (env : Env) (name : string)
  : M PathName :=
  let '(supplier, typeface) :=
    match GetFontInfo env name with
    | Some font => font
    | None => ("public", "misc")
    end in
  match expand_template (c_str supplier) (c_str typeface)
          (c_str (DestDir env)) with
  | None => ([], Out_of_string)
  | Some templ2 =>
      mbind (call (CreateDirectoryFromTemplate (string_of_list_ascii templ2)))
        (fun _ => mret (directoryFromTemplate env (string_of_list_ascii templ2)))
  end.

(** [MakeFromHBF] (lines 122-148). *)
Definition MakeFromHBF (env : Env) (name : string)
    (workingDirectory : PathName) : M bool :=
  let arguments := (if debug env then ["-q"] else []) ++ ["-g"; name; "300"] in
  mbind (call (RunProcess MIKTEX_HBF2GF_EXE arguments workingDirectory))
    (fun _ =>
       if negb (runProcess env MIKTEX_HBF2GF_EXE arguments) then mret false
       else
         let arguments := [name +:+ ".pl"; name +:+ ".tfm"] in
         mbind (call (RunProcess MIKTEX_PLTOTF_EXE arguments workingDirectory))
           (fun _ =>
              if negb (runProcess env MIKTEX_PLTOTF_EXE arguments)
              then fatal ("PLtoTF failed on " +:+ Q_ name +:+ ".")
              else mret true)).

(** [Run] (lines 150-223). *)
Definition Run (env : Env) : M unit :=
  mbind (call GetOptions) (fun _ =>
  if negb (Z.of_nat (length (argv env)) - optionIndex env =? 1) then
    fatal "Invalid command-line."
  else
    let name := nth (Z.to_nat (optionIndex env)) (argv env) "" in
    mbind (call TemporaryDirectory_Create) (fun _ =>
    mbind (CreateDestinationDirectory env name) (fun destinationDirectory =>
    let pathTFMName := name +:+ ".tfm" in
    let pathDest := destinationDirectory // pathTFMName in
    if File_Exists env pathDest then
      call (Message ("TFM file " +:+ Q_ pathDest +:+ " already exists."))
    else
      mbind
        (match FindFile_MF env name with
         | Some mfPath => mret (false, mfPath)
         | None =>
             let arguments :=
               (if debug env then ["--debug"] else [])
               ++ (if verbose env then ["--verbose"] else [])
               ++ (if printOnly env then ["--print-only"] else [])
               ++ [name] in
             mbind (call (RunProcess MIKTEX_MAKEMF_EXE arguments (wrkDir env)))
               (fun _ =>
                  if negb (runProcess env MIKTEX_MAKEMF_EXE arguments) then
                    mbind (MakeFromHBF env name (wrkDir env)) (fun made =>
                      if negb made then
                        fatal ("No creation rule for font " +:+ Q_ name +:+ ".")
                      else mret (true, PathName_empty))
                  else mret (false, PathName_empty))
         end)
        (fun found =>
           let '(done, mfPath) := found in
           mbind
             (if negb done then
                mbind (call (Verbose ("Making " +:+ Q_ pathTFMName +:+ " from "
                                      +:+ Q_ mfPath +:+ "...")))
                  (fun _ =>
                     mbind (call (RunMETAFONT name (wrkDir env))) (fun _ =>
                       if negb (runMETAFONT env name) then
                         fatal ("METAFONT failed on " +:+ Q_ name +:+ ".")
                       else mret tt))
              else mret tt)
             (fun _ => call (Install (wrkDir env // pathTFMName) pathDest))))))%Z.

End Run.

(** The calls that build or install. *)
Definition is_step (c : Call) : bool :=
  match c with
  | RunProcess _ _ _ | RunMETAFONT _ _ | Install _ _ | FatalError _
  | Message _ => true
  | _ => false
  end.

End MakeTfm.


Section Application.

Set Default Proof Using "Type".

(** Macros of headers that are not part of app.cpp. *)
Variable MIKTEX_PATH_LANGUAGE_DAT : PathName.
Variable MIKTEX_PATH_LANGUAGES_INI : PathName.
Variable MIKTEX_PATH_PACKAGE_MANIFESTS_INI : PathName.
Variable MIKTEX_PATH_AUTO_MAINTENANCE_LOCK : PathName.
Variable MIKTEX_MIKTEX_EXE : string.

(** [PathName::GetFileNameWithoutExtension().ToString()]. *)
Variable GetFileNameWithoutExtension : PathName -> string.

(** The bits of the result of [MiKTeX::UI::InstallPackageMessageBox]. *)
Variable UI_YES : Z.
Variable UI_DONTASKAGAIN : Z.
Variable UI_ADMIN : Z.

(** [Utils::GetExeName()]. *)
Variable GetExeName : string.

(** The platform app.cpp is compiled for. *)
Variable platform : Platform.

(** ** Staleness of the derived files (app.cpp, lines 320-342) *)

(** [mustRefreshFndb]. *)
Definition mustRefreshFndb (s : Session) (fs : FileSystem) : option bool :=
  let lastAdminMaintenance := GetConfigValue_TimeT s CORE_LAST_ADMIN_MAINTENANCE in
  let mpmDatabasePath := GetMpmDatabasePathName s in
  or_else (negb (File_Exists fs mpmDatabasePath))
    (and_then (negb (IsAdminMode s))
       (newer_than lastAdminMaintenance fs mpmDatabasePath)).

Definition userLanguageDat (s : Session) : PathName :=
  if IsAdminMode s then PathName_empty
  else GetSpecialPath s SpecialPath_UserConfigRoot // MIKTEX_PATH_LANGUAGE_DAT.

Definition userLanguagesIni (s : Session) : PathName :=
  if IsAdminMode s then PathName_empty
  else GetSpecialPath s SpecialPath_UserConfigRoot // MIKTEX_PATH_LANGUAGES_INI.

(** [mustRefreshUserLanguageDat], after its second assignment. *)
Definition mustRefreshUserLanguageDat (s : Session) (fs : FileSystem)
  : option bool :=
  let lastAdminMaintenance := GetConfigValue_TimeT s CORE_LAST_ADMIN_MAINTENANCE in
  match and_then (negb (IsAdminMode s))
          (and_then (File_Exists fs (userLanguageDat s))
             (newer_than lastAdminMaintenance fs (userLanguageDat s)))
  with
  | Some b =>
      or_else b
        (and_then (negb (IsAdminMode s))
           (IsNewer fs (userLanguagesIni s) (userLanguageDat s)))
  | None => None
  end.

Definition userPackageManifestsIni (s : Session) : PathName :=
  GetSpecialPath s SpecialPath_InstallRoot // MIKTEX_PATH_PACKAGE_MANIFESTS_INI.

(** [mustUpdateDb]. *)
Definition mustUpdateDb (s : Session) (fs : FileSystem) : option bool :=
  if negb (IsAdminMode s) then
    let lastAdminUpdateDb := GetConfigValue_TimeT s MPM_LAST_ADMIN_UPDATE_DB in
    and_then (File_Exists fs (userPackageManifestsIni s))
      (newer_than lastAdminUpdateDb fs (userPackageManifestsIni s))
  else Some false.

(** ** [Application::AutoMaintenance] *)

Definition isSetupMode (s : Session) : bool :=
  (GetConfigValue_TimeT s CORE_LAST_ADMIN_MAINTENANCE =? 0)
  && (GetConfigValue_TimeT s CORE_LAST_USER_MAINTENANCE =? 0)
  && negb (IsMiKTeXPortable s).

Definition Process_Run (env : MaintenanceEnv) (exe : PathName)
    (args : list string) : Prog (bool * Z) :=
  (emit (Ev_Process_Run exe args) ;; ret (processRun env exe args))%prog.

(** One helper invocation: [Process::Run] and the error log entry when it
    returns [false]; [who] is the spelling used in that entry. *)
Definition run_helper (env : MaintenanceEnv) (exe : PathName)
    (args : list string) (who : string) : Prog unit :=
  (let* r := Process_Run env exe args in
   when (negb (fst r))
     (LOG4CXX LOG_ERROR (who +:+ " exited with code " +:+ pretty (snd r))))%prog.

(** [commonArgs] (lines 369-385). *)
Definition commonArgs (oneMiKTeXUtility : PathName) (st : App) : list string :=
  [GetFileNameWithoutExtension oneMiKTeXUtility]
  ++ match enableInstaller (pimpl st) with
     | TriState_False => ["--disable-installer"]
     | TriState_True => ["--enable-installer"]
     | TriState_Undetermined => []
     end
  ++ (if IsAdminMode (session (pimpl st)) then ["--admin"] else [])
  ++ ["--quiet"].

(** [if (pimpl->packageManager == nullptr) { ... = PackageManager::Create(...); }]
    (lines 356-359 and 646-649). *)
Definition ensure_packageManager : Prog unit :=
  (let* st := get in
   when (negb (packageManager (pimpl st)))
     (emit Ev_PackageManager_Create ;; update (set_packageManager true)))%prog.

(** [if (pimpl->installer == nullptr) { ... = packageManager->CreateInstaller(); }]
    (lines 360-363 and 691-694). *)
Definition ensure_installer : Prog unit :=
  (let* st := get in
   when (negb (installer (pimpl st)))
     (emit Ev_CreateInstaller ;; update (set_installer true)))%prog.

(** The in-process package database update (lines 353-368). *)
Definition update_db_from_cache (env : MaintenanceEnv) : Prog unit :=
  (LOG4CXX LOG_INFO "refreshing user's package database from cache" ;;
   ensure_packageManager ;;
   ensure_installer ;;
   let* st2 := get in
   scoped
     (update (set_beQuiet true) ;;
      emit Ev_SetCallback ;;
      emit Ev_UpdateDb_FromCache ;;
      match updateDb env with
      | None => ret tt
      | Some e => throw e
      end)
     (with_pimpl (set_beQuiet (beQuiet (pimpl st2)))))%prog.

(** The helper invocations (lines 369-418). *)
Definition helper_runs (env : MaintenanceEnv) (oneMiKTeXUtility : PathName)
    (fndb languageDat : bool) : Prog unit :=
  (let* st := get in
   let common := commonArgs oneMiKTeXUtility st in
   when fndb
     (LOG4CXX LOG_INFO
        "running One MiKTeX Utility to refresh the file name database" ;;
      emit Ev_UnloadFilenameDatabase ;;
      run_helper env oneMiKTeXUtility (common ++ ["fndb"; "refresh"])
        "One MiKTEX Utility") ;;
   when fndb
     (LOG4CXX LOG_INFO "running One MiKTeX Utility to create font map files" ;;
      run_helper env oneMiKTeXUtility (common ++ ["fontmaps"; "configure"])
        "One MiKTEX Utility") ;;
   when languageDat
     (LOG4CXX LOG_INFO "running One MiKTeX Utility to refresh language.dat" ;;
      run_helper env oneMiKTeXUtility (common ++ ["languages"; "configure"])
        "One MiKTeX Utility"))%prog.

(** What runs while the lock is held (lines 352-418). *)
Definition maintenance_steps (env : MaintenanceEnv)
    (oneMiKTeXUtility : PathName)
    (fndb languageDat db : bool) : Prog unit :=
  (LOG4CXX LOG_TRACE "running MIKTEX_HOOK_AUTO_MAINTENANCE" ;;
   when db (update_db_from_cache env) ;;
   helper_runs env oneMiKTeXUtility fndb languageDat)%prog.

(** The address of lines 310-316. *)
Definition howto_install_url : string :=
  match platform with
  | Platform_Windows => "https://miktex.org/howto/install-miktex-win"
  | Platform_Apple => "https://miktex.org/howto/install-miktex-mac"
  | Platform_Other => "https://miktex.org/howto/install-miktex-unx"
  end.

(** What lines 305-316 write to [cerr], in one statement. *)
Definition fresh_installation_notice : string :=
  endl +:+ "It seems that this is a fresh TeX installation." +:+ endl
  +:+ "Please finish the setup before proceeding." +:+ endl
  +:+ "For more information, visit:" +:+ endl
  +:+ howto_install_url +:+ endl.

(** The lock file of line 347. *)
Definition maintenance_lock (s : Session) : PathName :=
  GetSpecialPath s SpecialPath_DataRoot // MIKTEX_PATH_AUTO_MAINTENANCE_LOCK.

Definition AutoMaintenance (env : MaintenanceEnv) : Prog unit :=
  (let* st := get in
   let s := session (pimpl st) in
   if isSetupMode s then
     emit (Ev_Cerr fresh_installation_notice) ;;
     throw (Exn_int 1)
   else
     let* fndb := eval (mustRefreshFndb s (files env)) in
     let* languageDat := eval (mustRefreshUserLanguageDat s (files env)) in
     let* db := eval (mustUpdateDb s (files env)) in
     if fndb || languageDat || db then
       emit (Ev_FindFile MIKTEX_MIKTEX_EXE) ;;
       match findFile env MIKTEX_MIKTEX_EXE with
       | Some oneMiKTeXUtility =>
           let lockPath := maintenance_lock s in
           emit (Ev_TryLock lockPath) ;;
           if negb (tryLock env lockPath) then ret tt
           else maintenance_steps env oneMiKTeXUtility fndb languageDat db
       | None => ret tt
       end
     else ret tt)%prog.
(** ** [Application::InstallPackage] *)

(** [MiKTeX::Packages::RepositoryType]. *)
Inductive RepositoryType : Type :=
| RepositoryType_Unknown
| RepositoryType_MiKTeXDirect
| RepositoryType_Local
| RepositoryType_Remote
| RepositoryType_MiKTeXInstallation.

(** The members of [ProxySettings] that [InstallPackage] reads. *)
Record ProxySettings : Type := mkProxySettings {
  useProxy : bool;
  authenticationRequired : bool;
  user : string
}.

(** What the collaborators of one [InstallPackage] call answer. *)
Record InstallEnv : Type := mkInstallEnv {
  (** [MiKTeX::UI::InstallPackageMessageBox(packageManager, id, trigger)] *)
  installPackageMessageBox : string -> PathName -> Z;
  (** [PackageManager::TryGetDefaultPackageRepository(type, url)] *)
  tryGetDefaultPackageRepository : option (RepositoryType * string);
  (** [PackageManager::TryGetProxy(proxySettings)] *)
  tryGetProxy : option ProxySettings;
  (** [MiKTeX::UI::ProxyAuthenticationDialog()] *)
  proxyAuthenticationDialog : bool;
  (** [installer->InstallRemove(Role::Application)]: returns, or throws *)
  installRemove : option Exn
}.

Definition InitializeFramework_once : Prog unit :=
  (let* st := get in
   when (negb (initUiFrameworkDone st))
     (emit Ev_UI_InitializeFramework ;;
      modify (set_initUiFrameworkDone true)))%prog.

Definition ignore_package (packageId : string) : Prog unit :=
  update (fun i => set_ignoredPackages ({[packageId]} ∪ ignoredPackages i) i).

(** The block run when [enableInstaller] is [Undetermined] (lines 650-670);
    the result is [doInstall]. *)
Definition ask_user (env : InstallEnv) (packageId : string)
    (trigger : PathName) : Prog bool :=
  (InitializeFramework_once ;;
   emit (Ev_InstallPackageMessageBox packageId trigger) ;;
   let msgBoxRet := installPackageMessageBox env packageId trigger in
   let doInstall := negb (Z.land msgBoxRet UI_YES =? 0) in
   when (negb (Z.land msgBoxRet UI_DONTASKAGAIN =? 0))
     (update (set_enableInstaller
                (if doInstall then TriState_True else TriState_False))) ;;
   if negb doInstall then
     ignore_package packageId ;;
     ret false
   else
     update (set_mpmAutoAdmin
               (if negb (Z.land msgBoxRet UI_ADMIN =? 0)
                then TriState_True else TriState_False)) ;;
     ret true)%prog.

(** The condition of lines 674-679, evaluated left to right. *)
Definition proxy_credentials_missing (env : InstallEnv) : Prog bool :=
  (emit Ev_TryGetDefaultPackageRepository ;;
   match tryGetDefaultPackageRepository env with
   | Some (RepositoryType_Remote, _) =>
       emit Ev_TryGetProxy ;;
       match tryGetProxy env with
       | Some proxySettings =>
           ret (useProxy proxySettings
                && authenticationRequired proxySettings
                && bool_decide (user proxySettings = ""))
       | None => ret false
       end
   | _ => ret false
   end)%prog.

Definition Session_SetAdminMode (b : bool) : Prog unit :=
  (emit (Ev_SetAdminMode b) ;;
   update (fun i => set_session (SetAdminMode b (session i)) i))%prog.

Definition Installer_InstallRemove (env : InstallEnv) : Prog unit :=
  (emit Ev_InstallRemove ;;
   match installRemove env with
   | None => ret tt
   | Some e => throw e
   end)%prog.

(** Lines 691-725; the result pairs [done] with the caller's [installRoot]
    variable after the call. *)
Definition install_now (env : InstallEnv) (packageId : string)
    (trigger installRoot : PathName) : Prog (bool * PathName) :=
  (ensure_installer ;;
   emit Ev_SetCallback ;;
   emit (Ev_SetFileLists [packageId] []) ;;
   LOG4CXX LOG_INFO
     ("installing package " +:+ packageId +:+ " triggered by " +:+ trigger) ;;
   let* st := get in
   let switchToAdminMode :=
     TriState_eqb (mpmAutoAdmin (pimpl st)) TriState_True
     && negb (IsAdminMode (session (pimpl st))) in
   when switchToAdminMode (Session_SetAdminMode true) ;;
   let* r :=
     try_catch_MiKTeX
       (Installer_InstallRemove env ;;
        let* st1 := get in
        ret (true, GetSpecialPath (session (pimpl st1)) SpecialPath_InstallRoot))
       (fun errorMessage info sourceFile sourceLine =>
          update (set_enableInstaller TriState_False) ;;
          ignore_package packageId ;;
          LOG4CXX LOG_FATAL errorMessage ;;
          LOG4CXX LOG_FATAL ("Info: " +:+ info) ;;
          LOG4CXX LOG_FATAL ("Source: " +:+ sourceFile) ;;
          LOG4CXX LOG_FATAL ("Line: " +:+ pretty sourceLine) ;;
          ret (false, installRoot)) in
   when switchToAdminMode (Session_SetAdminMode false) ;;
   ret r)%prog.

(** Lines 671-690: the proxy credentials dialog, when it is needed; the
    result tells whether the user cancelled it. *)
Definition proxy_dialog_cancelled (env : InstallEnv) : Prog bool :=
  (let* askProxy := proxy_credentials_missing env in
   if askProxy then
     InitializeFramework_once ;;
     emit Ev_ProxyAuthenticationDialog ;;
     ret (negb (proxyAuthenticationDialog env))
   else ret false)%prog.

Definition InstallPackage (env : InstallEnv) (packageId : string)
    (trigger installRoot : PathName) : Prog (bool * PathName) :=
  (let* st := get in
   if bool_decide (packageId ∈ ignoredPackages (pimpl st)) then
     ret (false, installRoot)
   else if TriState_eqb (enableInstaller (pimpl st)) TriState_False then
     ret (false, installRoot)
   else
     ensure_packageManager ;;
     let* doInstall :=
       (if TriState_eqb (enableInstaller (pimpl st)) TriState_Undetermined
        then ask_user env packageId trigger
        else ret true) in
     if negb doInstall then ret (false, installRoot)
     else
       let* cancelled := proxy_dialog_cancelled env in
       if cancelled then ret (false, installRoot)
       else install_now env packageId trigger installRoot)%prog.

(** [Application::EnableInstaller] and [Application::GetEnableInstaller]
    (lines 792-800). *)
Definition EnableInstaller (tri : TriState) : Prog unit :=
  update (set_enableInstaller tri).

Definition GetEnableInstaller : Prog TriState :=
  (let* st := get in ret (enableInstaller (pimpl st)))%prog.


(** ** [Application::InvokeEditor]: the editor command (lines 976-1078) *)

(** The first loop (lines 1014-1025): the program name is read up to a
    space that is not inside quotes. The loop goes on while the character is
    not a space, or is not NUL and inside quotes; at the terminating NUL the
    first test holds, so the body runs and [++p] leaves the string: [None].
    Otherwise the result is [commandLine], [fileName] and what is left of the
    template. *)
Fixpoint scan_program (p : list ascii) (quoted : bool)
    (commandLine fileName : list ascii)
  : option (list ascii * list ascii * list ascii) :=
  match p with
  | [] =>
      if negb (Ascii.eqb NUL SPACE) || (negb (Ascii.eqb NUL NUL) && quoted)
      then None
      else Some (commandLine, fileName, p)
  | c :: p' =>
      if negb (Ascii.eqb c SPACE) || (negb (Ascii.eqb c NUL) && quoted) then
        if Ascii.eqb c QUOTE
        then scan_program p' (negb quoted) (commandLine ++ [c]) fileName
        else scan_program p' quoted (commandLine ++ [c]) (fileName ++ [c])
      else Some (commandLine, fileName, p)
  end.

(** The second loop (lines 1027-1030). *)
Fixpoint skip_spaces (p commandLine : list ascii)
  : list ascii * list ascii :=
  match p with
  | c :: p' =>
      if Ascii.eqb c SPACE then skip_spaces p' (commandLine ++ [c])
      else (commandLine, p)
  | [] => (commandLine, p)
  end.

(** What the collaborators of one [InvokeEditor] call answer. *)
Record EditorEnv : Type := mkEditorEnv {
  (** [session->FindFile(MIKTEX_TEXWORKS_EXE, FileType::EXE, texworks)] *)
  findTexworks : option PathName;
  (** the value of [Settings]/[Editor] in yap.ini, when the file exists and
      has one *)
  yapEditor : option string;
  (** the configuration value [General]/[Editor], when it is set *)
  configEditor : option string;
  (** [session->FindFile(editFileName, editFileType, path)] *)
  findEditFile : option PathName
}.

(** The third loop (lines 1032-1077); the result is what it appends to
    [commandLine]. *)
Fixpoint expand_placeholders (env : EditorEnv) (editFileName : PathName)
    (editLineNumber : Z) (transcriptFileName : PathName) (p : list ascii)
  : Prog (list ascii) :=
  match p with
  | [] => ret []
  | c :: p' =>
      if Ascii.eqb c NUL then ret []
      else
        let literal :=
          (let* rest := expand_placeholders env editFileName editLineNumber
                          transcriptFileName p' in
           ret (c :: rest))%prog in
        if Ascii.eqb c PERCENT then
          match p' with
          | d :: p'' =>
              if Ascii.eqb d NUL then literal
              else
                (let* text :=
                   (if Ascii.eqb d "%"%char then ret ["%"%char]
                    else if Ascii.eqb d "f"%char then
                      emit (Ev_FindFile editFileName) ;;
                      match findEditFile env with
                      | Some path => ret (c_str path)
                      | None => ret (c_str editFileName)
                      end
                    else if Ascii.eqb d "h"%char then ret []
                    else if Ascii.eqb d "t"%char then
                      ret (c_str transcriptFileName)
                    else if Ascii.eqb d "l"%char then
                      ret (c_str (pretty editLineNumber))
                    else if Ascii.eqb d "m"%char then ret []
                    else ret []) in
                 let* rest := expand_placeholders env editFileName
                                editLineNumber transcriptFileName p'' in
                 ret (text ++ rest))%prog
          | [] => literal
          end
        else literal
  end.

Section EditorCommand.

Variable MIKTEX_TEXWORKS_EXE : string.

(** The macro [Q_], which quotes a string for display or a command line. *)
Variable Q_ : string -> string.

(** [defaultEditor] after line 987. *)
Definition builtin_editor (env : EditorEnv) : string :=
  match findTexworks env with
  | Some texworks =>
      Q_ texworks +:+ " -p=%l "
      +:+ String QUOTE ("%f" +:+ String QUOTE EmptyString)
  | None => "notepad " +:+ String QUOTE ("%f" +:+ String QUOTE EmptyString)
  end.

(** [InvokeEditor] up to the call of [Process::Start], which gets the
    result: the program and the command line. [None] stands for a scan that
    left the template string. *)
Definition InvokeEditor_command (env : EditorEnv) (editFileName : PathName)
    (editLineNumber : Z) (transcriptFileName : PathName)
  : Prog (option (string * string)) :=
  (emit (Ev_FindFile MIKTEX_TEXWORKS_EXE) ;;
   let* st := get in
   let defaultEditor :=
     if negb (IsAdminMode (session (pimpl st))) then
       match yapEditor env with
       | Some yapEditor => yapEditor
       | None => builtin_editor env
       end
     else builtin_editor env in
   let templ := match configEditor env with
                | Some editor => editor
                | None => defaultEditor
                end in
   match scan_program (c_str templ) false [] [] with
   | None => ret None
   | Some (commandLine, fileName, p) =>
       let '(commandLine, p) := skip_spaces p commandLine in
       let* expansion := expand_placeholders env editFileName editLineNumber
                           transcriptFileName p in
       ret (Some (string_of_list_ascii fileName,
                  string_of_list_ascii (commandLine ++ expansion)))
   end)%prog.

End EditorCommand.


(** ** [Sorry] and [FatalError] *)

(** What the output side answers during one [Sorry] call. *)
Record SorryEnv : Type := mkSorryEnv {
  (** [cerr.fail()] *)
  cerr_fail : bool;
  (** the file of the root logger's appender [RollingLogFile], when there is
      such an appender *)
  rollingLogFile : option PathName
}.

Section Sorry.

(** The macro [Q_], which quotes a string for display. *)
Variable Q_ : string -> string.

(** [Sorry(name, description, remedy, url)] (lines 861-913); one [Ev_Cerr]
    for each output statement. *)
Definition Sorry (env : SorryEnv) (name description remedy url : string)
  : Prog unit :=
  (if cerr_fail env then ret tt
   else
     emit (Ev_Cerr endl) ;;
     (if bool_decide (description = "") then
        emit (Ev_Cerr ("Sorry, but " +:+ Q_ name +:+ " did not succeed."
                       +:+ endl))
      else
        emit (Ev_Cerr ("Sorry, but " +:+ Q_ name
                       +:+ " did not succeed for the following reason:"
                       +:+ endl +:+ endl +:+ "  " +:+ description +:+ endl)) ;;
        when (negb (bool_decide (remedy = "")))
          (emit (Ev_Cerr (endl +:+ "Remedy:" +:+ endl +:+ endl +:+ "  "
                          +:+ remedy +:+ endl)))) ;;
     let* st := get in
     when (isLog4cxxConfigured st)
       (match rollingLogFile env with
        | Some file =>
            emit (Ev_Cerr (endl
                           +:+ "The log file hopefully contains the information to get MiKTeX going again:"
                           +:+ endl +:+ endl +:+ "  " +:+ file +:+ endl))
        | None => ret tt
        end) ;;
     when (negb (bool_decide (url = "")))
       (emit (Ev_Cerr (endl +:+ "For more information, visit: " +:+ url
                       +:+ endl))))%prog.

(** [FatalError] (lines 946-955); the header gives [remedy] and [url] of
    [Sorry] the default value, the empty string. *)
Definition FatalError (env : SorryEnv) (s : string) : Prog unit :=
  (let* st := get in
   when (logger (pimpl st)) (LOG4CXX LOG_FATAL s) ;;
   Sorry env GetExeName s "" "" ;;
   throw (Exn_int 1))%prog.

End Sorry.

(** ** [Application::Init] *)

(** [ConfigureLogging], as far as the application object is concerned: the
    search for the log4cxx configuration file and the configuration itself
    (lines 270-287) are the one call [Ev_ConfigureLogging]. *)
Definition ConfigureLogging : Prog unit :=
  (emit Ev_ConfigureLogging ;;
   modify (set_isLog4cxxConfigured true) ;;
   update (set_logger true))%prog.

Definition LogWarn (msg : string) : Prog unit :=
  (let* st := get in
   when (logger (pimpl st)) (LOG4CXX LOG_WARN msg))%prog.

(** [SecurityRisk] (lines 965-972). *)
Definition SecurityRisk (s : string) : Prog unit :=
  (LogWarn ("security risk" +:+ ": " +:+ s) ;;
   let* st := get in
   when (negb (beQuiet (pimpl st)))
     (emit (Ev_Cerr (GetExeName +:+ ": " +:+ "security risk" +:+ ": " +:+ s
                     +:+ endl))))%prog.

(** The macro [Q_], which quotes a string for display. *)
Variable Q_ : string -> string.

(** The process that runs [Init]. *)
Variable thisProcess : ProcessEnv.

(** [invokerName] (lines 476-484). *)
Definition invokerName : string :=
  match parent_ProcessName thisProcess with
  | Some name => if bool_decide (name = "") then "unknown process" else name
  | None => "unknown process"
  end.

(** The log entry of line 493. *)
Definition started_message (commandLine : string) : string :=
  "this process (" +:+ pretty (GetSystemId thisProcess) +:+ ") started by "
  +:+ Q_ invokerName +:+ " in directory " +:+ currentDirectory thisProcess
  +:+ " with command line: " +:+ commandLine.

(** The log entry of line 495, written on Windows only. *)
Definition running_on_Windows : string :=
  "running on Windows "
  +:+ WindowsVersion_GetMajorMinorBuildString thisProcess.

(** Lines 466-498: the session is created and logging is configured;
    [created] is the session that [Session::Create] returns. The session
    gets the application as its trace callback (line 469); a message it
    traces is a call of [Trace] of its own and not part of this function,
    which therefore says nothing about the queue of pending messages. *)
Definition Init_session (created : Session) : Prog unit :=
  (update (set_initialized true) ;;
   update (set_session created) ;;
   ConfigureLogging ;;
   let* st0 := get in
   when (negb (bool_decide (commandLine (pimpl st0) = "")))
     (LOG4CXX LOG_INFO (started_message (commandLine (pimpl st0))) ;;
      when (is_Windows platform) (LOG4CXX LOG_INFO running_on_Windows)) ;;
   update (set_beQuiet false))%prog.

Definition AutoAdmin_ignored : string :=
  "ignoring AutoAdmin=t because this is not a shared setup".

(** Lines 499-508: the installer policy is read from the configuration. *)
Definition Init_installer_policy : Prog unit :=
  (let* st1 := get in
   when (TriState_eqb (enableInstaller (pimpl st1)) TriState_Undetermined)
     (update (set_enableInstaller
                (GetConfigValue_TriState (session (pimpl st1)) MPM_AUTOINSTALL))) ;;
   update (fun i => set_mpmAutoAdmin
                      (GetConfigValue_TriState (session i) MPM_AUTOADMIN) i) ;;
   let* st2 := get in
   when (TriState_eqb (mpmAutoAdmin (pimpl st2)) TriState_True
         && negb (IsSharedSetup (session (pimpl st2))))
     (LogWarn AutoAdmin_ignored ;;
      update (set_mpmAutoAdmin TriState_False)))%prog.

(** Lines 509-526: signal handlers, defaults, and the maintenance run. *)
Definition Init_maintenance (env : MaintenanceEnv) : Prog unit :=
  (emit Ev_InstallSignalHandler ;;
   emit Ev_InstallSignalHandler ;;
   let* st3 := get in
   when (TriState_eqb (enableMaintenance (pimpl st3)) TriState_Undetermined)
     (update (set_enableMaintenance TriState_True)) ;;
   let* st4 := get in
   when (TriState_eqb (enableDiagnose (pimpl st4)) TriState_Undetermined)
     (update (set_enableDiagnose TriState_True)) ;;
   let* st5 := get in
   when (RunningAsAdministrator (session (pimpl st5))
         && negb (IsAdminMode (session (pimpl st5))))
     (SecurityRisk "running with elevated privileges") ;;
   let* st6 := get in
   when (TriState_eqb (enableMaintenance (pimpl st6)) TriState_True)
     (AutoMaintenance env))%prog.

(** [Init(const Session::InitInfo&)] (lines 464-527). *)
Definition Init (created : Session) (env : MaintenanceEnv) : Prog unit :=
  (Init_session created ;;
   Init_installer_policy ;;
   Init_maintenance env)%prog.

(** One later call of [InstallPackage]. *)
Record InstallCall : Type := mkInstallCall {
  call_env : InstallEnv;
  call_packageId : string;
  call_trigger : PathName;
  call_installRoot : PathName
}.

(** The calls of [InstallPackage] made one after the other, each from the
    application object the previous one left (also when it threw); the
    result is the final object and all collaborator calls made. *)
Fixpoint InstallPackage_all (cs : list InstallCall) (st : App)
  : App * list Event :=
  match cs with
  | [] => (st, [])
  | c :: cs' =>
      let r := InstallPackage (call_env c) (call_packageId c) (call_trigger c)
                 (call_installRoot c) st in
      let (st', l) := InstallPackage_all cs' (final r) in
      (st', calls r ++ l)
  end.


(** ** [Application::TryCreateFile] *)

(** [MiKTeX::Core::FileType], as far as [TryCreateFile] tells its values
    apart; [FileType_other] stands for every other value. *)
Inductive FileType : Type :=
| FileType_BASE
| FileType_FMT
| FileType_TFM
| FileType_other.

(** What the collaborators of one [TryCreateFile] call answer. *)
Record CreateEnv : Type := mkCreateEnv {
  (** [session->FindFile(name, FileType::EXE, makeUtility)] *)
  create_findFile : string -> option PathName;
  (** [session->GetEngineName()] *)
  engineName : string;
  (** [Process::Run(makeUtility, args, &processOutput, &exitCode, nullptr)]:
      the result, the exit code and the captured output *)
  create_run : PathName -> list string -> bool * Z * string
}.

Variable MIKTEX_MAKETFM_EXE : string.

(** [__FILE__] in app.cpp. *)
Variable app_cpp : string.

(** [MIKTEX_FATAL_ERROR(message)], a macro of the core library's headers: it
    throws a [MiKTeXException] with the message and the source location. *)
Definition MIKTEX_FATAL_ERROR {A} (message : string) (line : Z) : Prog A :=
  throw (Exn_MiKTeX message "" app_cpp line).

(** Lines 730-744: the command line before the utility is known. *)
Definition create_args (st : App) : list string :=
  [""]
  ++ match enableInstaller (pimpl st) with
     | TriState_False => ["--disable-installer"]
     | TriState_True => ["--enable-installer"]
     | TriState_Undetermined => []
     end
  ++ (if IsAdminMode (session (pimpl st)) then ["--admin"] else []).

Definition TryCreateFile (env : CreateEnv) (fileName : PathName)
    (fileType : FileType) : Prog bool :=
  (let* st := get in
   let args := create_args st in
   let baseName := GetFileNameWithoutExtension fileName in
   let* chosen :=
     match fileType with
     | FileType_BASE | FileType_FMT =>
         emit (Ev_FindFile MIKTEX_MIKTEX_EXE) ;;
         match create_findFile env MIKTEX_MIKTEX_EXE with
         | None =>
             MIKTEX_FATAL_ERROR "One MiKTeX Utility could not be found." 754
         | Some makeUtility =>
             ret (Some (makeUtility,
                        args ++ ["formats"; "build"; baseName]
                        ++ match fileType with
                           | FileType_FMT => ["--engine"; engineName env]
                           | _ => []
                           end))
         end
     | FileType_TFM =>
         emit (Ev_FindFile MIKTEX_MAKETFM_EXE) ;;
         match create_findFile env MIKTEX_MAKETFM_EXE with
         | None =>
             MIKTEX_FATAL_ERROR "The MakeTFM utility could not be found." 766
         | Some makeUtility => ret (Some (makeUtility, args ++ [baseName]))
         end
     | FileType_other => ret None
     end in
   match chosen with
   | None => ret false
   | Some (makeUtility, args) =>
       LOG4CXX LOG_INFO ("going to create file: " +:+ fileName) ;;
       let args := <[0%nat := GetFileNameWithoutExtension makeUtility]> args in
       emit (Ev_Process_Run makeUtility args) ;;
       let '(started, exitCode, output) := create_run env makeUtility args in
       if negb started then
         LOG4CXX LOG_ERROR (makeUtility +:+ " could not be started") ;;
         ret false
       else if negb (exitCode =? 0) then
         LOG4CXX LOG_ERROR
           (makeUtility +:+ " did not succeed; exitCode: " +:+ pretty exitCode) ;;
         LOG4CXX LOG_ERROR "output:" ;;
         LOG4CXX LOG_ERROR output ;;
         ret false
       else ret true
   end)%prog.


(** ** [ExamineArgs] and [Init] with arguments *)

(** [Session::InitInfo], as far as [app.cpp] fills it in. *)
Record InitInfo : Type := mkInitInfo {
  programInvocationName : string;
  theNameOfTheGame : string;
  (** [Session::InitOption::AdminMode] is among the options *)
  option_AdminMode : bool
}.

(** [initInfo.AddOption(Session::InitOption::AdminMode)]. *)
Definition AddOption_AdminMode (initInfo : InitInfo) : InitInfo :=
  mkInitInfo (programInvocationName initInfo) (theNameOfTheGame initInfo) true.

(** [initInfo.SetTheNameOfTheGame(name)]. *)
Definition SetTheNameOfTheGame (name : string) (initInfo : InitInfo) : InitInfo :=
  mkInitInfo (programInvocationName initInfo) name (option_AdminMode initInfo).

Definition set_commandLine (c : string) (i : Impl) : Impl :=
  mkImpl (beQuiet i) c (enableDiagnose i) (enableInstaller i)
    (enableMaintenance i) (ignoredPackages i) (initialized i) (installer i)
    (logger i) (mpmAutoAdmin i) (packageManager i) (pendingTraceMessages i)
    (session i).

(** [CommandLineBuilder::ToString] after [AppendArgument] was called with
    each of the arguments in turn. *)
Variable CommandLineBuilder_ToString : list string -> string.

(** What one argument does to [initInfo] and [pimpl] (lines 196-226);
    [None] when [keepArgument] is true. *)
Definition examine (a : string) (initInfo : InitInfo) (i : Impl)
  : option (InitInfo * Impl) :=
  if String.eqb a "--miktex-admin" then
    Some (AddOption_AdminMode initInfo, i)
  else if String.eqb a "--miktex-disable-installer" then
    Some (initInfo, set_enableInstaller TriState_False i)
  else if String.eqb a "--miktex-enable-installer" then
    Some (initInfo, set_enableInstaller TriState_True i)
  else if String.eqb a "--miktex-disable-maintenance" then
    Some (initInfo, set_enableMaintenance TriState_False i)
  else if String.eqb a "--miktex-enable-maintenance" then
    Some (initInfo, set_enableMaintenance TriState_True i)
  else if String.eqb a "--miktex-disable-diagnose" then
    Some (initInfo, set_enableDiagnose TriState_False i)
  else if String.eqb a "--miktex-enable-diagnose" then
    Some (initInfo, set_enableDiagnose TriState_True i)
  else None.

(** The loop of lines 192-236 over [args], a vector of C strings in which
    [nullptr] is [None]: it stops at the end or at the first [nullptr]; an
    erased argument is left out of the vector that is handed back. *)
Fixpoint ExamineArgs_loop (args : list (option string)) (initInfo : InitInfo)
    (i : Impl) (commandLine : list string)
  : list (option string) * InitInfo * Impl * list string :=
  match args with
  | Some a :: rest =>
      let commandLine := commandLine ++ [a] in
      match examine a initInfo i with
      | Some (initInfo', i') => ExamineArgs_loop rest initInfo' i' commandLine
      | None =>
          let '(rest', initInfo', i', commandLine') :=
            ExamineArgs_loop rest initInfo i commandLine in
          (Some a :: rest', initInfo', i', commandLine')
      end
  | _ => (args, initInfo, i, commandLine)
  end.

(** [::ExamineArgs(args, initInfo, pimpl)] (lines 188-238); [args] and
    [initInfo] are passed by reference, so their new values are returned. *)
Definition ExamineArgs (args : list (option string)) (initInfo : InitInfo)
  : Prog (list (option string) * InitInfo) :=
  (let* st := get in
   let '(args', initInfo', i', commandLine) :=
     ExamineArgs_loop args initInfo (pimpl st) [] in
   update (fun _ => set_commandLine (CommandLineBuilder_ToString commandLine) i') ;;
   ret (args', initInfo'))%prog.

(** [Application::ExamineArgs] (lines 240-250). *)
Definition Application_ExamineArgs (args : list (option string))
    (initInfo : InitInfo) : Prog (string * list (option string) * InitInfo) :=
  (let* r := ExamineArgs args initInfo in
   let* st := get in
   ret (commandLine (pimpl st), fst r, snd r))%prog.

(** [Init(const Session::InitInfo&, vector<const char*>&)] (lines 252-266);
    [Session_Create] is [Session::Create]. The result is [args] as the
    caller finds it afterwards. *)
Definition Init_args (Session_Create : InitInfo -> Session)
    (env : MaintenanceEnv) (initInfoArg : InitInfo)
    (args : list (option string)) : Prog (list (option string)) :=
  (let* r := ExamineArgs args initInfoArg in
   Init (Session_Create (snd r)) env ;;
   ret (fst r))%prog.


(** ** [Application::AutoDiagnose] *)

(** [MiKTeX::Setup::IssueSeverity]; the code tells [Critical] and [Major]
    from every other value. *)
Inductive IssueSeverity : Type :=
| IssueSeverity_Critical
| IssueSeverity_Major
| IssueSeverity_Minor.

(** [MiKTeX::Setup::Issue]: its severity, and what [operator<<] prints. *)
Record Issue : Type := mkIssue {
  severity : IssueSeverity;
  issue_text : string
}.

(** What the collaborators of one [AutoDiagnose] call answer. *)
Record DiagnoseEnv : Type := mkDiagnoseEnv {
  (** [time(nullptr)] *)
  now : time_t;
  diagnose_files : FileSystem;
  (** [setupService->FindIssues(false, false)] *)
  findIssues : list Issue;
  (** [setupService->GetIssues()] *)
  getIssues : list Issue
}.

Variable MIKTEX_PATH_ISSUES_JSON : PathName.

Definition ONE_DAY : time_t := 86400.
Definition ONE_WEEK : time_t := 7 * ONE_DAY.

Definition GetQuietFlag : Prog bool :=
  (let* st := get in ret (beQuiet (pimpl st)))%prog.

Definition SetQuietFlag (b : bool) : Prog unit := update (set_beQuiet b).

(** The body of the loop of lines 441-461. [GetQuietFlag] only reads, so
    it does not matter that [&&] calls it for serious issues only. *)
Definition report_issue (issue : Issue) : Prog unit :=
  (let* st := get in
   when (logger (pimpl st))
     (match severity issue with
      | IssueSeverity_Critical => LOG4CXX LOG_FATAL (issue_text issue)
      | IssueSeverity_Major => LOG4CXX LOG_ERROR (issue_text issue)
      | _ => LOG4CXX LOG_WARN (issue_text issue)
      end) ;;
   let serious := match severity issue with
                  | IssueSeverity_Critical | IssueSeverity_Major => true
                  | _ => false
                  end in
   let* quiet := GetQuietFlag in
   when (serious && negb quiet)
     (emit (Ev_Cerr (GetExeName +:+ ": " +:+ issue_text issue +:+ endl))))%prog.

Definition AutoDiagnose (env : DiagnoseEnv) : Prog unit :=
  (let* st := get in
   let issuesJson :=
     GetSpecialPath (session (pimpl st)) SpecialPath_ConfigRoot
     // MIKTEX_PATH_ISSUES_JSON in
   let* recheck :=
     eval (or_else (negb (File_Exists (diagnose_files env) issuesJson))
             (match File_GetLastWriteTime (diagnose_files env) issuesJson with
              | Some w => Some (time_t_add w ONE_WEEK <? now env)
              | None => None
              end)) in
   let issues := if recheck then findIssues env else getIssues env in
   for_each report_issue issues)%prog.


(** [Warning] (lines 956-963). *)
Definition Warning (s : string) : Prog unit :=
  (LogWarn s ;;
   let* st := get in
   when (negb (beQuiet (pimpl st)))
     (emit (Ev_Cerr (GetExeName +:+ ": warning: " +:+ s +:+ endl))))%prog.


(** ** What the specification talks about *)

(** The staleness contract as the specification words it: a derived artifact
    needs a refresh when it is missing or older than its source. *)
Definition NeedsRefresh (sourceTimestamp : time_t)
    (derivedTimestamp : option time_t) : bool :=
  match derivedTimestamp with
  | None => true
  | Some d => d <? sourceTimestamp
  end.

(** The four refresh steps of a maintenance run. *)
Inductive Step : Type :=
| Step_UpdateDb
| Step_Fndb
| Step_Fontmaps
| Step_Languages.

(** The step a collaborator call performs, if any: the in-process database
    update, or a helper run, told apart by its last two arguments. *)
Definition step_of_event (e : Event) : option Step :=
  match e with
  | Ev_UpdateDb_FromCache => Some Step_UpdateDb
  | Ev_Process_Run _ args =>
      match rev args with
      | "refresh" :: "fndb" :: _ => Some Step_Fndb
      | "configure" :: "fontmaps" :: _ => Some Step_Fontmaps
      | "configure" :: "languages" :: _ => Some Step_Languages
      | _ => None
      end
  | _ => None
  end.

Definition steps_of (evs : list Event) : list Step := omap step_of_event evs.

(** The steps a run is due to make, in the order of the specification. *)
Definition scheduled (fndb languageDat db : bool) : list Step :=
  (if db then [Step_UpdateDb] else [])
  ++ (if fndb then [Step_Fndb; Step_Fontmaps] else [])
  ++ (if languageDat then [Step_Languages] else []).

(** Calls that refresh something or start a process. *)
Definition is_refresh_action (e : Event) : bool :=
  match e with
  | Ev_UpdateDb_FromCache | Ev_Process_Run _ _ | Ev_UnloadFilenameDatabase
  | Ev_PackageManager_Create | Ev_CreateInstaller | Ev_SetCallback => true
  | _ => false
  end.

Definition is_TryLock (e : Event) : bool :=
  match e with
  | Ev_TryLock _ => true
  | _ => false
  end.

Definition pending (st : App) : list TraceMessage :=
  pendingTraceMessages (pimpl st).

(** The reading of the trace buffer under which the queue is emptied when
    the 101st message arrives, so that only that message is left. *)
Definition cleared_at_101st (st : App) (ms : list TraceMessage) : Prop :=
  pending (Trace_all (take 101 ms) st) = drop 100 (take 101 ms).

(** The installer policy and the session of an application object: what
    maintenance must leave alone. *)
Definition policy (st : App) : Session * TriState * TriState * gset string :=
  (session (pimpl st), mpmAutoAdmin (pimpl st), enableInstaller (pimpl st),
   ignoredPackages (pimpl st)).

(** The run tried a lock and got it. *)
Definition lock_acquired (env : MaintenanceEnv) (evs : list Event) : bool :=
  existsb (fun e => match e with
                    | Ev_TryLock p => tryLock env p
                    | _ => false
                    end) evs.


(** [wp p st Q]: the run of [p] from [st] ends in a result, a state and a
    list of calls that satisfy [Q]. *)
Definition wp {A} (p : Prog A) (st : App)
    (Q : Res A -> App -> list Event -> Prop) : Prop :=
  Q (result (p st)) (final (p st)) (calls (p st)).


(** The same collaborators with other helper outcomes. *)
Definition with_processRun (env : MaintenanceEnv)
    (run : PathName -> list string -> bool * Z) : MaintenanceEnv :=
  {| files := files env;
     findFile := findFile env;
     tryLock := tryLock env;
     updateDb := updateDb env;
     processRun := run |}.


(** The calls the installation claims are about. *)
Definition is_elevation (e : Event) : bool :=
  match e with
  | Ev_SetAdminMode true => true
  | _ => false
  end.

Definition is_InstallRemove (e : Event) : bool :=
  match e with
  | Ev_InstallRemove => true
  | _ => false
  end.

Definition is_MessageBox (e : Event) : bool :=
  match e with
  | Ev_InstallPackageMessageBox _ _ => true
  | _ => false
  end.

Definition is_install_call (e : Event) : bool :=
  is_elevation e || is_InstallRemove e || is_MessageBox e.


(** [switchToAdminMode] of line 701. *)
Definition switchToAdminMode (st : App) : bool :=
  TriState_eqb (mpmAutoAdmin (pimpl st)) TriState_True
  && negb (IsAdminMode (session (pimpl st))).

Definition is_MiKTeXException (o : option Exn) : bool :=
  match o with
  | Some (Exn_MiKTeX _ _ _ _) => true
  | _ => false
  end.


(** What every run of [InstallPackage] satisfies. *)
Definition InstallPackage_post (env : InstallEnv) (packageId : string)
    (installRoot : PathName) (st : App)
    (r : Res (bool * PathName)) (st' : App) (l : list Event) : Prop :=
  (forall v, r = Ok v ->
     IsAdminMode (session (pimpl st')) = IsAdminMode (session (pimpl st))) /\
  (forall e, r = Throw e ->
     installRemove env = Some e /\ is_MiKTeXException (Some e) = false /\
     existsb is_InstallRemove l = true /\
     IsAdminMode (session (pimpl st')) =
       existsb is_elevation l || IsAdminMode (session (pimpl st))) /\
  (existsb is_InstallRemove l = true ->
   is_MiKTeXException (installRemove env) = true ->
   r = Ok (false, installRoot) /\
   enableInstaller (pimpl st') = TriState_False /\
   packageId ∈ ignoredPackages (pimpl st')) /\
  (existsb is_InstallRemove l = true -> installRemove env = None ->
   exists root', r = Ok (true, root')) /\
  (existsb is_InstallRemove l = true ->
   forall e, installRemove env = Some e ->
             is_MiKTeXException (Some e) = false -> r = Throw e) /\
  (existsb is_InstallRemove l = false -> r = Ok (false, installRoot)) /\
  IsSharedSetup (session (pimpl st')) = IsSharedSetup (session (pimpl st)) /\
  (existsb is_MessageBox l = false ->
   mpmAutoAdmin (pimpl st') = mpmAutoAdmin (pimpl st) /\
   (existsb is_elevation l = true ->
    mpmAutoAdmin (pimpl st) = TriState_True)) /\
  (existsb is_elevation l = true -> existsb is_InstallRemove l = true).


(** ** Further observations *)

(** Where [TraceInternal] sends a message. *)
Definition trace_output (st : App) (m : TraceMessage) : Event :=
  if isLog4cxxConfigured st then Ev_TraceSink m else Ev_Cerr (message m).


Definition is_SetAdminMode (e : Event) : bool :=
  match e with
  | Ev_SetAdminMode _ => true
  | _ => false
  end.

Definition is_UI_InitializeFramework (e : Event) : bool :=
  match e with
  | Ev_UI_InitializeFramework => true
  | _ => false
  end.

Definition is_PackageManager_Create (e : Event) : bool :=
  match e with
  | Ev_PackageManager_Create => true
  | _ => false
  end.

Definition is_CreateInstaller (e : Event) : bool :=
  match e with
  | Ev_CreateInstaller => true
  | _ => false
  end.

Definition is_ProxyAuthenticationDialog (e : Event) : bool :=
  match e with
  | Ev_ProxyAuthenticationDialog => true
  | _ => false
  end.

Definition is_SetFileLists (e : Event) : bool :=
  match e with
  | Ev_SetFileLists _ _ => true
  | _ => false
  end.

(** The mode switches and installer runs among some calls, in order. *)
Definition mode_trace (l : list Event) : list Event :=
  filter (fun e => is_SetAdminMode e || is_InstallRemove e) l.

(** The calls [InstallPackage] can make before it reaches the installer. *)
Definition prelude_event (e : Event) : bool :=
  match e with
  | Ev_PackageManager_Create | Ev_UI_InitializeFramework
  | Ev_InstallPackageMessageBox _ _ | Ev_TryGetDefaultPackageRepository
  | Ev_TryGetProxy | Ev_ProxyAuthenticationDialog => true
  | _ => false
  end.

(** How many of the calls in [l] satisfy [p]. *)
Definition count (p : Event -> bool) (l : list Event) : nat :=
  length (filter p l).

(** The three lazily created collaborators, as 0 or 1 each: UI framework,
    package manager, installer. *)
Definition created_flags (st : App) : nat * nat * nat :=
  (Nat.b2n (initUiFrameworkDone st), Nat.b2n (packageManager (pimpl st)),
   Nat.b2n (installer (pimpl st))).

Definition creations (l : list Event) : nat * nat * nat :=
  (count is_UI_InitializeFramework l, count is_PackageManager_Create l,
   count is_CreateInstaller l).

(** Every creation among the calls [l] turned a flag on. *)
Definition created_once (st st' : App) (l : list Event) : Prop :=
  let '(u, p, i) := creations l in
  let '(fu, fp, fi) := created_flags st in
  let '(fu', fp', fi') := created_flags st' in
  (u + fu = fu' /\ p + fp = fp' /\ i + fi = fi')%nat.

(** The proxy settings that make [InstallPackage] ask for credentials. *)
Definition proxy_credentials_needed (env : InstallEnv) : bool :=
  match tryGetDefaultPackageRepository env, tryGetProxy env with
  | Some (RepositoryType_Remote, _), Some ps =>
      useProxy ps && authenticationRequired ps && bool_decide (user ps = "")
  | _, _ => false
  end.

(** The auto-admin policy in force when the installer is reached: the
    answer to the prompt if there was one, [mpmAutoAdmin] otherwise. *)
Definition autoAdmin_in_force (env : InstallEnv) (packageId : string)
    (trigger : PathName) (st : App) : bool :=
  match enableInstaller (pimpl st) with
  | TriState_Undetermined =>
      negb (Z.land (installPackageMessageBox env packageId trigger) UI_ADMIN =? 0)
  | _ => TriState_eqb (mpmAutoAdmin (pimpl st)) TriState_True
  end.

(** The calls of lines 691-725, from the state the installer is reached in. *)
Definition install_now_calls (env : InstallEnv) (packageId : string)
    (trigger : PathName) (st : App) : list Event :=
  (if installer (pimpl st) then [] else [Ev_CreateInstaller])
  ++ [Ev_SetCallback; Ev_SetFileLists [packageId] [];
      Ev_Log LOG_INFO
        ("installing package " +:+ packageId +:+ " triggered by " +:+ trigger)]
  ++ (if switchToAdminMode st then [Ev_SetAdminMode true] else [])
  ++ [Ev_InstallRemove]
  ++ match installRemove env with
     | Some (Exn_MiKTeX m i f n) =>
         [Ev_Log LOG_FATAL m; Ev_Log LOG_FATAL ("Info: " +:+ i);
          Ev_Log LOG_FATAL ("Source: " +:+ f);
          Ev_Log LOG_FATAL ("Line: " +:+ pretty n)]
         ++ (if switchToAdminMode st then [Ev_SetAdminMode false] else [])
     | Some _ => []
     | None => if switchToAdminMode st then [Ev_SetAdminMode false] else []
     end.


(** What a run of [InstallPackage] looks like: it stops before the installer
    with result false, or its calls end with those of lines 691-725. *)
Definition InstallPackage_shape (env : InstallEnv) (packageId : string)
    (trigger installRoot : PathName) (st : App)
    (r : Res (bool * PathName)) (st' : App) (l : list Event) : Prop :=
  created_once st st' l /\
  (existsb is_ProxyAuthenticationDialog l = true ->
   proxy_credentials_needed env = true) /\
  ((forallb prelude_event l = true /\ r = Ok (false, installRoot)) \/
   (exists l0 st3,
      l = l0 ++ install_now_calls env packageId trigger st3 /\
      forallb prelude_event l0 = true /\
      session (pimpl st3) = session (pimpl st) /\
      TriState_eqb (mpmAutoAdmin (pimpl st3)) TriState_True
        = autoAdmin_in_force env packageId trigger st /\
      r = match installRemove env with
          | None =>
              Ok (true,
                  specialPath (session (pimpl st))
                    (autoAdmin_in_force env packageId trigger st
                     || adminMode (session (pimpl st)))
                    SpecialPath_InstallRoot)
          | Some (Exn_MiKTeX _ _ _ _) => Ok (false, installRoot)
          | Some e => Throw e
          end)).


(** The requests made to the installer among some calls, in order. *)
Definition installer_requests (l : list Event) : list Event :=
  filter (fun e => is_SetFileLists e || is_InstallRemove e) l.


(** How a run of [InstallPackage] moves the installer policy. *)
Definition InstallPackage_policy (env : InstallEnv) (packageId : string)
    (trigger : PathName) (st st' : App) (l : list Event) : Prop :=
  ignoredPackages (pimpl st) ⊆ ignoredPackages (pimpl st') /\
  (existsb is_MessageBox l = true ->
   enableInstaller (pimpl st) = TriState_Undetermined /\
   (Z.land (installPackageMessageBox env packageId trigger) UI_DONTASKAGAIN
    <> 0 ->
    enableInstaller (pimpl st') <> TriState_Undetermined)) /\
  (enableInstaller (pimpl st) <> TriState_Undetermined ->
   enableInstaller (pimpl st') <> TriState_Undetermined /\
   existsb is_MessageBox l = false).


(** The helper commands of lines 386-418. *)
Definition helper_commands : list (string * string) :=
  [("fndb", "refresh"); ("fontmaps", "configure"); ("languages", "configure")].

(** A call that, if it starts a process, starts [exe] with the common
    arguments of the application object [st] and one helper command. *)
Definition helper_call (exe : PathName) (st : App) (e : Event) : Prop :=
  match e with
  | Ev_Process_Run exe' args =>
      exe' = exe /\
      exists sub cmd,
        In (sub, cmd) helper_commands /\ args = commonArgs exe st ++ [sub; cmd]
  | _ => True
  end.

Definition is_Process_Run (e : Event) : bool :=
  match e with
  | Ev_Process_Run _ _ => true
  | _ => false
  end.

Definition is_UpdateDb (e : Event) : bool :=
  match e with
  | Ev_UpdateDb_FromCache => true
  | _ => false
  end.

(** The application object once the package manager and the installer
    exist. *)
Definition with_installer_created (st : App) : App :=
  with_pimpl (fun i => set_installer true (set_packageManager true i)) st.


(** A switch given on the command line stays; an undetermined one gets the
    value [d]. *)
Definition TriState_default (t d : TriState) : TriState :=
  match t with
  | TriState_Undetermined => d
  | _ => t
  end.

(** The auto-admin setting is dropped: it is on, outside a shared setup. *)
Definition autoAdmin_dropped (created : Session) : bool :=
  TriState_eqb (GetConfigValue_TriState created MPM_AUTOADMIN) TriState_True
  && negb (IsSharedSetup created).

(** The process has administrator rights the session does not use. *)
Definition elevated_user_mode (created : Session) : bool :=
  RunningAsAdministrator created && negb (IsAdminMode created).

(** The application object at line 523, before the maintenance run. *)
Definition Init_configured (created : Session) (st : App) : App :=
  {| pimpl :=
       {| beQuiet := false;
          commandLine := commandLine (pimpl st);
          enableDiagnose :=
            TriState_default (enableDiagnose (pimpl st)) TriState_True;
          enableInstaller :=
            TriState_default (enableInstaller (pimpl st))
              (GetConfigValue_TriState created MPM_AUTOINSTALL);
          enableMaintenance :=
            TriState_default (enableMaintenance (pimpl st)) TriState_True;
          ignoredPackages := ignoredPackages (pimpl st);
          initialized := true;
          installer := installer (pimpl st);
          logger := true;
          mpmAutoAdmin :=
            if autoAdmin_dropped created then TriState_False
            else GetConfigValue_TriState created MPM_AUTOADMIN;
          packageManager := packageManager (pimpl st);
          pendingTraceMessages := pendingTraceMessages (pimpl st);
          session := created |};
     initUiFrameworkDone := initUiFrameworkDone st;
     isLog4cxxConfigured := true |}.

(** The log entry and the [cerr] line of the security-risk warning. *)
Definition security_risk_notice : string :=
  "security risk: running with elevated privileges".

Definition security_risk_line : string :=
  GetExeName +:+ ": " +:+ security_risk_notice +:+ endl.

(** The calls of [Init] before the maintenance run (lines 466-521). *)
Definition Init_prelude (created : Session) (st : App) : list Event :=
  [Ev_ConfigureLogging]
  ++ (if bool_decide (commandLine (pimpl st) = "") then []
      else Ev_Log LOG_INFO (started_message (commandLine (pimpl st)))
           :: (if is_Windows platform
               then [Ev_Log LOG_INFO running_on_Windows] else []))
  ++ (if autoAdmin_dropped created
      then [Ev_Log LOG_WARN AutoAdmin_ignored] else [])
  ++ [Ev_InstallSignalHandler; Ev_InstallSignalHandler]
  ++ (if elevated_user_mode created
      then [Ev_Log LOG_WARN security_risk_notice;
            Ev_Cerr security_risk_line]
      else []).

(** Calls that only a maintenance run makes. *)
Definition is_maintenance_call (e : Event) : bool :=
  match e with
  | Ev_FindFile _ | Ev_TryLock _ | Ev_UpdateDb_FromCache
  | Ev_UnloadFilenameDatabase | Ev_Process_Run _ _
  | Ev_PackageManager_Create | Ev_CreateInstaller | Ev_SetCallback => true
  | _ => false
  end.


Definition is_Cerr (e : Event) : bool :=
  match e with
  | Ev_Cerr _ => true
  | _ => false
  end.


(** The utility [TryCreateFile] needs for a file type, and what follows the
    common switches on its command line. *)
Definition make_utility (fileType : FileType) : option string :=
  match fileType with
  | FileType_BASE | FileType_FMT => Some MIKTEX_MIKTEX_EXE
  | FileType_TFM => Some MIKTEX_MAKETFM_EXE
  | FileType_other => None
  end.

Definition make_command (env : CreateEnv) (fileName : PathName)
    (fileType : FileType) : list string :=
  match fileType with
  | FileType_BASE => ["formats"; "build"; GetFileNameWithoutExtension fileName]
  | FileType_FMT =>
      ["formats"; "build"; GetFileNameWithoutExtension fileName;
       "--engine"; engineName env]
  | FileType_TFM => [GetFileNameWithoutExtension fileName]
  | FileType_other => []
  end.


(** The command line of a started utility. *)
Definition create_command_line (env : CreateEnv) (fileName : PathName)
    (fileType : FileType) (st : App) (exe : PathName) : list string :=
  [GetFileNameWithoutExtension exe]
  ++ match enableInstaller (pimpl st) with
     | TriState_False => ["--disable-installer"]
     | TriState_True => ["--enable-installer"]
     | TriState_Undetermined => []
     end
  ++ (if IsAdminMode (session (pimpl st)) then ["--admin"] else [])
  ++ make_command env fileName fileType.


(** The arguments before the first [nullptr], and the vector from there on. *)
Fixpoint arguments (args : list (option string)) : list string :=
  match args with
  | Some a :: rest => a :: arguments rest
  | _ => []
  end.

Fixpoint from_terminator (args : list (option string)) : list (option string) :=
  match args with
  | Some _ :: rest => from_terminator rest
  | _ => args
  end.

Definition miktex_options : list string :=
  ["--miktex-admin";
   "--miktex-disable-installer"; "--miktex-enable-installer";
   "--miktex-disable-maintenance"; "--miktex-enable-maintenance";
   "--miktex-disable-diagnose"; "--miktex-enable-diagnose"].

Definition is_miktex_option (a : string) : bool :=
  existsb (String.eqb a) miktex_options.

Definition kept (a : string) : bool := negb (is_miktex_option a).

(** The value of a switch that the arguments [off] and [on] set, when it
    was [t] before: the last of them among the arguments decides. *)
Definition last_switch (off on : string) (argv : list string) (t : TriState)
  : TriState :=
  match last (filter (fun a => String.eqb a off || String.eqb a on) argv) with
  | Some a => if String.eqb a off then TriState_False else TriState_True
  | None => t
  end.


(** All arguments examined in turn. *)
Definition examine_all (argv : list string) (initInfo : InitInfo) (i : Impl)
  : InitInfo * Impl :=
  fold_left (fun s a => match examine a (fst s) (snd s) with
                        | Some s' => s'
                        | None => s
                        end) argv (initInfo, i).

(** The members of [pimpl] that no command-line switch sets. *)
Definition not_a_switch (i : Impl)
  : bool * gset string * bool * bool * bool * TriState * bool
    * list TraceMessage * Session :=
  (beQuiet i, ignoredPackages i, initialized i, installer i, logger i,
   mpmAutoAdmin i, packageManager i, pendingTraceMessages i, session i).


Definition is_Log (e : Event) : bool :=
  match e with
  | Ev_Log _ _ => true
  | _ => false
  end.

(** Issues that go to [cerr], and the log entry and [cerr] line of an
    issue. *)
Definition serious (issue : Issue) : bool :=
  match severity issue with
  | IssueSeverity_Critical | IssueSeverity_Major => true
  | IssueSeverity_Minor => false
  end.

Definition issue_log_entry (issue : Issue) : Event :=
  Ev_Log match severity issue with
         | IssueSeverity_Critical => LOG_FATAL
         | IssueSeverity_Major => LOG_ERROR
         | IssueSeverity_Minor => LOG_WARN
         end (issue_text issue).

Definition issue_cerr_line (issue : Issue) : Event :=
  Ev_Cerr (GetExeName +:+ ": " +:+ issue_text issue +:+ endl).


(** Characters that the placeholder loop copies as they are. *)
Definition plain (c : ascii) : Prop := c <> PERCENT /\ c <> NUL.

(** What a placeholder [%d] stands for, apart from [%f]. *)
Definition placeholder_text (editLineNumber : Z) (transcriptFileName : PathName)
    (d : ascii) : list ascii :=
  if Ascii.eqb d "%"%char then ["%"%char]
  else if Ascii.eqb d "t"%char then c_str transcriptFileName
  else if Ascii.eqb d "l"%char then c_str (pretty editLineNumber)
  else [].


(** ** Sample inputs *)

Definition sample_session (admin shared : bool) : Session :=
  {| adminMode := admin;
     sharedSetup := shared;
     portable := false;
     runningAsAdministrator := false;
     configTimeT := fun n =>
       match n with
       | CORE_LAST_ADMIN_MAINTENANCE => Some 100
       | CORE_LAST_USER_MAINTENANCE => Some 50
       | MPM_LAST_ADMIN_UPDATE_DB => Some 100
       | _ => None
       end;
     configTriState := fun n =>
       match n with
       | MPM_AUTOADMIN => TriState_True
       | MPM_AUTOINSTALL => TriState_True
       | _ => TriState_Undetermined
       end;
     specialPath := fun adm p =>
       match p with
       | SpecialPath_InstallRoot => if adm then "/common" else "/home/u/install"
       | _ => if adm then "/common" else "/home/u"
       end;
     mpmDatabasePathName := fun adm =>
       if adm then "/common/mpm.fndb" else "/home/u/mpm.fndb" |}.

Definition sample_app (s : Session) (installerPolicy autoAdmin : TriState) : App :=
  {| pimpl :=
       {| beQuiet := false;
          commandLine := "";
          enableDiagnose := TriState_Undetermined;
          enableInstaller := installerPolicy;
          enableMaintenance := TriState_Undetermined;
          ignoredPackages := ∅;
          initialized := false;
          installer := false;
          logger := false;
          mpmAutoAdmin := autoAdmin;
          packageManager := false;
          pendingTraceMessages := [];
          session := s |};
     initUiFrameworkDone := false;
     isLog4cxxConfigured := false |}.

Definition sample_message (n : nat) : TraceMessage :=
  {| facility := "core"; level := TraceLevel_Info;
     message := pretty (Z.of_nat n) |}.

Definition sample_messages : list TraceMessage :=
  map sample_message (seq 1 150).

(** Every helper run fails with exit code 1; the lock is free or not. *)
Definition sample_maintenance (fs : FileSystem) (lockFree : bool)
  : MaintenanceEnv :=
  {| files := fs;
     findFile := fun _ => Some "/common/bin/miktex";
     tryLock := fun _ => lockFree;
     updateDb := None;
     processRun := fun _ _ => (false, 1) |}.

Definition sample_install (answer : Z) (outcome : option Exn) : InstallEnv :=
  {| installPackageMessageBox := fun _ _ => answer;
     tryGetDefaultPackageRepository := None;
     tryGetProxy := None;
     proxyAuthenticationDialog := true;
     installRemove := outcome |}.

(** Values for the macros and bit masks, as a MiKTeX build has them. *)
Definition sample_LANGUAGE_DAT : PathName := "tex/generic/config/language.dat".
Definition sample_LANGUAGES_INI : PathName := "miktex/config/languages.ini".
Definition sample_PACKAGE_MANIFESTS_INI : PathName :=
  "miktex/config/package-manifests.ini".
Definition sample_AUTO_MAINTENANCE_LOCK : PathName :=
  "miktex/lock/auto-maintenance".
Definition sample_MIKTEX_EXE : string := "miktex".
Definition sample_stem (p : PathName) : string := "miktex".
Definition sample_GetExeName : string := "pdflatex".
Definition sample_platform : Platform := Platform_Other.
Definition sample_Q (s : string) : string := s.
Definition sample_process : ProcessEnv :=
  {| GetSystemId := 4242;
     parent_ProcessName := Some "texworks";
     currentDirectory := "/home/u/paper";
     WindowsVersion_GetMajorMinorBuildString := "" |}.
Definition sample_YES : Z := 1.
Definition sample_DONTASKAGAIN : Z := 4.
Definition sample_ADMIN : Z := 8.

(** User-mode files, all older than the last admin maintenance (100). *)
Definition sample_files_stale : FileSystem :=
  {[ "/home/u/mpm.fndb" := 50;
     "/home/u/tex/generic/config/language.dat" := 10;
     "/home/u/install/miktex/config/package-manifests.ini" := 10 ]}.

(** User-mode files, all newer than any admin action. *)
Definition sample_files_fresh : FileSystem :=
  {[ "/home/u/mpm.fndb" := 200;
     "/home/u/tex/generic/config/language.dat" := 200;
     "/home/u/install/miktex/config/package-manifests.ini" := 200 ]}.

(** Only language.dat is older than the last admin maintenance. *)
Definition sample_files_language_only : FileSystem :=
  {[ "/home/u/mpm.fndb" := 200;
     "/home/u/tex/generic/config/language.dat" := 10;
     "/home/u/install/miktex/config/package-manifests.ini" := 200 ]}.

Definition sample_failure : Exn :=
  Exn_MiKTeX "The package could not be installed." "pkg" "PackageInstaller.cpp" 42.


(** A remote repository behind a proxy that wants credentials, with none
    stored; [dialog] is what the credentials dialog returns. *)
Definition sample_install_proxy (dialog : bool) : InstallEnv :=
  {| installPackageMessageBox := fun _ _ => 0;
     tryGetDefaultPackageRepository :=
       Some (RepositoryType_Remote, "https://mirror.example/miktex");
     tryGetProxy :=
       Some {| useProxy := true; authenticationRequired := true; user := "" |};
     proxyAuthenticationDialog := dialog;
     installRemove := None |}.


(** Every utility is found in [/common/bin] and runs to exit code 0. *)
Definition sample_create : CreateEnv :=
  {| create_findFile := fun name => Some ("/common/bin/" +:+ name);
     engineName := "pdftex";
     create_run := fun _ _ => (true, 0, "") |}.

(** No TeXworks and nothing in yap.ini; [editor] is the configured editor. *)
Definition sample_editor (editor : option string) : EditorEnv :=
  {| findTexworks := None;
     yapEditor := None;
     configEditor := editor;
     findEditFile := Some "/home/u/paper.tex" |}.

(** cfg: two values are set, with [--sign] in between; and a command line
    with a [--set-value] that has no [=]. *)
Definition sample_popt : Cfg.Popt :=
  Cfg.mkPopt
    [(Cfg.OPT_SET_VALUE, "a=1"); (Cfg.OPT_SIGN, "");
     (Cfg.OPT_SET_VALUE, "b=x=y")]
    (-1) "" "" ["one.ini"; "two.ini"].

Definition sample_popt_bad : Cfg.Popt :=
  Cfg.mkPopt
    [(Cfg.OPT_PRINT_CLASSES, ""); (Cfg.OPT_SET_VALUE, "novalue");
     (Cfg.OPT_VERSION, "")]
    (-1) "" "" ["one.ini"].

Definition sample_cfg_files : Cfg.Files :=
  Cfg.mkFiles (fun _ => Some ([], "d41d8cd98f00b204e9800998ecf8427e"))
    (fun _ => true).


(** MakeTFM for a font without METAFONT source that MakeMF cannot make;
    hbf2gf and PLtoTF succeed. *)
Definition sample_maketfm : MakeTfm.Env :=
  {| MakeTfm.argv := ["maketfm"; "bsmi00"];
     MakeTfm.optionIndex := 1;
     MakeTfm.debug := false;
     MakeTfm.verbose := false;
     MakeTfm.printOnly := false;
     MakeTfm.wrkDir := "/tmp/w";
     MakeTfm.GetFontInfo := fun _ => None;
     MakeTfm.DestDir := "%R/fonts/tfm/%s/%t";
     MakeTfm.directoryFromTemplate := fun _ => "/home/u/fonts/tfm/public/misc";
     MakeTfm.File_Exists := fun _ => false;
     MakeTfm.FindFile_MF := fun _ => None;
     MakeTfm.runProcess := fun exe _ => negb (String.eqb exe "makemf");
     MakeTfm.runMETAFONT := fun _ => true |}.


(** ** Runs of sequenced code *)

Lemma result_bind {A B} (m : Prog A) (k : A -> Prog B) st :
  result (bind m k st) =
  match result (m st) with
  | Ok a => result (k a (final (m st)))
  | Throw e => Throw e
  end.
Proof. unfold bind. destruct (result (m st)); reflexivity. Qed.

Lemma final_bind {A B} (m : Prog A) (k : A -> Prog B) st :
  final (bind m k st) =
  match result (m st) with
  | Ok a => final (k a (final (m st)))
  | Throw e => final (m st)
  end.
Proof. unfold bind. destruct (result (m st)); reflexivity. Qed.

Lemma calls_bind {A B} (m : Prog A) (k : A -> Prog B) st :
  calls (bind m k st) =
  calls (m st) ++
  match result (m st) with
  | Ok a => calls (k a (final (m st)))
  | Throw e => []
  end.
Proof.
  unfold bind. destruct (result (m st)); simpl; [reflexivity|].
  symmetry. apply app_nil_r.
Qed.

Lemma result_when b m st :
  result (when b m st) = if b then result (m st) else Ok tt.
Proof. destruct b; reflexivity. Qed.

Lemma final_when b m st :
  final (when b m st) = if b then final (m st) else st.
Proof. destruct b; reflexivity. Qed.

Lemma calls_when b m st :
  calls (when b m st) = if b then calls (m st) else [].
Proof. destruct b; reflexivity. Qed.

Lemma steps_of_app l1 l2 : steps_of (l1 ++ l2) = steps_of l1 ++ steps_of l2.
Proof. unfold steps_of. apply omap_app. Qed.

Lemma step_of_helper_run exe (common : list string) a b :
  step_of_event (Ev_Process_Run exe (common ++ [a; b])) =
  step_of_event (Ev_Process_Run exe [a; b]).
Proof. simpl. rewrite rev_app_distr. reflexivity. Qed.

(** Projections of a run are computed through sequencing. *)
Ltac run_simpl :=
  repeat (rewrite ?result_bind, ?final_bind, ?calls_bind,
            ?result_when, ?final_when, ?calls_when; simpl).

(** ** The trace buffer *)

Lemma Trace_unconfigured (m : TraceMessage) (st : App) :
  isLog4cxxConfigured st = false ->
  result (Trace m st) = Ok true /\
  calls (Trace m st) = [] /\
  isLog4cxxConfigured (final (Trace m st)) = false /\
  pending (final (Trace m st)) =
    (if 100 <? Z.of_nat (length (pending st)) then [] else pending st) ++ [m].
Proof.
  intros Hcfg. destruct st as [i ui lc]. simpl in Hcfg. subst lc.
  unfold Trace, pending. run_simpl.
  destruct (100 <? Z.of_nat (length (pendingTraceMessages i))); simpl; auto.
Qed.

Lemma Trace_all_app (l1 l2 : list TraceMessage) (st : App) :
  Trace_all (l1 ++ l2) st = Trace_all l2 (Trace_all l1 st).
Proof.
  revert st. induction l1 as [|m l1 IH]; intros st; simpl; [reflexivity|].
  apply IH.
Qed.

(** Below the limit the queue only grows. *)
Lemma Trace_all_accumulate (ms : list TraceMessage) (st : App) :
  isLog4cxxConfigured st = false ->
  (length (pending st) + length ms <= 101)%nat ->
  isLog4cxxConfigured (Trace_all ms st) = false /\
  pending (Trace_all ms st) = pending st ++ ms.
Proof.
  revert st. induction ms as [|m ms IH]; intros st Hcfg Hlen;
    cbn [Trace_all length] in *.
  - split; [assumption|]. symmetry. apply app_nil_r.
  - destruct (Trace_unconfigured m st Hcfg) as (_ & _ & Hcfg' & Hq).
    assert (Hsmall : (100 <? Z.of_nat (length (pending st))) = false)
      by (apply Z.ltb_ge; lia).
    rewrite Hsmall in Hq.
    destruct (IH (final (Trace m st)) Hcfg') as [Hc Hp].
    + rewrite Hq, length_app. simpl. lia.
    + split; [exact Hc|]. rewrite Hp, Hq, <- app_assoc. reflexivity.
Qed.

(** A message that arrives when the queue holds 101 messages replaces them. *)
Lemma Trace_overflow (m : TraceMessage) (st : App) :
  isLog4cxxConfigured st = false ->
  (100 < length (pending st))%nat ->
  isLog4cxxConfigured (final (Trace m st)) = false /\
  pending (final (Trace m st)) = [m].
Proof.
  intros Hcfg Hlen.
  destruct (Trace_unconfigured m st Hcfg) as (_ & _ & Hcfg' & Hq).
  split; [exact Hcfg'|].
  assert (Hbig : (100 <? Z.of_nat (length (pending st))) = true)
    by (apply Z.ltb_lt; lia).
  rewrite Hbig in Hq. exact Hq.
Qed.

(** C8 (as amended): while log4cxx is not configured, [Trace] makes no
    collaborator call and appends the message to the pending queue, after
    emptying the queue when it holds more than 100 messages. Starting from an
    empty queue, the first 101 of 150 messages are all kept; the 102nd message
    empties the queue and is then alone in it; after all 150 messages the
    queue holds the last 49 of them. *)
Theorem Trace_queue_discarded_above_100 (st : App) (ms : list TraceMessage) :
  isLog4cxxConfigured st = false ->
  (forall m,
     result (Trace m st) = Ok true /\
     calls (Trace m st) = [] /\
     pending (final (Trace m st)) =
       (if 100 <? Z.of_nat (length (pending st)) then [] else pending st)
       ++ [m]) /\
  (pending st = [] -> length ms = 150%nat ->
     pending (Trace_all (take 101 ms) st) = take 101 ms /\
     pending (Trace_all (take 102 ms) st) = drop 101 (take 102 ms) /\
     pending (Trace_all ms st) = drop 101 ms /\
     length (pending (Trace_all ms st)) = 49%nat).
Proof.
  intros Hcfg. split.
  - intros m. destruct (Trace_unconfigured m st Hcfg) as (? & ? & _ & ?).
    auto.
  - intros Hempty Hlen.
    destruct (Trace_all_accumulate (take 101 ms) st Hcfg) as [Hc1 Hp1].
    { rewrite Hempty, length_take, Hlen. cbn [length]. lia. }
    rewrite Hempty in Hp1. cbn [app] in Hp1.
    destruct (drop 101 ms) as [|x rest] eqn:Hdrop.
    { apply (f_equal length) in Hdrop. rewrite length_drop in Hdrop.
      cbn [length] in Hdrop. lia. }
    assert (Hrest : length rest = 48%nat).
    { apply (f_equal length) in Hdrop. rewrite length_drop in Hdrop.
      cbn [length] in Hdrop. lia. }
    assert (Hms : ms = take 101 ms ++ x :: rest).
    { rewrite <- Hdrop. symmetry. apply take_drop. }
    assert (Htake : take 102 ms = take 101 ms ++ [x]).
    { rewrite Hms at 1. rewrite take_app_ge by (rewrite length_take; lia).
      rewrite length_take, Hlen. reflexivity. }
    destruct (Trace_overflow x (Trace_all (take 101 ms) st) Hc1) as [Hc2 Hp2].
    { rewrite Hp1, length_take. lia. }
    destruct (Trace_all_accumulate rest _ Hc2) as [_ Hp3].
    { rewrite Hp2, Hrest. cbn [length]. lia. }
    split; [exact Hp1|]. split.
    + rewrite Htake, Trace_all_app. cbn [Trace_all]. rewrite Hp2.
      rewrite drop_app_length'; [reflexivity|]. rewrite length_take. lia.
    + assert (Hall : pending (Trace_all ms st) = x :: rest).
      { rewrite Hms at 1. rewrite Trace_all_app. cbn [Trace_all].
        rewrite Hp3, Hp2. reflexivity. }
      split; [exact Hall|]. rewrite Hall. cbn [length]. lia.
Qed.

(** ** The staleness decisions *)

Lemma mustRefreshFndb_value (s : Session) (fs : FileSystem) :
  mustRefreshFndb s fs =
  Some (if IsAdminMode s
        then negb (File_Exists fs (GetMpmDatabasePathName s))
        else NeedsRefresh (GetConfigValue_TimeT s CORE_LAST_ADMIN_MAINTENANCE)
               (File_GetLastWriteTime fs (GetMpmDatabasePathName s))).
Proof.
  unfold mustRefreshFndb, newer_than, File_Exists, File_GetLastWriteTime,
    NeedsRefresh.
  destruct (fs !! GetMpmDatabasePathName s) as [w|], (IsAdminMode s);
    reflexivity.
Qed.

Lemma mustRefreshUserLanguageDat_value (s : Session) (fs : FileSystem) :
  mustRefreshUserLanguageDat s fs =
  Some (negb (IsAdminMode s)
        && File_Exists fs (userLanguageDat s)
        && (NeedsRefresh (GetConfigValue_TimeT s CORE_LAST_ADMIN_MAINTENANCE)
              (File_GetLastWriteTime fs (userLanguageDat s))
            || match File_GetLastWriteTime fs (userLanguagesIni s) with
               | Some i =>
                   NeedsRefresh i (File_GetLastWriteTime fs (userLanguageDat s))
               | None => false
               end)).
Proof.
  unfold mustRefreshUserLanguageDat, IsNewer, newer_than, File_Exists,
    File_GetLastWriteTime, NeedsRefresh.
  destruct (IsAdminMode s); [reflexivity|].
  destruct (fs !! userLanguageDat s) as [d|],
    (fs !! userLanguagesIni s) as [i|]; simpl; try reflexivity;
    destruct (d <? GetConfigValue_TimeT s CORE_LAST_ADMIN_MAINTENANCE);
    reflexivity.
Qed.

Lemma mustUpdateDb_value (s : Session) (fs : FileSystem) :
  mustUpdateDb s fs =
  Some (negb (IsAdminMode s)
        && File_Exists fs (userPackageManifestsIni s)
        && NeedsRefresh (GetConfigValue_TimeT s MPM_LAST_ADMIN_UPDATE_DB)
             (File_GetLastWriteTime fs (userPackageManifestsIni s))).
Proof.
  unfold mustUpdateDb, newer_than, File_Exists, File_GetLastWriteTime,
    NeedsRefresh.
  destruct (IsAdminMode s); [reflexivity|].
  destruct (fs !! userPackageManifestsIni s); reflexivity.
Qed.

(** C2 (as amended): none of the three decisions throws. In user mode the
    file-index decision is [NeedsRefresh] of the last admin maintenance and
    the index file: true iff the file is missing or strictly older. The
    language.dat decision and the package-database decision are true iff the
    session is in user mode, the derived file EXISTS, and a source is strictly
    newer than it (for language.dat the sources are the last admin maintenance
    and languages.ini, when that file exists); a missing language.dat or
    manifest file does not ask for a refresh. Equal timestamps never do. *)
Theorem staleness_decisions (s : Session) (fs : FileSystem) :
  mustRefreshFndb s fs =
    Some (if IsAdminMode s
          then negb (File_Exists fs (GetMpmDatabasePathName s))
          else NeedsRefresh (GetConfigValue_TimeT s CORE_LAST_ADMIN_MAINTENANCE)
                 (File_GetLastWriteTime fs (GetMpmDatabasePathName s))) /\
  mustRefreshUserLanguageDat s fs =
    Some (negb (IsAdminMode s)
          && File_Exists fs (userLanguageDat s)
          && (NeedsRefresh (GetConfigValue_TimeT s CORE_LAST_ADMIN_MAINTENANCE)
                (File_GetLastWriteTime fs (userLanguageDat s))
              || match File_GetLastWriteTime fs (userLanguagesIni s) with
                 | Some i =>
                     NeedsRefresh i
                       (File_GetLastWriteTime fs (userLanguageDat s))
                 | None => false
                 end)) /\
  mustUpdateDb s fs =
    Some (negb (IsAdminMode s)
          && File_Exists fs (userPackageManifestsIni s)
          && NeedsRefresh (GetConfigValue_TimeT s MPM_LAST_ADMIN_UPDATE_DB)
               (File_GetLastWriteTime fs (userPackageManifestsIni s))) /\
  (forall t d : time_t, NeedsRefresh t (Some d) = true <-> d < t) /\
  (forall t : time_t, NeedsRefresh t (Some t) = false).
Proof.
  split; [apply mustRefreshFndb_value|].
  split; [apply mustRefreshUserLanguageDat_value|].
  split; [apply mustUpdateDb_value|].
  split; intros t; [intros d|]; unfold NeedsRefresh.
  - apply Z.ltb_lt.
  - apply Z.ltb_irrefl.
Qed.

(** ** One helper invocation *)

Lemma run_helper_run env exe args who st :
  result (run_helper env exe args who st) = Ok tt /\
  final (run_helper env exe args who st) = st /\
  calls (run_helper env exe args who st) =
    Ev_Process_Run exe args ::
    (if fst (processRun env exe args) then []
     else [Ev_Log LOG_ERROR
             (who +:+ " exited with code " +:+ pretty (snd (processRun env exe args)))]).
Proof.
  unfold run_helper, Process_Run, LOG4CXX. run_simpl.
  destruct (fst (processRun env exe args)); simpl; auto.
Qed.

Lemma steps_of_run_helper env exe common a b who st :
  steps_of (calls (run_helper env exe (common ++ [a; b]) who st)) =
  steps_of [Ev_Process_Run exe [a; b]].
Proof.
  destruct (run_helper_run env exe (common ++ [a; b]) who st) as (_ & _ & ->).
  unfold steps_of. cbn [omap list_omap]. rewrite step_of_helper_run.
  destruct (fst (processRun env exe (common ++ [a; b]))); reflexivity.
Qed.

Lemma result_run_helper env exe args who st :
  result (run_helper env exe args who st) = Ok tt.
Proof. apply run_helper_run. Qed.

Lemma final_run_helper env exe args who st :
  final (run_helper env exe args who st) = st.
Proof. apply run_helper_run. Qed.

(** ** Weakest preconditions for sequenced code *)

Lemma wp_bind {A B} (m : Prog A) (k : A -> Prog B) st Q :
  wp m st (fun r st1 l1 =>
             match r with
             | Ok a => wp (k a) st1 (fun r' st2 l2 => Q r' st2 (l1 ++ l2))
             | Throw e => Q (Throw e) st1 l1
             end) ->
  wp (bind m k) st Q.
Proof.
  unfold wp. rewrite result_bind, final_bind, calls_bind.
  destruct (result (m st)); [auto|]. rewrite app_nil_r. auto.
Qed.

Lemma wp_mono {A} (p : Prog A) st (Q Q' : Res A -> App -> list Event -> Prop) :
  wp p st Q -> (forall r st' l, Q r st' l -> Q' r st' l) -> wp p st Q'.
Proof. unfold wp. auto. Qed.

Lemma wp_scoped {A} (body : Prog A) on_exit st Q :
  wp body st (fun r st1 l => Q r (on_exit st1) l) ->
  wp (scoped body on_exit) st Q.
Proof. unfold wp, scoped. auto. Qed.

Lemma wp_try_catch {A} (body : Prog A) handler st Q :
  wp body st (fun r st1 l1 =>
                match r with
                | Throw (Exn_MiKTeX m i f n) =>
                    wp (handler m i f n) st1
                      (fun r' st2 l2 => Q r' st2 (l1 ++ l2))
                | _ => Q r st1 l1
                end) ->
  wp (try_catch_MiKTeX body handler) st Q.
Proof.
  unfold wp, try_catch_MiKTeX.
  destruct (result (body st)) as [a|[c|m i f n|]] eqn:E; rewrite ?E; auto.
Qed.

(** One step of symbolic execution: sequencing, then the primitives. *)
Ltac wp_step :=
  lazymatch goal with
  | |- wp (bind _ _) _ _ => apply wp_bind
  | |- wp (scoped _ _) _ _ => apply wp_scoped
  | |- wp (try_catch_MiKTeX _ _) _ _ => apply wp_try_catch
  | |- wp (when ?b ?m) ?st ?Q =>
      let b' := eval cbn in b in
      lazymatch b' with
      | true => change (wp m st Q)
      | false => change (wp (ret tt) st Q)
      end
  | |- wp (if ?b then ?m1 else ?m2) ?st ?Q =>
      let b' := eval cbn in b in
      lazymatch b' with
      | true => change (wp m1 st Q)
      | false => change (wp m2 st Q)
      end
  | |- wp (ret _) _ _ => unfold wp at 1; cbn [ret result final calls]
  | |- wp (throw _) _ _ => unfold wp at 1; cbn [throw result final calls]
  | |- wp get _ _ => unfold wp at 1; cbn [get result final calls]
  | |- wp (emit _) _ _ => unfold wp at 1; cbn [emit result final calls]
  | |- wp (LOG4CXX _ _) _ _ =>
      unfold wp at 1; cbn [LOG4CXX emit result final calls]
  | |- wp (modify _) _ _ => unfold wp at 1; cbn [modify result final calls]
  | |- wp (update _) _ _ =>
      unfold wp at 1; cbn [update modify result final calls]
  | |- wp (eval (Some _)) _ _ => unfold wp at 1; cbn [eval ret result final calls]
  end.

Ltac wp_run := repeat (wp_step; cbv beta iota).

(** Case analysis on the condition the execution is stuck at. *)
Ltac wp_branch :=
  lazymatch goal with
  | |- wp (when ?b ?m) ?st ?Q =>
      let b' := eval cbn in b in
      change (wp (when b' m) st Q); destruct b' eqn:?
  | |- wp (if ?b then ?m1 else ?m2) ?st ?Q =>
      let b' := eval cbn in b in
      change (wp (if b' then m1 else m2) st Q); destruct b' eqn:?
  end.

(** ** Runs of [AutoMaintenance] *)

Lemma wp_run_helper env exe common a b who st :
  wp (run_helper env exe (common ++ [a; b]) who) st
    (fun r st' l =>
       r = Ok tt /\ st' = st /\
       steps_of l = steps_of [Ev_Process_Run exe [a; b]]).
Proof.
  unfold wp.
  rewrite result_run_helper, final_run_helper, steps_of_run_helper. auto.
Qed.

(** Equal policies, field by field. *)
Lemma policy_eq st st' :
  policy st' = policy st ->
  session (pimpl st') = session (pimpl st) /\
  mpmAutoAdmin (pimpl st') = mpmAutoAdmin (pimpl st) /\
  enableInstaller (pimpl st') = enableInstaller (pimpl st) /\
  ignoredPackages (pimpl st') = ignoredPackages (pimpl st).
Proof. unfold policy. intros H. injection H. auto. Qed.

Lemma wp_ensure_packageManager st :
  wp ensure_packageManager st
    (fun r st' l =>
       r = Ok tt /\ policy st' = policy st /\ steps_of l = [] /\
       existsb is_install_call l = false).
Proof.
  unfold ensure_packageManager. wp_run.
  destruct (packageManager (pimpl st)); wp_run; auto.
Qed.

Lemma wp_ensure_installer st :
  wp ensure_installer st
    (fun r st' l =>
       r = Ok tt /\ policy st' = policy st /\ steps_of l = [] /\
       existsb is_install_call l = false).
Proof.
  unfold ensure_installer. wp_run.
  destruct (installer (pimpl st)); wp_run; auto.
Qed.

Lemma wp_update_db env st :
  wp (update_db_from_cache env) st
    (fun r st' l =>
       r = match updateDb env with
           | None => Ok tt
           | Some e => Throw e
           end /\
       policy st' = policy st /\
       steps_of l = [Step_UpdateDb]).
Proof.
  unfold update_db_from_cache. wp_run.
  eapply wp_mono; [apply wp_ensure_packageManager|].
  intros r st1 l1 (-> & Hp1 & Hl1 & _). wp_run.
  eapply wp_mono; [apply wp_ensure_installer|].
  intros r st2 l2 (-> & Hp2 & Hl2 & _). wp_run.
  destruct (updateDb env) as [e|]; wp_run;
    (split; [reflexivity|]);
    (split; [change (policy st2 = policy st); congruence|]);
    rewrite !steps_of_app, Hl1, Hl2; reflexivity.
Qed.

Lemma wp_helper_runs env exe fndb languageDat st :
  wp (helper_runs env exe fndb languageDat) st
    (fun r st' l =>
       r = Ok tt /\ st' = st /\
       steps_of l = scheduled fndb languageDat false).
Proof.
  unfold helper_runs. wp_run.
  destruct fndb, languageDat; wp_run;
    repeat (eapply wp_mono; [apply wp_run_helper|];
            intros ? ? ? (-> & -> & ?); wp_run);
    (split; [reflexivity|]); (split; [reflexivity|]);
    rewrite ?steps_of_app;
    repeat match goal with H : steps_of _ = _ |- _ => rewrite H; clear H end;
    reflexivity.
Qed.

(** What a run does once it holds the lock: the steps that are due, in
    order, up to an exception of the in-process database update. *)
Lemma wp_maintenance_steps env exe fndb languageDat db st :
  wp (maintenance_steps env exe fndb languageDat db) st
    (fun r st' l =>
       r = (if db then match updateDb env with
                       | None => Ok tt
                       | Some e => Throw e
                       end
            else Ok tt) /\
       policy st' = policy st /\
       steps_of l =
         match updateDb env with
         | Some _ =>
             if db then [Step_UpdateDb] else scheduled fndb languageDat db
         | None => scheduled fndb languageDat db
         end).
Proof.
  unfold maintenance_steps. wp_run.
  destruct db.
  - wp_run. eapply wp_mono; [apply wp_update_db|].
    intros r st1 l1 (-> & Hp1 & Hl1).
    destruct (updateDb env) as [e|].
    + rewrite steps_of_app, Hl1. auto.
    + eapply wp_mono; [apply wp_helper_runs|].
      intros r st2 l2 (-> & -> & Hl2).
      split; [reflexivity|]. split; [assumption|].
      rewrite !steps_of_app, Hl2, Hl1. reflexivity.
  - wp_run. eapply wp_mono; [apply wp_helper_runs|].
    intros r st2 l2 (-> & -> & Hl2).
    split; [reflexivity|]. split; [reflexivity|].
    rewrite !steps_of_app, Hl2.
    destruct (updateDb env); reflexivity.
Qed.

(** Every run of [AutoMaintenance] is one of five: the fresh-installation
    exit, nothing stale, helper not found, lock held elsewhere, or the steps
    under the lock. *)
Lemma wp_AutoMaintenance env st :
  wp (AutoMaintenance env) st
    (fun r st' l =>
       let s := session (pimpl st) in
       policy st' = policy st /\
       if isSetupMode s then
         r = Throw (Exn_int 1) /\ st' = st /\
         l = [Ev_Cerr fresh_installation_notice]
       else
         exists fndb languageDat db,
           mustRefreshFndb s (files env) = Some fndb /\
           mustRefreshUserLanguageDat s (files env) = Some languageDat /\
           mustUpdateDb s (files env) = Some db /\
           if fndb || languageDat || db then
             match findFile env MIKTEX_MIKTEX_EXE with
             | None =>
                 r = Ok tt /\ st' = st /\ l = [Ev_FindFile MIKTEX_MIKTEX_EXE]
             | Some exe =>
                 if tryLock env (maintenance_lock s) then
                   exists l',
                     l = Ev_FindFile MIKTEX_MIKTEX_EXE
                         :: Ev_TryLock (maintenance_lock s) :: l' /\
                     r = (if db then match updateDb env with
                                     | None => Ok tt
                                     | Some e => Throw e
                                     end
                          else Ok tt) /\
                     steps_of l' =
                       match updateDb env with
                       | Some _ =>
                           if db then [Step_UpdateDb]
                           else scheduled fndb languageDat db
                       | None => scheduled fndb languageDat db
                       end
                 else
                   r = Ok tt /\ st' = st /\
                   l = [Ev_FindFile MIKTEX_MIKTEX_EXE;
                        Ev_TryLock (maintenance_lock s)]
             end
           else r = Ok tt /\ st' = st /\ l = []).
Proof.
  unfold AutoMaintenance. wp_run. cbv zeta.
  destruct (isSetupMode (session (pimpl st))).
  { wp_run. auto. }
  pose proof (mustRefreshFndb_value (session (pimpl st)) (files env)) as Hf.
  pose proof (mustRefreshUserLanguageDat_value (session (pimpl st)) (files env))
    as Hl.
  pose proof (mustUpdateDb_value (session (pimpl st)) (files env)) as Hd.
  destruct (mustRefreshFndb _ _) as [fndb|]; [clear Hf|discriminate].
  destruct (mustRefreshUserLanguageDat _ _) as [languageDat|];
    [clear Hl|discriminate].
  destruct (mustUpdateDb _ _) as [db|]; [clear Hd|discriminate].
  wp_run.
  assert (Hpick : forall (P : bool -> bool -> bool -> Prop),
            P fndb languageDat db ->
            exists f l d, Some fndb = Some f /\ Some languageDat = Some l /\
                          Some db = Some d /\ P f l d) by eauto 8.
  destruct (fndb || languageDat || db) eqn:Hany;
    [|wp_run; split; [reflexivity|]; apply Hpick; rewrite Hany; auto].
  wp_run. destruct (findFile env MIKTEX_MIKTEX_EXE) as [exe|];
    [|wp_run; split; [reflexivity|]; apply Hpick; rewrite Hany; auto].
  wp_run. cbv zeta. destruct (tryLock env _); cbn [negb];
    [|wp_run; split; [reflexivity|]; apply Hpick; rewrite Hany; auto].
  eapply wp_mono; [apply wp_maintenance_steps|].
  intros r st' l' (-> & Hp & Hs). split; [assumption|].
  apply Hpick. rewrite Hany. exists l'. auto.
Qed.

(** A run that took the lock went through the steps. *)
Lemma AutoMaintenance_under_lock env st :
  lock_acquired env (calls (AutoMaintenance env st)) = true ->
  let s := session (pimpl st) in
  exists fndb languageDat db,
    mustRefreshFndb s (files env) = Some fndb /\
    mustRefreshUserLanguageDat s (files env) = Some languageDat /\
    mustUpdateDb s (files env) = Some db /\
    isSetupMode s = false /\
    fndb || languageDat || db = true /\
    is_Some (findFile env MIKTEX_MIKTEX_EXE) /\
    tryLock env (maintenance_lock s) = true /\
    steps_of (calls (AutoMaintenance env st)) =
      match updateDb env with
      | Some _ => if db then [Step_UpdateDb] else scheduled fndb languageDat db
      | None => scheduled fndb languageDat db
      end.
Proof.
  intros Hlock s. pose proof (wp_AutoMaintenance env st) as H.
  unfold wp in H. cbv zeta in H. fold s in H. destruct H as [_ H].
  destruct (isSetupMode s).
  { destruct H as (_ & _ & Hl). rewrite Hl in Hlock. discriminate. }
  destruct H as (fndb & languageDat & db & Hf & Hg & Hd & H).
  exists fndb, languageDat, db. repeat (split; [assumption|]).
  split; [reflexivity|].
  destruct (fndb || languageDat || db).
  2: { destruct H as (_ & _ & Hl). rewrite Hl in Hlock. discriminate. }
  split; [reflexivity|].
  destruct (findFile env MIKTEX_MIKTEX_EXE) as [exe|].
  2: { destruct H as (_ & _ & Hl). rewrite Hl in Hlock. discriminate. }
  split; [eauto|].
  destruct (tryLock env (maintenance_lock s)) eqn:Htry.
  2: { destruct H as (_ & _ & Hl). rewrite Hl in Hlock. simpl in Hlock.
       rewrite Htry in Hlock. discriminate. }
  split; [reflexivity|].
  destruct H as (l' & Hl & _ & Hs). rewrite Hl.
  change (Ev_FindFile MIKTEX_MIKTEX_EXE :: Ev_TryLock (maintenance_lock s) :: l')
    with ([Ev_FindFile MIKTEX_MIKTEX_EXE; Ev_TryLock (maintenance_lock s)] ++ l').
  rewrite steps_of_app. exact Hs.
Qed.

(** The converse: what makes a run take the lock. *)
Lemma AutoMaintenance_takes_lock env st fndb languageDat db :
  let s := session (pimpl st) in
  isSetupMode s = false ->
  mustRefreshFndb s (files env) = Some fndb ->
  mustRefreshUserLanguageDat s (files env) = Some languageDat ->
  mustUpdateDb s (files env) = Some db ->
  fndb || languageDat || db = true ->
  is_Some (findFile env MIKTEX_MIKTEX_EXE) ->
  tryLock env (maintenance_lock s) = true ->
  lock_acquired env (calls (AutoMaintenance env st)) = true.
Proof.
  intros s Hsetup Hf Hg Hd Hany [exe Hexe] Htry.
  pose proof (wp_AutoMaintenance env st) as H.
  unfold wp in H. cbv zeta in H. fold s in H. destruct H as [_ H].
  rewrite Hsetup in H. destruct H as (f & g & d & Hf' & Hg' & Hd' & H).
  assert (f = fndb) by congruence. assert (g = languageDat) by congruence.
  assert (d = db) by congruence. subst f g d.
  rewrite Hany, Hexe, Htry in H. destruct H as (l' & -> & _).
  simpl. rewrite Htry. reflexivity.
Qed.

(** C4: in a run of [AutoMaintenance] that took the lock, the steps made are
    the scheduled ones in the order package-database update, file-name
    database refresh, font-map configuration, language.dat refresh. What a
    helper run returns (false, or any exit code) changes nothing: with any
    other helper outcomes the same steps are made. The only thing that ends a
    run early is an exception of the in-process database update, after which
    the steps made are still a prefix of the schedule. *)
Theorem maintenance_steps_in_order env st fndb languageDat db :
  let s := session (pimpl st) in
  mustRefreshFndb s (files env) = Some fndb ->
  mustRefreshUserLanguageDat s (files env) = Some languageDat ->
  mustUpdateDb s (files env) = Some db ->
  lock_acquired env (calls (AutoMaintenance env st)) = true ->
  let steps := steps_of (calls (AutoMaintenance env st)) in
  (exists rest, steps ++ rest = scheduled fndb languageDat db) /\
  (db = false \/ updateDb env = None ->
   steps = scheduled fndb languageDat db) /\
  (forall run,
     steps_of (calls (AutoMaintenance (with_processRun env run) st)) = steps).
Proof.
  intros s Hf Hg Hd Hlock steps.
  destruct (AutoMaintenance_under_lock env st Hlock)
    as (f & g & d & Hf' & Hg' & Hd' & Hsetup & Hany & Hexe & Htry & Hsteps).
  fold s in Hf', Hg', Hd', Hsetup, Htry.
  assert (f = fndb) by congruence. assert (g = languageDat) by congruence.
  assert (d = db) by congruence. subst f g d.
  fold steps in Hsteps.
  split; [|split].
  - rewrite Hsteps. destruct (updateDb env), db; try (exists []; apply app_nil_r).
    exists (scheduled fndb languageDat false). reflexivity.
  - intros [-> | Hnone]; rewrite Hsteps.
    + destruct (updateDb env); reflexivity.
    + rewrite Hnone. reflexivity.
  - intros run. rewrite Hsteps.
    assert (Hlock' : lock_acquired (with_processRun env run)
                       (calls (AutoMaintenance (with_processRun env run) st))
                     = true).
    { apply (AutoMaintenance_takes_lock (with_processRun env run) st
               fndb languageDat db); assumption. }
    destruct (AutoMaintenance_under_lock _ st Hlock')
      as (f & g & d & Hf2 & Hg2 & Hd2 & _ & _ & _ & _ & Hsteps').
    cbn [with_processRun files updateDb] in Hf2, Hg2, Hd2, Hsteps'.
    fold s in Hf2, Hg2, Hd2.
    assert (f = fndb) by congruence. assert (g = languageDat) by congruence.
    assert (d = db) by congruence. subst f g d.
    exact Hsteps'.
Qed.

(** C3: in admin mode the language.dat decision and the package-database
    decision are false, and the file-name database decision is true exactly
    when the database file does not exist; so a run of [AutoMaintenance] in
    admin mode that makes any refresh call found that file missing. *)
Theorem admin_mode_only_missing_fndb env st :
  let s := session (pimpl st) in
  IsAdminMode s = true ->
  mustRefreshUserLanguageDat s (files env) = Some false /\
  mustUpdateDb s (files env) = Some false /\
  mustRefreshFndb s (files env) =
    Some (negb (File_Exists (files env) (GetMpmDatabasePathName s))) /\
  (existsb is_refresh_action (calls (AutoMaintenance env st)) = true ->
   File_Exists (files env) (GetMpmDatabasePathName s) = false).
Proof.
  intros s Hadmin.
  pose proof (mustRefreshFndb_value s (files env)) as Hf.
  pose proof (mustRefreshUserLanguageDat_value s (files env)) as Hg.
  pose proof (mustUpdateDb_value s (files env)) as Hd.
  rewrite Hadmin in Hf, Hg, Hd. cbn [negb andb] in Hg, Hd.
  repeat (split; [assumption|]).
  intros Hact. pose proof (wp_AutoMaintenance env st) as H.
  unfold wp in H. cbv zeta in H. fold s in H. destruct H as [_ H].
  destruct (isSetupMode s).
  { destruct H as (_ & _ & Hl). rewrite Hl in Hact. discriminate. }
  destruct H as (f & g & d & Hf' & Hg' & Hd' & H).
  assert (g = false) by congruence. assert (d = false) by congruence.
  assert (f = negb (File_Exists (files env) (GetMpmDatabasePathName s)))
    by congruence.
  subst f g d. rewrite !orb_false_r in H.
  destruct (File_Exists (files env) (GetMpmDatabasePathName s));
    [|reflexivity].
  cbn [negb] in H. destruct H as (_ & _ & Hl). rewrite Hl in Hact.
  discriminate.
Qed.

(** C5: when some decision is true and the lock is held by another process,
    [AutoMaintenance] returns without a refresh call and leaves the
    application object as it was; when no decision is true it does not try
    the lock, and (unless it is the fresh-installation exit) returns without
    any call at all. *)
Theorem lock_held_or_nothing_stale env st :
  let s := session (pimpl st) in
  (isSetupMode s = false ->
   mustRefreshFndb s (files env) = Some true \/
   mustRefreshUserLanguageDat s (files env) = Some true \/
   mustUpdateDb s (files env) = Some true ->
   tryLock env (maintenance_lock s) = false ->
   result (AutoMaintenance env st) = Ok tt /\
   final (AutoMaintenance env st) = st /\
   existsb is_refresh_action (calls (AutoMaintenance env st)) = false /\
   lock_acquired env (calls (AutoMaintenance env st)) = false) /\
  (mustRefreshFndb s (files env) = Some false ->
   mustRefreshUserLanguageDat s (files env) = Some false ->
   mustUpdateDb s (files env) = Some false ->
   existsb is_TryLock (calls (AutoMaintenance env st)) = false /\
   (isSetupMode s = false ->
    result (AutoMaintenance env st) = Ok tt /\
    final (AutoMaintenance env st) = st /\
    calls (AutoMaintenance env st) = [])).
Proof.
  intros s. pose proof (wp_AutoMaintenance env st) as H.
  unfold wp in H. cbv zeta in H. fold s in H. destruct H as [_ H].
  split.
  - intros Hsetup Hstale Htry. rewrite Hsetup in H.
    destruct H as (f & g & d & Hf & Hg & Hd & H).
    assert (Hany : f || g || d = true).
    { destruct Hstale as [E|[E|E]]; rewrite E in *;
        match goal with E' : Some true = Some _ |- _ =>
          injection E' as <- end; rewrite ?orb_true_r; reflexivity. }
    rewrite Hany, Htry in H.
    destruct (findFile env MIKTEX_MIKTEX_EXE);
      destruct H as (Hr & Hs & Hl); rewrite Hr, Hs, Hl; simpl;
      rewrite ?Htry; auto.
  - intros Hf Hg Hd. destruct (isSetupMode s).
    + destruct H as (_ & _ & Hl). rewrite Hl. split; [reflexivity|].
      discriminate.
    + destruct H as (f & g & d & Hf' & Hg' & Hd' & H).
      assert (f = false) by congruence. assert (g = false) by congruence.
      assert (d = false) by congruence. subst f g d. cbn [orb] in H.
      destruct H as (Hr & Hs & Hl). rewrite Hr, Hs, Hl. auto.
Qed.

(** What the steps of any run are: none, or the scheduled ones of a run
    that found something stale, found the utility and took the lock. *)
Lemma AutoMaintenance_steps env st fndb languageDat db :
  let s := session (pimpl st) in
  let steps := steps_of (calls (AutoMaintenance env st)) in
  mustRefreshFndb s (files env) = Some fndb ->
  mustRefreshUserLanguageDat s (files env) = Some languageDat ->
  mustUpdateDb s (files env) = Some db ->
  (steps = [] /\
   (isSetupMode s = true \/ fndb || languageDat || db = false \/
    findFile env MIKTEX_MIKTEX_EXE = None \/
    tryLock env (maintenance_lock s) = false)) \/
  (isSetupMode s = false /\ fndb || languageDat || db = true /\
   is_Some (findFile env MIKTEX_MIKTEX_EXE) /\
   tryLock env (maintenance_lock s) = true /\
   steps = match updateDb env with
           | Some _ =>
               if db then [Step_UpdateDb] else scheduled fndb languageDat db
           | None => scheduled fndb languageDat db
           end).
Proof.
  intros s steps Hf Hg Hd.
  pose proof (wp_AutoMaintenance env st) as H.
  unfold wp in H. cbv zeta in H. fold s in H. destruct H as [_ H].
  destruct (isSetupMode s).
  { destruct H as (_ & _ & Hl). left. subst steps. rewrite Hl. auto. }
  destruct H as (f & g & d & Hf' & Hg' & Hd' & H).
  assert (f = fndb) by congruence. assert (g = languageDat) by congruence.
  assert (d = db) by congruence. subst f g d.
  destruct (fndb || languageDat || db).
  2: { destruct H as (_ & _ & Hl). left. subst steps. rewrite Hl. auto. }
  destruct (findFile env MIKTEX_MIKTEX_EXE) as [exe|].
  2: { destruct H as (_ & _ & Hl). left. subst steps. rewrite Hl. auto. }
  destruct (tryLock env (maintenance_lock s)).
  2: { destruct H as (_ & _ & Hl). left. subst steps. rewrite Hl. auto 6. }
  destruct H as (l' & Hl & _ & Hs). right.
  split; [reflexivity|]. split; [reflexivity|]. split; [eauto|].
  split; [reflexivity|]. subst steps. rewrite Hl.
  change (Ev_FindFile MIKTEX_MIKTEX_EXE :: Ev_TryLock (maintenance_lock s) :: l')
    with ([Ev_FindFile MIKTEX_MIKTEX_EXE; Ev_TryLock (maintenance_lock s)] ++ l').
  rewrite steps_of_app. exact Hs.
Qed.

(** C10: the font-map configuration step has no condition of its own. In
    any run of [AutoMaintenance] it is made exactly when the file-name
    database step is made, and only if [mustRefreshFndb] is true. In a
    maintenance run -- not the fresh-installation exit, the utility is found,
    the lock is free, and the in-process database update, if due, does not
    throw -- it is made if and only if [mustRefreshFndb] is true, directly
    after the file-name database step; so such a run in which only the
    language.dat decision is true makes the language step alone. *)
Theorem fontmaps_share_fndb_gate env st fndb languageDat db :
  let s := session (pimpl st) in
  let steps := steps_of (calls (AutoMaintenance env st)) in
  mustRefreshFndb s (files env) = Some fndb ->
  mustRefreshUserLanguageDat s (files env) = Some languageDat ->
  mustUpdateDb s (files env) = Some db ->
  (In Step_Fontmaps steps <-> In Step_Fndb steps) /\
  (In Step_Fontmaps steps -> fndb = true) /\
  (isSetupMode s = false ->
   is_Some (findFile env MIKTEX_MIKTEX_EXE) ->
   tryLock env (maintenance_lock s) = true ->
   db = false \/ updateDb env = None ->
   (In Step_Fontmaps steps <-> fndb = true) /\
   (fndb = true ->
    exists before after,
      steps = before ++ [Step_Fndb; Step_Fontmaps] ++ after /\
      ~ In Step_Fontmaps before /\ ~ In Step_Fontmaps after) /\
   (fndb = false -> db = false -> languageDat = true ->
    steps = [Step_Languages])).
Proof.
  intros s steps Hf Hg Hd.
  pose proof (AutoMaintenance_steps env st fndb languageDat db Hf Hg Hd) as H.
  cbv zeta in H. fold s steps in H.
  clear Hf Hg Hd. clear Q_ thisProcess.
  split; [|split].
  - destruct H as [[-> _] | (_ & _ & _ & _ & ->)]; [tauto|].
    destruct (updateDb env), fndb, languageDat, db; simpl;
      intuition discriminate.
  - destruct H as [[-> _] | (_ & _ & _ & _ & ->)]; [intros []|].
    destruct (updateDb env), fndb, languageDat, db; simpl;
      intuition discriminate.
  - intros Hsetup [exe Hexe] Htry Hdb.
    destruct H as [[-> [H | [H | [H | H]]]] | (_ & _ & _ & _ & ->)];
      try congruence.
    + destruct fndb; [discriminate H|]. cbn [orb] in H.
      split; [simpl; intuition discriminate|].
      split; [discriminate|]. intros _ -> ->. discriminate H.
    + assert (Hs : match updateDb env with
                   | Some _ =>
                       if db then [Step_UpdateDb]
                       else scheduled fndb languageDat db
                   | None => scheduled fndb languageDat db
                   end = scheduled fndb languageDat db).
      { destruct Hdb as [-> | ->]; [destruct (updateDb env)|]; reflexivity. }
      rewrite Hs. clear Hs Hdb. unfold scheduled.
      split; [|split].
      * destruct fndb, languageDat, db; simpl; intuition discriminate.
      * intros ->. exists (if db then [Step_UpdateDb] else []),
          (if languageDat then [Step_Languages] else []).
        split; [reflexivity|].
        destruct db, languageDat; simpl; intuition discriminate.
      * intros -> -> ->. reflexivity.
Qed.

(** ** Runs of [InstallPackage] *)

(** Proofs about the installation do not look at the maintenance macros. *)
Ltac unused_macros :=
  try clear MIKTEX_PATH_LANGUAGE_DAT; try clear MIKTEX_PATH_LANGUAGES_INI;
  try clear MIKTEX_PATH_PACKAGE_MANIFESTS_INI;
  try clear MIKTEX_PATH_AUTO_MAINTENANCE_LOCK; try clear MIKTEX_MIKTEX_EXE;
  try clear GetFileNameWithoutExtension; try clear Q_; try clear thisProcess;
  try clear platform; try clear GetExeName.

Ltac destruct_app st :=
  let s := fresh "s" in
  destruct st as [[bq cl ed ei em ip ini inst lg maa pm ptm s] ui lc];
  destruct s as [adm shared port raa cfgT cfgS sp mdb].

Lemma no_install_call (l : list Event) :
  existsb is_install_call l = false ->
  existsb is_elevation l = false /\
  existsb is_InstallRemove l = false /\
  existsb is_MessageBox l = false.
Proof.
  induction l as [|e l IH]; cbn [existsb]; [auto|].
  intros H. apply orb_false_elim in H as [He Hl].
  unfold is_install_call in He.
  apply orb_false_elim in He as [He Hm]. apply orb_false_elim in He as [He Hi].
  destruct (IH Hl) as (-> & -> & ->). rewrite He, Hi, Hm. auto.
Qed.

(** The installer invocation with its scoped switch to admin mode. *)
Lemma wp_install_now env packageId trigger installRoot st :
  wp (install_now env packageId trigger installRoot) st
    (fun r st' l =>
       existsb is_elevation l = switchToAdminMode st /\
       existsb is_InstallRemove l = true /\
       existsb is_MessageBox l = false /\
       IsSharedSetup (session (pimpl st')) = IsSharedSetup (session (pimpl st)) /\
       mpmAutoAdmin (pimpl st') = mpmAutoAdmin (pimpl st) /\
       match installRemove env with
       | None =>
           (exists root', r = Ok (true, root')) /\
           IsAdminMode (session (pimpl st')) = IsAdminMode (session (pimpl st)) /\
           enableInstaller (pimpl st') = enableInstaller (pimpl st) /\
           ignoredPackages (pimpl st') = ignoredPackages (pimpl st)
       | Some (Exn_MiKTeX _ _ _ _) =>
           r = Ok (false, installRoot) /\
           IsAdminMode (session (pimpl st')) = IsAdminMode (session (pimpl st)) /\
           enableInstaller (pimpl st') = TriState_False /\
           ignoredPackages (pimpl st') = {[packageId]} ∪ ignoredPackages (pimpl st)
       | Some e =>
           r = Throw e /\
           IsAdminMode (session (pimpl st')) =
             switchToAdminMode st || IsAdminMode (session (pimpl st)) /\
           enableInstaller (pimpl st') = enableInstaller (pimpl st) /\
           ignoredPackages (pimpl st') = ignoredPackages (pimpl st)
       end).
Proof.
  unfold install_now. wp_run.
  eapply wp_mono; [apply wp_ensure_installer|].
  intros r st1 l1 (-> & Hp1 & _ & Hl1).
  apply no_install_call in Hl1 as (He1 & Hi1 & Hm1).
  destruct (policy_eq _ _ Hp1) as (Hs & Hm & He & Hi).
  unfold switchToAdminMode. rewrite <- Hs, <- Hm, <- He, <- Hi.
  clear Hp1 Hs Hm He Hi.
  unfold Session_SetAdminMode, Installer_InstallRemove, ignore_package.
  destruct_app st1.
  destruct maa, adm, (installRemove env) as [[c|m i f n|]|];
    wp_run; rewrite !existsb_app, He1, Hi1, Hm1; cbn; eauto 10.
Qed.

(** The consent prompt: no installer run and no mode switch. *)
Lemma wp_ask_user env packageId trigger st :
  wp (ask_user env packageId trigger) st
    (fun r st' l =>
       session (pimpl st') = session (pimpl st) /\
       existsb is_elevation l = false /\
       existsb is_InstallRemove l = false /\
       existsb is_MessageBox l = true /\
       (r = Ok true \/
        r = Ok false /\ packageId ∈ ignoredPackages (pimpl st'))).
Proof.
  unfold ask_user, InitializeFramework_once, ignore_package. wp_run.
  destruct (initUiFrameworkDone st),
    (Z.land (installPackageMessageBox env packageId trigger) UI_YES =? 0),
    (Z.land (installPackageMessageBox env packageId trigger) UI_DONTASKAGAIN
     =? 0);
    wp_run; cbn; repeat (split; [reflexivity|]); auto;
    right; (split; [reflexivity|]);
    apply elem_of_union_l, elem_of_singleton_2; reflexivity.
Qed.

(** The proxy dialog changes nothing the installation depends on. *)
Lemma wp_proxy_dialog_cancelled env st :
  wp (proxy_dialog_cancelled env) st
    (fun r st' l =>
       (exists b, r = Ok b) /\ policy st' = policy st /\
       existsb is_install_call l = false).
Proof.
  unfold proxy_dialog_cancelled, proxy_credentials_missing,
    InitializeFramework_once.
  wp_run.
  destruct (tryGetDefaultPackageRepository env) as [[[] url]|]; wp_run;
    eauto.
  destruct (tryGetProxy env) as [ps|]; wp_run; eauto.
  destruct (useProxy ps && authenticationRequired ps
            && bool_decide (user ps = "")); wp_run; eauto.
  destruct (initUiFrameworkDone st); wp_run; eauto.
Qed.

Lemma InstallPackage_post_rejected env packageId installRoot st :
  InstallPackage_post env packageId installRoot st
    (Ok (false, installRoot)) st [].
Proof.
  unfold InstallPackage_post. cbn [existsb].
  repeat split; try discriminate; auto.
Qed.

Lemma switchToAdminMode_true st :
  switchToAdminMode st = true ->
  mpmAutoAdmin (pimpl st) = TriState_True /\
  IsAdminMode (session (pimpl st)) = false.
Proof.
  unfold switchToAdminMode. intros H. apply andb_true_iff in H as [Hm Ha].
  apply negb_true_iff in Ha. split; [|exact Ha].
  destruct (mpmAutoAdmin (pimpl st)); [discriminate|reflexivity|discriminate].
Qed.

(** The postcondition of the whole call from that of the installer
    invocation, when the steps before it left the session alone. *)
Lemma InstallPackage_post_installed env packageId trigger installRoot
    st st3 l0 (prompted : bool) :
  session (pimpl st3) = session (pimpl st) ->
  (prompted = false -> mpmAutoAdmin (pimpl st3) = mpmAutoAdmin (pimpl st)) ->
  existsb is_elevation l0 = false ->
  existsb is_InstallRemove l0 = false ->
  existsb is_MessageBox l0 = prompted ->
  wp (install_now env packageId trigger installRoot) st3
    (fun r st' l =>
       InstallPackage_post env packageId installRoot st r st' (l0 ++ l)).
Proof.
  unused_macros.
  intros Hs Hm He0 Hi0 Hm0.
  eapply wp_mono; [apply wp_install_now|].
  intros r st' l (He & Hi & Hb & Hshared & Hauto & Hout).
  unfold InstallPackage_post.
  rewrite !existsb_app, He0, Hi0, Hm0, He, Hi, Hb, <- Hs. cbn [orb].
  rewrite orb_false_r.
  assert (Hsw : switchToAdminMode st3 = true ->
                IsAdminMode (session (pimpl st3)) = false)
    by (intros H; apply switchToAdminMode_true in H; tauto).
  assert (Hpolicy : prompted = false ->
            mpmAutoAdmin (pimpl st') = mpmAutoAdmin (pimpl st) /\
            (switchToAdminMode st3 = true ->
             mpmAutoAdmin (pimpl st) = TriState_True)).
  { intros Hp. split; [rewrite Hauto; exact (Hm Hp)|].
    intros H. apply switchToAdminMode_true in H as [H _].
    rewrite <- (Hm Hp). exact H. }
  destruct (installRemove env) as [[c|m i f n|]|];
    [destruct Hout as (-> & Ha & Hen & Hig)
    |destruct Hout as (-> & Ha & Hen & Hig)
    |destruct Hout as (-> & Ha & Hen & Hig)
    |destruct Hout as ((root' & ->) & Ha & Hen & Hig)];
    (split; [intros v E; first [discriminate E | exact Ha]|]);
    (split; [intros e E; first [discriminate E | injection E as <-; auto]|]);
    (split; [intros _ E; cbn in E;
             first [discriminate E
                   | split; [reflexivity|]; split; [exact Hen|];
                     rewrite Hig;
                     apply elem_of_union_l, elem_of_singleton_2; reflexivity]|]);
    (split; [intros _ E; first [discriminate E | eauto]|]);
    (split; [intros _ e' E E'; first [discriminate E
                                     | injection E as <-; cbn in E';
                                       first [discriminate E' | reflexivity]]|]);
    (split; [intros E; discriminate E|]);
    (split; [exact Hshared|]);
    (split; [exact Hpolicy|]);
    reflexivity.
Qed.

Lemma InstallPackage_post_not_installed env packageId installRoot
    st st' l (prompted : bool) :
  session (pimpl st') = session (pimpl st) ->
  (prompted = false -> mpmAutoAdmin (pimpl st') = mpmAutoAdmin (pimpl st)) ->
  existsb is_elevation l = false ->
  existsb is_InstallRemove l = false ->
  existsb is_MessageBox l = prompted ->
  InstallPackage_post env packageId installRoot st
    (Ok (false, installRoot)) st' l.
Proof.
  intros Hs Hm He Hi Hb. unfold InstallPackage_post.
  rewrite He, Hi, Hb, Hs.
  repeat split; try discriminate; auto.
Qed.

Lemma wp_InstallPackage env packageId trigger installRoot st :
  wp (InstallPackage env packageId trigger installRoot) st
    (InstallPackage_post env packageId installRoot st).
Proof.
  unfold InstallPackage. wp_run.
  destruct (bool_decide (packageId ∈ ignoredPackages (pimpl st))).
  { wp_run. apply InstallPackage_post_rejected. }
  destruct (enableInstaller (pimpl st)) eqn:Hen.
  - wp_run. apply InstallPackage_post_rejected.
  - wp_run. eapply wp_mono; [apply wp_ensure_packageManager|].
    intros r st1 l1 (-> & Hp1 & _ & Hl1). wp_run.
    apply no_install_call in Hl1 as (He1 & Hi1 & Hm1).
    destruct (policy_eq _ _ Hp1) as (Hs1 & Ha1 & _ & _).
    eapply wp_mono; [apply wp_proxy_dialog_cancelled|].
    intros r st3 l3 ((b & ->) & Hp3 & Hl3).
    apply no_install_call in Hl3 as (He3 & Hi3 & Hm3).
    destruct (policy_eq _ _ Hp3) as (Hs3 & Ha3 & _ & _).
    destruct b; wp_run.
    + apply (InstallPackage_post_not_installed _ _ _ _ _ _ false);
        try congruence;
        rewrite ?existsb_app, ?He1, ?Hi1, ?Hm1, ?He3, ?Hi3, ?Hm3; reflexivity.
    + eapply wp_mono;
        [apply (InstallPackage_post_installed env packageId trigger installRoot
                  st st3 (l1 ++ l3) false);
         try congruence;
         rewrite ?existsb_app, ?He1, ?Hi1, ?Hm1, ?He3, ?Hi3, ?Hm3; reflexivity|].
      intros r st' l H. cbn [app]. rewrite app_assoc. exact H.
  - wp_run. eapply wp_mono; [apply wp_ensure_packageManager|].
    intros r st1 l1 (-> & Hp1 & _ & Hl1). wp_run.
    apply no_install_call in Hl1 as (He1 & Hi1 & Hm1).
    destruct (policy_eq _ _ Hp1) as (Hs1 & Ha1 & _ & _).
    eapply wp_mono; [apply wp_ask_user|].
    intros r st2 l2 (Hs2 & He2 & Hi2 & Hm2 & [-> | [-> Hig]]); wp_run.
    + eapply wp_mono; [apply wp_proxy_dialog_cancelled|].
      intros r st3 l3 ((b & ->) & Hp3 & Hl3).
      apply no_install_call in Hl3 as (He3 & Hi3 & Hm3).
      destruct (policy_eq _ _ Hp3) as (Hs3 & Ha3 & _ & _).
      destruct b; wp_run.
      * apply (InstallPackage_post_not_installed _ _ _ _ _ _ true);
          try congruence;
          rewrite ?existsb_app, ?He1, ?Hi1, ?Hm1, ?He2, ?Hi2, ?Hm2,
            ?He3, ?Hi3, ?Hm3; reflexivity.
      * eapply wp_mono;
          [apply (InstallPackage_post_installed env packageId trigger
                    installRoot st st3 (l1 ++ l2 ++ l3) true);
           try congruence;
           rewrite ?existsb_app, ?He1, ?Hi1, ?Hm1, ?He2, ?Hi2, ?Hm2,
             ?He3, ?Hi3, ?Hm3; reflexivity|].
        intros r st' l H. cbn [app]. rewrite !app_assoc in *. exact H.
    + apply (InstallPackage_post_not_installed _ _ _ _ _ _ true);
        try congruence;
        rewrite ?existsb_app, ?He1, ?Hi1, ?Hm1, ?He2, ?Hi2, ?Hm2; reflexivity.
Qed.

(** C7: for a package in [ignoredPackages], and likewise when
    [enableInstaller] is [False], [InstallPackage] returns false, makes no
    collaborator call, and leaves the application object and the caller's
    [installRoot] as they were. *)
Theorem InstallPackage_rejected env packageId trigger installRoot st :
  packageId ∈ ignoredPackages (pimpl st) \/
  enableInstaller (pimpl st) = TriState_False ->
  result (InstallPackage env packageId trigger installRoot st)
    = Ok (false, installRoot) /\
  final (InstallPackage env packageId trigger installRoot st) = st /\
  calls (InstallPackage env packageId trigger installRoot st) = [].
Proof.
  intros H.
  change (wp (InstallPackage env packageId trigger installRoot) st
            (fun r st' l => r = Ok (false, installRoot) /\ st' = st /\ l = [])).
  unfold InstallPackage. wp_run.
  destruct (bool_decide (packageId ∈ ignoredPackages (pimpl st))) eqn:Hdec.
  - wp_run. auto.
  - destruct H as [H|H].
    + apply bool_decide_eq_false in Hdec. contradiction.
    + rewrite H. wp_run. auto.
Qed.

(** Calls that return: when a call of [InstallPackage] switches the session
    to admin mode (auto-admin [True], session not in admin mode), the switch
    is made around an installer run; the call returns both when the installer
    succeeds and when it throws a [MiKTeXException]; and whenever the call
    returns, the session's admin-mode flag is the one it had before the
    call. *)
Lemma scoped_elevation_restored env packageId trigger installRoot st :
  existsb is_elevation
    (calls (InstallPackage env packageId trigger installRoot st)) = true ->
  existsb is_InstallRemove
    (calls (InstallPackage env packageId trigger installRoot st)) = true /\
  (installRemove env = None \/ is_MiKTeXException (installRemove env) = true ->
   exists v, result (InstallPackage env packageId trigger installRoot st) = Ok v)
  /\
  (forall v,
     result (InstallPackage env packageId trigger installRoot st) = Ok v ->
     IsAdminMode
       (session
          (pimpl (final (InstallPackage env packageId trigger installRoot st))))
     = IsAdminMode (session (pimpl st))).
Proof.
  intros Helev.
  pose proof (wp_InstallPackage env packageId trigger installRoot st) as H.
  unfold wp, InstallPackage_post in H.
  destruct H as (Hok & _ & Hfail & Hsucc & _ & _ & _ & _ & Hir).
  split; [exact (Hir Helev)|]. split; [|exact Hok].
  intros [Hnone | Hexn].
  - destruct (Hsucc (Hir Helev) Hnone) as [root' Hr]. eauto.
  - destruct (Hfail (Hir Helev) Hexn) as (Hr & _). eauto.
Qed.

(** Calls that do not return: an exception of the installer that is not a
    [MiKTeXException] leaves [InstallPackage] by unwinding, past the switch
    back to user mode of lines 721-724, which is no scope guard (as
    [AutoRestore] at line 364 is for the quiet flag). *)
Lemma elevation_not_undone_by_unwinding env packageId trigger installRoot st e :
  existsb is_elevation
    (calls (InstallPackage env packageId trigger installRoot st)) = true ->
  result (InstallPackage env packageId trigger installRoot st) = Throw e ->
  IsAdminMode
    (session (pimpl (final (InstallPackage env packageId trigger installRoot st))))
  = true.
Proof.
  intros Helev Hres.
  pose proof (wp_InstallPackage env packageId trigger installRoot st) as H.
  unfold wp, InstallPackage_post in H.
  destruct H as (_ & Hthrow & _).
  destruct (Hthrow e Hres) as (_ & _ & _ & Hadm).
  rewrite Hadm, Helev. reflexivity.
Qed.

(** C6: when the installer is run and throws a [MiKTeXException],
    [InstallPackage] returns (nothing is thrown) with result false and the
    caller's [installRoot] untouched, [enableInstaller] is [False] and the
    package is in [ignoredPackages]. In every run that returns false the
    caller's [installRoot] is untouched: it is assigned only on success. *)
Theorem installer_failure_contained env packageId trigger installRoot st :
  (existsb is_InstallRemove
     (calls (InstallPackage env packageId trigger installRoot st)) = true ->
   is_MiKTeXException (installRemove env) = true ->
   result (InstallPackage env packageId trigger installRoot st)
     = Ok (false, installRoot) /\
   enableInstaller
     (pimpl (final (InstallPackage env packageId trigger installRoot st)))
     = TriState_False /\
   packageId ∈
     ignoredPackages
       (pimpl (final (InstallPackage env packageId trigger installRoot st)))) /\
  (forall root',
     result (InstallPackage env packageId trigger installRoot st)
       = Ok (false, root') ->
     root' = installRoot).
Proof.
  pose proof (wp_InstallPackage env packageId trigger installRoot st) as H.
  unfold wp, InstallPackage_post in H.
  destruct H as (_ & _ & Hfail & Hsucc & Hother & Hnot & _).
  split; [exact Hfail|].
  intros root' Hres.
  destruct (existsb is_InstallRemove
              (calls (InstallPackage env packageId trigger installRoot st)))
    eqn:Hir.
  - destruct (installRemove env) as [e|] eqn:Henv.
    + destruct (is_MiKTeXException (Some e)) eqn:Hm.
      * destruct (Hfail eq_refl eq_refl) as (Hr & _). congruence.
      * rewrite (Hother eq_refl e eq_refl Hm) in Hres. discriminate.
    + destruct (Hsucc eq_refl eq_refl) as (root2 & Hr). congruence.
  - rewrite (Hnot eq_refl) in Hres. congruence.
Qed.

(** ** Runs of [Init] and of later installations *)

Lemma wp_Init_session created st :
  wp (Init_session created) st
    (fun r st' l =>
       r = Ok tt /\ session (pimpl st') = created /\ logger (pimpl st') = true).
Proof.
  unfold Init_session, ConfigureLogging. wp_run.
  destruct (bool_decide _); wp_run; auto.
  destruct (is_Windows platform); wp_run; auto.
Qed.

Lemma wp_Init_installer_policy st :
  wp Init_installer_policy st
    (fun r st' l =>
       let s := session (pimpl st) in
       let configured := GetConfigValue_TriState s MPM_AUTOADMIN in
       r = Ok tt /\ session (pimpl st') = s /\
       mpmAutoAdmin (pimpl st') =
         (if TriState_eqb configured TriState_True && negb (IsSharedSetup s)
          then TriState_False else configured) /\
       (logger (pimpl st) = true ->
        TriState_eqb configured TriState_True && negb (IsSharedSetup s) = true ->
        In (Ev_Log LOG_WARN AutoAdmin_ignored) l)).
Proof.
  unfold Init_installer_policy, LogWarn. wp_run.
  destruct (enableInstaller (pimpl st)); wp_run;
    cbn [pimpl with_pimpl session mpmAutoAdmin set_mpmAutoAdmin
         set_enableInstaller];
    destruct (TriState_eqb (GetConfigValue_TriState (session (pimpl st))
                              MPM_AUTOADMIN) TriState_True
              && negb (IsSharedSetup (session (pimpl st)))) eqn:Hc;
    wp_run; cbn [pimpl with_pimpl session logger set_mpmAutoAdmin
                 set_enableInstaller];
    try (destruct (logger (pimpl st)) eqn:Hlog; wp_run);
    cbn; repeat (split; [reflexivity|]); intros; try discriminate; auto.
Qed.

Lemma wp_SecurityRisk msg st :
  wp (SecurityRisk msg) st (fun r st' l => r = Ok tt /\ st' = st).
Proof.
  unfold SecurityRisk, LogWarn. wp_run.
  destruct (logger (pimpl st)); wp_run;
    destruct (beQuiet (pimpl st)); wp_run; auto.
Qed.

Lemma wp_Init_maintenance env st :
  wp (Init_maintenance env) st (fun r st' l => policy st' = policy st).
Proof.
  unfold Init_maintenance.
  repeat first
    [ wp_step; cbv beta iota
    | wp_branch
    | eapply wp_mono; [apply wp_SecurityRisk|]; intros ? ? ? (-> & ->)
    | eapply wp_mono; [apply wp_AutoMaintenance|];
      intros r' st' l' [Hp' _]; destruct r'; exact Hp' ];
    reflexivity.
Qed.

(** What [Init] leaves: the created session, and the auto-admin policy of
    the configuration unless that is [True] outside a shared setup. *)
Lemma wp_Init created env st :
  wp (Init created env) st
    (fun r st' l =>
       let configured := GetConfigValue_TriState created MPM_AUTOADMIN in
       session (pimpl st') = created /\
       mpmAutoAdmin (pimpl st') =
         (if TriState_eqb configured TriState_True
             && negb (IsSharedSetup created)
          then TriState_False else configured) /\
       (TriState_eqb configured TriState_True
        && negb (IsSharedSetup created) = true ->
        In (Ev_Log LOG_WARN AutoAdmin_ignored) l)).
Proof.
  unfold Init. wp_run.
  eapply wp_mono; [apply wp_Init_session|].
  intros r st1 l1 (-> & Hs1 & Hlog1). wp_run.
  eapply wp_mono; [apply wp_Init_installer_policy|].
  cbv zeta. rewrite Hs1.
  intros r st2 l2 (-> & Hs2 & Ha2 & Hw2). wp_run.
  eapply wp_mono; [apply wp_Init_maintenance|].
  intros r st3 l3 Hp3. destruct (policy_eq _ _ Hp3) as (Hs3 & Ha3 & _ & _).
  assert (Hgoal : session (pimpl st3) = created /\
                  mpmAutoAdmin (pimpl st3) =
                    (if TriState_eqb (GetConfigValue_TriState created MPM_AUTOADMIN)
                          TriState_True && negb (IsSharedSetup created)
                     then TriState_False
                     else GetConfigValue_TriState created MPM_AUTOADMIN) /\
                  (TriState_eqb (GetConfigValue_TriState created MPM_AUTOADMIN)
                     TriState_True && negb (IsSharedSetup created) = true ->
                   In (Ev_Log LOG_WARN AutoAdmin_ignored) (l1 ++ l2 ++ l3))).
  { split; [congruence|]. split; [congruence|].
    intros Hc. apply in_or_app. right. apply in_or_app. left. auto. }
  destruct r; exact Hgoal.
Qed.

Lemma InstallPackage_all_policy cs st :
  IsSharedSetup (session (pimpl (fst (InstallPackage_all cs st))))
  = IsSharedSetup (session (pimpl st)) /\
  (existsb is_MessageBox (snd (InstallPackage_all cs st)) = false ->
   mpmAutoAdmin (pimpl (fst (InstallPackage_all cs st)))
   = mpmAutoAdmin (pimpl st) /\
   (existsb is_elevation (snd (InstallPackage_all cs st)) = true ->
    mpmAutoAdmin (pimpl st) = TriState_True)).
Proof.
  revert st. induction cs as [|c cs IH]; intros st; cbn [InstallPackage_all].
  - cbn. split; [reflexivity|]. intros _. split; [reflexivity|]. discriminate.
  - set (r := InstallPackage (call_env c) (call_packageId c) (call_trigger c)
                (call_installRoot c) st).
    pose proof (wp_InstallPackage (call_env c) (call_packageId c)
                  (call_trigger c) (call_installRoot c) st) as H.
    unfold wp, InstallPackage_post in H. fold r in H.
    destruct H as (_ & _ & _ & _ & _ & _ & Hshared & Hpol & _).
    specialize (IH (final r)).
    destruct (InstallPackage_all cs (final r)) as [st' l].
    cbn [fst snd] in *. destruct IH as [IHs IHp].
    split; [congruence|].
    rewrite !existsb_app. intros Hbox.
    apply orb_false_elim in Hbox as [Hb1 Hb2].
    destruct (Hpol Hb1) as [Hm1 He1]. destruct (IHp Hb2) as [Hm2 He2].
    split; [congruence|].
    intros Helev. apply orb_true_iff in Helev as [Helev|Helev];
      [auto | rewrite <- Hm1; auto].
Qed.

(** C9: if the [AutoAdmin] value of the configuration is [True] and the
    session is not a shared setup, [Init] logs a warning and leaves
    [mpmAutoAdmin] at [False]; so after [Init], [mpmAutoAdmin] is [True] only
    in a shared setup. Consequently, in any sequence of [InstallPackage]
    calls after [Init] during which the user was never asked (so that the
    policy in force is the configured one), a switch to admin mode happens
    only in a shared setup whose configuration has [AutoAdmin] [True]. *)
Theorem auto_admin_only_in_shared_setup created env st0 cs :
  let st1 := final (Init created env st0) in
  (GetConfigValue_TriState created MPM_AUTOADMIN = TriState_True ->
   IsSharedSetup created = false ->
   mpmAutoAdmin (pimpl st1) = TriState_False /\
   In (Ev_Log LOG_WARN AutoAdmin_ignored) (calls (Init created env st0))) /\
  (mpmAutoAdmin (pimpl st1) = TriState_True ->
   IsSharedSetup (session (pimpl st1)) = true) /\
  (existsb is_MessageBox (snd (InstallPackage_all cs st1)) = false ->
   existsb is_elevation (snd (InstallPackage_all cs st1)) = true ->
   IsSharedSetup created = true /\
   GetConfigValue_TriState created MPM_AUTOADMIN = TriState_True).
Proof.
  intros st1. pose proof (wp_Init created env st0) as H.
  unfold wp in H. cbv zeta in H. fold st1 in H.
  destruct H as (Hs & Ha & Hw).
  assert (Htrue : mpmAutoAdmin (pimpl st1) = TriState_True ->
                  IsSharedSetup created = true /\
                  GetConfigValue_TriState created MPM_AUTOADMIN = TriState_True).
  { intros Ht. rewrite Ht in Ha.
    destruct (GetConfigValue_TriState created MPM_AUTOADMIN),
      (IsSharedSetup created); cbn in Ha; try discriminate; auto. }
  split; [|split].
  - intros Hcfg Hshared. rewrite Hcfg, Hshared in Ha, Hw. cbn in Ha, Hw. auto.
  - intros Ht. rewrite Hs. apply Htrue, Ht.
  - intros Hbox Helev.
    destruct (InstallPackage_all_policy cs st1) as [_ Hp].
    destruct (Hp Hbox) as [_ He]. apply Htrue, He, Helev.
Qed.

(** ** Delivery of buffered trace messages *)

(** For proofs that mention none of the macros. *)
Ltac no_macros :=
  unused_macros; try clear UI_YES; try clear UI_DONTASKAGAIN;
  try clear UI_ADMIN.

Lemma wp_for_each_TraceInternal (l : list TraceMessage) (st : App) :
  wp (for_each TraceInternal l) st
    (fun r st' c => r = Ok tt /\ st' = st /\ c = map (trace_output st) l).
Proof.
  induction l as [|m l IH]; cbn [for_each map].
  - wp_run. auto.
  - apply wp_bind. unfold wp at 1, TraceInternal, trace_output.
    destruct (isLog4cxxConfigured st) eqn:Hc; cbn [emit result final calls];
      (eapply wp_mono; [apply IH|]); intros r st' c (-> & -> & ->);
      unfold trace_output; rewrite Hc; auto.
Qed.

(** X1: [FlushPendingTraceMessages] hands every pending message to
    [TraceInternal] in arrival order (to the log4cxx sink when logging is
    configured, to [cerr] otherwise), leaves the queue empty and does not
    throw; a second flush makes no call. *)
Theorem Flush_drains_once (st : App) :
  let r := FlushPendingTraceMessages st in
  result r = Ok tt /\
  calls r = map (trace_output st) (pending st) /\
  pending (final r) = [] /\
  isLog4cxxConfigured (final r) = isLog4cxxConfigured st /\
  calls (FlushPendingTraceMessages (final r)) = [] /\
  final (FlushPendingTraceMessages (final r)) = final r.
Proof.
  assert (H : forall st0,
    wp FlushPendingTraceMessages st0
      (fun r st' c =>
         r = Ok tt /\ c = map (trace_output st0) (pending st0) /\
         st' = with_pimpl (set_pendingTraceMessages []) st0)).
  { intros st0. unfold FlushPendingTraceMessages. wp_run.
    eapply wp_mono; [apply wp_for_each_TraceInternal|].
    intros r st' c (-> & -> & ->). wp_run.
    rewrite app_nil_r. auto. }
  intros r. destruct (H st) as (Hr & Hc & Hf). fold r in Hr, Hc, Hf.
  destruct (H (final r)) as (_ & Hc2 & Hf2).
  rewrite Hf in Hc2, Hf2 |- *.
  split; [exact Hr|]. split; [exact Hc|]. split; [reflexivity|].
  split; [reflexivity|]. split; [exact Hc2|]. rewrite Hf2.
  destruct st as [[] ? ?]. reflexivity.
Qed.

Lemma wp_Trace_configured (m : TraceMessage) (st : App) :
  isLog4cxxConfigured st = true ->
  wp (Trace m) st
    (fun r st' c =>
       r = Ok true /\ c = map Ev_TraceSink (pending st ++ [m]) /\
       pending st' = [] /\ isLog4cxxConfigured st' = true).
Proof.
  intros Hc. pose proof (Flush_drains_once st) as H. cbv zeta in H.
  destruct H as (Hr & Hcalls & Hp & Hcfg & _).
  unfold Trace. wp_run. rewrite Hc. cbn [negb]. wp_run.
  unfold wp at 1. rewrite Hr. cbv beta iota. apply wp_bind.
  unfold wp at 1, TraceInternal. rewrite Hcfg, Hc.
  cbn [emit result final calls]. wp_run.
  rewrite Hcalls, map_app, app_nil_r.
  unfold trace_output. rewrite Hc. cbn [map].
  split; [reflexivity|]. split; [reflexivity|]. split; [exact Hp|].
  rewrite Hcfg. exact Hc.
Qed.

(** X2: up to 101 messages traced before logging is configured are not
    lost: the first [Trace] after [ConfigureLogging] sends them to the sink in
    arrival order, followed by its own message, and leaves the queue empty. *)
Theorem Trace_delivers_buffered_in_order
    (st : App) (ms : list TraceMessage) (m : TraceMessage) :
  isLog4cxxConfigured st = false ->
  pending st = [] ->
  (length ms <= 101)%nat ->
  let r := Trace m (final (ConfigureLogging (Trace_all ms st))) in
  result r = Ok true /\
  calls r = map Ev_TraceSink (ms ++ [m]) /\
  pending (final r) = [].
Proof.
  no_macros. intros Hc Hp Hlen r.
  destruct (Trace_all_accumulate ms st Hc) as [_ Hq].
  { rewrite Hp. cbn [length]. lia. }
  rewrite Hp in Hq. cbn [app] in Hq.
  assert (Hc2 : isLog4cxxConfigured (final (ConfigureLogging (Trace_all ms st)))
                = true) by reflexivity.
  assert (Hq2 : pending (final (ConfigureLogging (Trace_all ms st))) = ms)
    by exact Hq.
  pose proof (wp_Trace_configured m _ Hc2) as H. unfold wp in H.
  fold r in H. rewrite Hq2 in H. tauto.
Qed.

(** ** More about runs of [InstallPackage] *)

Lemma created_once_refl st : created_once st st [].
Proof. unfold created_once, creations, created_flags, count. cbn. auto. Qed.

Lemma count_app p l1 l2 : count p (l1 ++ l2) = (count p l1 + count p l2)%nat.
Proof. unfold count. rewrite filter_app, length_app. reflexivity. Qed.

Lemma created_once_trans st st1 st2 l1 l2 :
  created_once st st1 l1 -> created_once st1 st2 l2 ->
  created_once st st2 (l1 ++ l2).
Proof.
  no_macros.
  unfold created_once, creations, created_flags. rewrite !count_app.
  intros (? & ? & ?) (? & ? & ?). lia.
Qed.

Lemma prelude_filter_nil (p : Event -> bool) (l : list Event) :
  (forall e, prelude_event e = true -> p e = false) ->
  forallb prelude_event l = true -> filter p l = [].
Proof.
  intros Hp. induction l as [|e l IH]; cbn [forallb]; [reflexivity|].
  intros H. apply andb_true_iff in H as [He Hl].
  rewrite filter_cons, (Hp e He). cbn. rewrite decide_False by auto. auto.
Qed.

Lemma wp_ensure_packageManager_exact st :
  wp ensure_packageManager st
    (fun r st' l =>
       r = Ok tt /\ policy st' = policy st /\
       forallb prelude_event l = true /\ created_once st st' l /\
       existsb is_ProxyAuthenticationDialog l = false).
Proof.
  unfold ensure_packageManager. wp_run.
  destruct st as [[bq cl ed ei em ip ini inst lg maa [] ptm s] ui lc];
    wp_run; unfold created_once; cbn; destruct ui, inst; cbn; auto 10.
Qed.

Lemma wp_ask_user_exact env packageId trigger st :
  wp (ask_user env packageId trigger) st
    (fun r st' l =>
       let answer := installPackageMessageBox env packageId trigger in
       let doInstall := negb (Z.land answer UI_YES =? 0) in
       r = Ok doInstall /\
       session (pimpl st') = session (pimpl st) /\
       enableInstaller (pimpl st') =
         (if negb (Z.land answer UI_DONTASKAGAIN =? 0)
          then (if doInstall then TriState_True else TriState_False)
          else enableInstaller (pimpl st)) /\
       ignoredPackages (pimpl st') =
         (if doInstall then ignoredPackages (pimpl st)
          else {[packageId]} ∪ ignoredPackages (pimpl st)) /\
       mpmAutoAdmin (pimpl st') =
         (if doInstall
          then (if negb (Z.land answer UI_ADMIN =? 0)
                then TriState_True else TriState_False)
          else mpmAutoAdmin (pimpl st)) /\
       l = (if initUiFrameworkDone st then [] else [Ev_UI_InitializeFramework])
           ++ [Ev_InstallPackageMessageBox packageId trigger] /\
       created_once st st' l).
Proof.
  unfold ask_user, InitializeFramework_once, ignore_package. wp_run.
  destruct st as [[bq cl ed ei em ip ini inst lg maa pm ptm s] ui lc].
  cbn [initUiFrameworkDone].
  destruct ui,
    (Z.land (installPackageMessageBox env packageId trigger) UI_YES =? 0),
    (Z.land (installPackageMessageBox env packageId trigger) UI_DONTASKAGAIN
     =? 0);
    wp_run; unfold created_once; cbn; destruct pm, inst; cbn; auto 10.
Qed.

Lemma wp_proxy_dialog_cancelled_exact env st :
  wp (proxy_dialog_cancelled env) st
    (fun r st' l =>
       r = Ok (proxy_credentials_needed env
               && negb (proxyAuthenticationDialog env)) /\
       policy st' = policy st /\
       forallb prelude_event l = true /\ created_once st st' l /\
       existsb is_ProxyAuthenticationDialog l = proxy_credentials_needed env).
Proof.
  unfold proxy_dialog_cancelled, proxy_credentials_missing,
    InitializeFramework_once, proxy_credentials_needed.
  wp_run.
  destruct st as [[bq cl ed ei em ip ini inst lg maa pm ptm s] ui lc].
  assert (Hflags : forall u', created_once
            (mkApp (mkImpl bq cl ed ei em ip ini inst lg maa pm ptm s) u' lc)
            (mkApp (mkImpl bq cl ed ei em ip ini inst lg maa pm ptm s) u' lc)
            [Ev_TryGetDefaultPackageRepository]).
  { intros u'. unfold created_once. cbn. auto. }
  destruct (tryGetDefaultPackageRepository env) as [[[] url]|]; wp_run;
    auto 10.
  destruct (tryGetProxy env) as [ps|]; wp_run;
    [|unfold created_once; cbn; auto 10].
  destruct (useProxy ps && authenticationRequired ps
            && bool_decide (user ps = "")); wp_run;
    [|unfold created_once; cbn; auto 10].
  destruct ui; wp_run; unfold created_once; cbn; destruct pm, inst; cbn;
    auto 10.
Qed.

Lemma wp_ensure_installer_exact st :
  wp ensure_installer st
    (fun r st' l =>
       r = Ok tt /\ st' = with_pimpl (set_installer true) st /\
       l = if installer (pimpl st) then [] else [Ev_CreateInstaller]).
Proof.
  unfold ensure_installer. wp_run.
  destruct st as [[bq cl ed ei em ip ini [] lg maa pm ptm s] ui lc];
    wp_run; auto.
Qed.

Lemma wp_install_now_exact env packageId trigger installRoot st :
  wp (install_now env packageId trigger installRoot) st
    (fun r st' l =>
       l = install_now_calls env packageId trigger st /\
       created_once st st' l /\
       r = match installRemove env with
           | None =>
               Ok (true,
                   specialPath (session (pimpl st))
                     (switchToAdminMode st || adminMode (session (pimpl st)))
                     SpecialPath_InstallRoot)
           | Some (Exn_MiKTeX _ _ _ _) => Ok (false, installRoot)
           | Some e => Throw e
           end).
Proof.
  unfold install_now. apply wp_bind.
  eapply wp_mono; [apply wp_ensure_installer_exact|].
  intros r st1 l1 (-> & -> & ->).
  unfold Session_SetAdminMode, Installer_InstallRemove, ignore_package,
    switchToAdminMode, install_now_calls.
  destruct_app st. cbn [pimpl installer mpmAutoAdmin session IsAdminMode
                        adminMode with_pimpl set_installer].
  assert (Hflags : forall (l : list Event) bq' ei' ip' adm',
    count is_UI_InitializeFramework l = 0%nat ->
    count is_PackageManager_Create l = 0%nat ->
    count is_CreateInstaller l = 0%nat ->
    created_once
      (mkApp (mkImpl bq cl ed ei em ip ini inst lg maa pm ptm
                (mkSession adm shared port raa cfgT cfgS sp mdb)) ui lc)
      (mkApp (mkImpl bq' cl ed ei' em ip' ini true lg maa pm ptm
                (mkSession adm' shared port raa cfgT cfgS sp mdb)) ui lc)
      ((if inst then [] else [Ev_CreateInstaller]) ++ l)).
  { intros l bq' ei' ip' adm' Hu Hp Hi.
    unfold created_once, creations, created_flags. rewrite !count_app, Hu, Hp, Hi.
    destruct inst; cbn; auto. }
  destruct maa, adm, (installRemove env) as [[c|m i f n|]|];
    wp_run;
    (split; [reflexivity|]); (split; [|reflexivity]);
    apply Hflags; reflexivity.
Qed.

Lemma install_now_calls_no_dialog env packageId trigger st :
  existsb is_ProxyAuthenticationDialog
    (install_now_calls env packageId trigger st) = false.
Proof.
  unfold install_now_calls.
  destruct (installer (pimpl st)), (switchToAdminMode st),
    (installRemove env) as [[c|m i f n|]|]; reflexivity.
Qed.

Lemma prelude_no_dialog_free l1 l2 :
  forallb prelude_event (l1 ++ l2) = forallb prelude_event l1
                                     && forallb prelude_event l2.
Proof. apply forallb_app. Qed.

Lemma switch_or_admin (a b : bool) : a && negb b || b = a || b.
Proof. destruct a, b; reflexivity. Qed.

Lemma wp_InstallPackage_shape env packageId trigger installRoot st :
  wp (InstallPackage env packageId trigger installRoot) st
    (InstallPackage_shape env packageId trigger installRoot st).
Proof.
  unused_macros.
  assert (Hrej : InstallPackage_shape env packageId trigger installRoot st
                   (Ok (false, installRoot)) st []).
  { split; [apply created_once_refl|]. split; [discriminate|]. left. auto. }
  assert (Hstop : forall st' l,
    created_once st st' l -> forallb prelude_event l = true ->
    (existsb is_ProxyAuthenticationDialog l = true ->
     proxy_credentials_needed env = true) ->
    InstallPackage_shape env packageId trigger installRoot st
      (Ok (false, installRoot)) st' l).
  { intros st' l Hc Hp Hd. split; [exact Hc|]. split; [exact Hd|]. left. auto. }
  unfold InstallPackage. wp_run.
  destruct (bool_decide (packageId ∈ ignoredPackages (pimpl st))).
  { wp_run. exact Hrej. }
  destruct (enableInstaller (pimpl st)) eqn:Hen.
  - wp_run. exact Hrej.
  - wp_run. eapply wp_mono; [apply wp_ensure_packageManager_exact|].
    intros r st1 l1 (-> & Hp1 & Hl1 & Hc1 & Hd1). wp_run.
    destruct (policy_eq _ _ Hp1) as (Hs1 & Ha1 & _ & _).
    eapply wp_mono; [apply wp_proxy_dialog_cancelled_exact|].
    intros r st3 l3 (-> & Hp3 & Hl3 & Hc3 & Hd3).
    destruct (policy_eq _ _ Hp3) as (Hs3 & Ha3 & _ & _).
    destruct (proxy_credentials_needed env
              && negb (proxyAuthenticationDialog env)) eqn:Hcancel; wp_run.
    + apply Hstop.
      * cbn [app]. rewrite app_nil_r.
        exact (created_once_trans _ _ _ _ _ Hc1 Hc3).
      * cbn [app]. rewrite app_nil_r, forallb_app, Hl1, Hl3. reflexivity.
      * intros _. apply andb_true_iff in Hcancel. tauto.
    + eapply wp_mono; [apply wp_install_now_exact|].
      intros r st' l (-> & Hc & ->). split; [|split].
      * cbn [app].
        exact (created_once_trans _ _ _ _ _ Hc1
                 (created_once_trans _ _ _ _ _ Hc3 Hc)).
      * cbn [app]. rewrite !existsb_app, Hd1, Hd3,
          install_now_calls_no_dialog, orb_false_r. cbn [orb]. auto.
      * right. exists (l1 ++ l3), st3. cbn [app].
        split; [rewrite app_assoc; reflexivity|].
        split; [rewrite forallb_app, Hl1, Hl3; reflexivity|].
        split; [congruence|].
        unfold autoAdmin_in_force. rewrite Hen.
        split; [congruence|].
        unfold switchToAdminMode, IsAdminMode.
        rewrite switch_or_admin, Hs3, Hs1, Ha3, Ha1. reflexivity.
  - wp_run. eapply wp_mono; [apply wp_ensure_packageManager_exact|].
    intros r st1 l1 (-> & Hp1 & Hl1 & Hc1 & Hd1). wp_run.
    destruct (policy_eq _ _ Hp1) as (Hs1 & Ha1 & _ & _).
    eapply wp_mono; [apply wp_ask_user_exact|]. cbv zeta.
    intros r st2 l2 (-> & Hs2 & _ & _ & Ha2 & Hl2 & Hc2).
    assert (Hpre2 : forallb prelude_event l2 = true)
      by (rewrite Hl2; destruct (initUiFrameworkDone st1); reflexivity).
    assert (Hd2 : existsb is_ProxyAuthenticationDialog l2 = false)
      by (rewrite Hl2; destruct (initUiFrameworkDone st1); reflexivity).
    destruct (Z.land (installPackageMessageBox env packageId trigger) UI_YES
              =? 0) eqn:Hyes; cbn [negb] in *; wp_run.
    + apply Hstop.
      * cbn [app]. rewrite app_nil_r.
        exact (created_once_trans _ _ _ _ _ Hc1 Hc2).
      * cbn [app]. rewrite app_nil_r, forallb_app, Hl1, Hpre2. reflexivity.
      * cbn [app]. rewrite app_nil_r, existsb_app, Hd1, Hd2. discriminate.
    + eapply wp_mono; [apply wp_proxy_dialog_cancelled_exact|].
      intros r st3 l3 (-> & Hp3 & Hl3 & Hc3 & Hd3).
      destruct (policy_eq _ _ Hp3) as (Hs3 & Ha3 & _ & _).
      destruct (proxy_credentials_needed env
                && negb (proxyAuthenticationDialog env)) eqn:Hcancel; wp_run.
      * apply Hstop.
        -- cbn [app]. rewrite app_nil_r.
           exact (created_once_trans _ _ _ _ _ Hc1
                    (created_once_trans _ _ _ _ _ Hc2 Hc3)).
        -- cbn [app]. rewrite app_nil_r, !forallb_app, Hl1, Hpre2, Hl3.
           reflexivity.
        -- intros _. apply andb_true_iff in Hcancel. tauto.
      * eapply wp_mono; [apply wp_install_now_exact|].
        intros r st' l (-> & Hc & ->). split; [|split].
        -- cbn [app].
           exact (created_once_trans _ _ _ _ _ Hc1
                    (created_once_trans _ _ _ _ _ Hc2
                       (created_once_trans _ _ _ _ _ Hc3 Hc))).
        -- cbn [app]. rewrite !existsb_app, Hd1, Hd2, Hd3,
             install_now_calls_no_dialog, orb_false_r. cbn [orb]. auto.
        -- right. exists (l1 ++ l2 ++ l3), st3. cbn [app].
           split; [rewrite <- !app_assoc; reflexivity|].
           split; [rewrite !forallb_app, Hl1, Hpre2, Hl3; reflexivity|].
           split; [congruence|].
           unfold autoAdmin_in_force. rewrite Hen.
           assert (Hauto : TriState_eqb (mpmAutoAdmin (pimpl st3)) TriState_True
                           = negb (Z.land (installPackageMessageBox env
                                             packageId trigger) UI_ADMIN =? 0)).
           { rewrite Ha3, Ha2.
             destruct (Z.land (installPackageMessageBox env packageId trigger)
                         UI_ADMIN =? 0); reflexivity. }
           split; [exact Hauto|].
           unfold switchToAdminMode, IsAdminMode.
           rewrite switch_or_admin, Hauto, Hs3, Hs2, Hs1. reflexivity.
Qed.

Lemma mode_trace_app l1 l2 : mode_trace (l1 ++ l2) = mode_trace l1 ++ mode_trace l2.
Proof. apply filter_app. Qed.

Lemma mode_trace_prelude l : forallb prelude_event l = true -> mode_trace l = [].
Proof. apply prelude_filter_nil. intros []; cbn; congruence. Qed.

Lemma installer_requests_prelude l :
  forallb prelude_event l = true -> installer_requests l = [].
Proof. apply prelude_filter_nil. intros []; cbn; congruence. Qed.

(** X3: in every run of [InstallPackage] the switches of the session mode
    bracket exactly one installer run. Either nothing of the kind happens
    (the result is then false), or the installer runs once without a switch,
    or the run is: switch to admin mode, one installer run, switch back, and
    the call returns; the switch back is missing only when the installer threw
    something other than a [MiKTeXException], which leaves the call. A switch
    is made only when the auto-admin policy in force is on and the session is
    in user mode. *)
Theorem mode_switch_brackets_one_install
    env packageId trigger installRoot st :
  let r := InstallPackage env packageId trigger installRoot st in
  let switch := autoAdmin_in_force env packageId trigger st
                && negb (IsAdminMode (session (pimpl st))) in
  (mode_trace (calls r) = [] /\ result r = Ok (false, installRoot)) \/
  (mode_trace (calls r) = [Ev_InstallRemove] /\ switch = false) \/
  (mode_trace (calls r)
   = [Ev_SetAdminMode true; Ev_InstallRemove; Ev_SetAdminMode false] /\
   switch = true /\ exists v, result r = Ok v) \/
  (mode_trace (calls r) = [Ev_SetAdminMode true; Ev_InstallRemove] /\
   switch = true /\
   exists e, result r = Throw e /\ is_MiKTeXException (Some e) = false).
Proof.
  unused_macros. intros r switch.
  pose proof (wp_InstallPackage_shape env packageId trigger installRoot st) as H.
  unfold wp, InstallPackage_shape in H. fold r in H.
  destruct H as (_ & _ & [[Hpre Hr] | (l0 & st3 & Hl & Hpre & Hs & Ha & Hr)]).
  { left. split; [apply mode_trace_prelude, Hpre | exact Hr]. }
  right.
  assert (Hsw : switchToAdminMode st3 = switch).
  { unfold switchToAdminMode, switch. rewrite Ha, Hs. reflexivity. }
  rewrite Hl, mode_trace_app, (mode_trace_prelude _ Hpre), Hr.
  unfold install_now_calls. rewrite Hsw. cbn [app].
  destruct (installer (pimpl st3)), switch,
    (installRemove env) as [[c|m i f n|]|]; cbn; eauto 10.
Qed.

(** X4: on success the caller's [installRoot] is the installation root of
    the mode the installer ran in: [GetSpecialPath] is asked before the
    switch back, so with a switch to admin mode it is the admin-mode root. *)
Theorem installRoot_of_install_mode
    env packageId trigger installRoot st root' :
  result (InstallPackage env packageId trigger installRoot st)
    = Ok (true, root') ->
  root' = specialPath (session (pimpl st))
            (autoAdmin_in_force env packageId trigger st
             || adminMode (session (pimpl st)))
            SpecialPath_InstallRoot.
Proof.
  unused_macros. intros Hres.
  pose proof (wp_InstallPackage_shape env packageId trigger installRoot st) as H.
  unfold wp, InstallPackage_shape in H.
  destruct H as (_ & _ & [[_ Hr] | (l0 & st3 & _ & _ & _ & _ & Hr)]);
    rewrite Hr in Hres; [discriminate|].
  destruct (installRemove env) as [[c|m i f n|]|]; congruence.
Qed.

(** X5: a run of [InstallPackage] either makes no request to the installer,
    or exactly two: [SetFileLists] with the requested package alone and
    nothing to remove, then one [InstallRemove]. *)
Theorem installer_asked_for_one_package
    env packageId trigger installRoot st :
  let l := calls (InstallPackage env packageId trigger installRoot st) in
  installer_requests l = [] \/
  installer_requests l = [Ev_SetFileLists [packageId] []; Ev_InstallRemove].
Proof.
  unused_macros. intros l.
  pose proof (wp_InstallPackage_shape env packageId trigger installRoot st) as H.
  unfold wp, InstallPackage_shape in H. fold l in H.
  destruct H as (_ & _ & [[Hpre _] | (l0 & st3 & Hl & Hpre & _)]).
  { left. apply installer_requests_prelude, Hpre. }
  right. rewrite Hl. unfold installer_requests at 1.
  rewrite filter_app. fold (installer_requests l0).
  rewrite (installer_requests_prelude _ Hpre). unfold install_now_calls.
  destruct (installer (pimpl st3)), (switchToAdminMode st3),
    (installRemove env) as [[c|m i f n|]|]; reflexivity.
Qed.

Lemma InstallPackage_all_created_once cs st :
  created_once st (fst (InstallPackage_all cs st))
    (snd (InstallPackage_all cs st)).
Proof.
  revert st. induction cs as [|c cs IH]; intros st; cbn [InstallPackage_all].
  - apply created_once_refl.
  - pose proof (wp_InstallPackage_shape (call_env c) (call_packageId c)
                  (call_trigger c) (call_installRoot c) st) as H.
    unfold wp, InstallPackage_shape in H. destruct H as [H _].
    specialize (IH (final (InstallPackage (call_env c) (call_packageId c)
                             (call_trigger c) (call_installRoot c) st))).
    destruct (InstallPackage_all cs _) as [st' l]. cbn [fst snd] in *.
    exact (created_once_trans _ _ _ _ _ H IH).
Qed.

(** X6: over any sequence of [InstallPackage] calls the UI framework is
    initialised, the package manager created and the installer created at
    most once each, and not at all when it already exists at the start. *)
Theorem collaborators_created_at_most_once cs st :
  let l := snd (InstallPackage_all cs st) in
  (count is_UI_InitializeFramework l <= 1)%nat /\
  (count is_PackageManager_Create l <= 1)%nat /\
  (count is_CreateInstaller l <= 1)%nat /\
  (initUiFrameworkDone st = true -> count is_UI_InitializeFramework l = 0%nat) /\
  (packageManager (pimpl st) = true -> count is_PackageManager_Create l = 0%nat) /\
  (installer (pimpl st) = true -> count is_CreateInstaller l = 0%nat).
Proof.
  unused_macros. intros l.
  pose proof (InstallPackage_all_created_once cs st) as H. fold l in H.
  unfold created_once, creations, created_flags in H.
  destruct H as (Hu & Hp & Hi).
  destruct (initUiFrameworkDone st), (packageManager (pimpl st)),
    (installer (pimpl st)),
    (initUiFrameworkDone (fst (InstallPackage_all cs st))),
    (packageManager (pimpl (fst (InstallPackage_all cs st)))),
    (installer (pimpl (fst (InstallPackage_all cs st))));
    cbn in Hu, Hp, Hi; repeat split; intros; try discriminate; lia.
Qed.

Lemma wp_install_now_policy env packageId trigger installRoot st :
  wp (install_now env packageId trigger installRoot) st
    (fun r st' l =>
       existsb is_MessageBox l = false /\
       ignoredPackages (pimpl st) ⊆ ignoredPackages (pimpl st') /\
       (enableInstaller (pimpl st') = enableInstaller (pimpl st) \/
        enableInstaller (pimpl st') = TriState_False)).
Proof.
  eapply wp_mono; [apply wp_install_now|].
  intros r st' l (_ & _ & Hb & _ & _ & H). split; [exact Hb|].
  destruct (installRemove env) as [[c|m i f n|]|];
    destruct H as (_ & _ & He & Hi); rewrite Hi; split; auto;
    apply union_subseteq_r.
Qed.

Lemma wp_InstallPackage_policy env packageId trigger installRoot st :
  wp (InstallPackage env packageId trigger installRoot) st
    (fun r st' l => InstallPackage_policy env packageId trigger st st' l).
Proof.
  unused_macros.
  unfold InstallPackage. wp_run.
  assert (Hrej : InstallPackage_policy env packageId trigger st st []).
  { split; [reflexivity|]. split; [discriminate|]. auto. }
  destruct (bool_decide (packageId ∈ ignoredPackages (pimpl st))).
  { wp_run. exact Hrej. }
  destruct (enableInstaller (pimpl st)) eqn:Hen.
  - wp_run. exact Hrej.
  - wp_run. eapply wp_mono; [apply wp_ensure_packageManager|].
    intros r st1 l1 (-> & Hp1 & _ & Hl1). wp_run.
    apply no_install_call in Hl1 as (_ & _ & Hm1).
    destruct (policy_eq _ _ Hp1) as (_ & _ & He1 & Hi1).
    eapply wp_mono; [apply wp_proxy_dialog_cancelled|].
    intros r st3 l3 ((b & ->) & Hp3 & Hl3).
    apply no_install_call in Hl3 as (_ & _ & Hm3).
    destruct (policy_eq _ _ Hp3) as (_ & _ & He3 & Hi3).
    destruct b; wp_run.
    + unfold InstallPackage_policy.
      rewrite !existsb_app, Hm1, Hm3, Hi3, Hi1, He3, He1, Hen. cbn.
      split; [reflexivity|]. split; [discriminate|]. auto.
    + eapply wp_mono; [apply wp_install_now_policy|].
      intros r st' l (Hm & Hi & He). unfold InstallPackage_policy.
      rewrite !existsb_app, Hm1, Hm3, Hm. cbn.
      split; [rewrite <- Hi1, <- Hi3; exact Hi|].
      split; [discriminate|]. intros _. split; [|reflexivity].
      destruct He as [He | He]; rewrite He; [|discriminate].
      rewrite He3, He1, Hen. discriminate.
  - wp_run. eapply wp_mono; [apply wp_ensure_packageManager|].
    intros r st1 l1 (-> & Hp1 & _ & Hl1). wp_run.
    destruct (policy_eq _ _ Hp1) as (_ & _ & He1 & Hi1).
    eapply wp_mono; [apply wp_ask_user_exact|]. cbv zeta.
    intros r st2 l2 (-> & _ & He2 & Hi2 & _ & _ & _).
    assert (Hdont : Z.land (installPackageMessageBox env packageId trigger)
                      UI_DONTASKAGAIN <> 0 ->
                    enableInstaller (pimpl st2) <> TriState_Undetermined).
    { intros Hd. apply Z.eqb_neq in Hd. rewrite He2, Hd. cbn [negb].
      intros H.
      destruct (negb (Z.land (installPackageMessageBox env packageId trigger)
                        UI_YES =? 0)); discriminate H. }
    assert (Hsub2 : ignoredPackages (pimpl st) ⊆ ignoredPackages (pimpl st2)).
    { rewrite Hi2, Hi1.
      destruct (negb (Z.land (installPackageMessageBox env packageId trigger)
                        UI_YES =? 0)); [reflexivity|].
      apply union_subseteq_r. }
    destruct (negb (Z.land (installPackageMessageBox env packageId trigger)
                      UI_YES =? 0)) eqn:Hyes; wp_run.
    + eapply wp_mono; [apply wp_proxy_dialog_cancelled|].
      intros r st3 l3 ((b & ->) & Hp3 & Hl3).
      destruct (policy_eq _ _ Hp3) as (_ & _ & He3 & Hi3).
      destruct b; wp_run.
      * unfold InstallPackage_policy. rewrite Hi3, He3.
        split; [exact Hsub2|]. split; [auto|]. intros Hne. destruct (Hne Hen).
      * eapply wp_mono; [apply wp_install_now_policy|].
        intros r st' l (_ & Hi & He). unfold InstallPackage_policy.
        split; [etransitivity; [exact Hsub2|]; rewrite <- Hi3; exact Hi|].
        split; [|intros Hne; destruct (Hne Hen)].
        intros _. split; [exact Hen|]. intros Hd.
        destruct He as [He | He]; rewrite He; [|discriminate].
        rewrite He3. auto.
    + unfold InstallPackage_policy.
      split; [exact Hsub2|]. split; [auto|]. intros Hne. destruct (Hne Hen).
Qed.

Lemma InstallPackage_guarded env packageId trigger installRoot st :
  packageId ∈ ignoredPackages (pimpl st) \/
  enableInstaller (pimpl st) = TriState_False ->
  wp (InstallPackage env packageId trigger installRoot) st
    (fun r st' l => r = Ok (false, installRoot) /\ st' = st /\ l = []).
Proof.
  intros H. unfold InstallPackage. wp_run.
  destruct (bool_decide (packageId ∈ ignoredPackages (pimpl st))) eqn:Hdec.
  - wp_run. auto.
  - destruct H as [H|H].
    + apply bool_decide_eq_false in Hdec. contradiction.
    + rewrite H. wp_run. auto.
Qed.

Lemma InstallPackage_all_policy_evolution cs st :
  ignoredPackages (pimpl st)
    ⊆ ignoredPackages (pimpl (fst (InstallPackage_all cs st))) /\
  (enableInstaller (pimpl st) <> TriState_Undetermined ->
   enableInstaller (pimpl (fst (InstallPackage_all cs st)))
     <> TriState_Undetermined /\
   existsb is_MessageBox (snd (InstallPackage_all cs st)) = false).
Proof.
  revert st. induction cs as [|c cs IH]; intros st; cbn [InstallPackage_all].
  - cbn. split; [reflexivity|]. auto.
  - pose proof (wp_InstallPackage_policy (call_env c) (call_packageId c)
                  (call_trigger c) (call_installRoot c) st) as H.
    unfold wp, InstallPackage_policy in H. destruct H as (Hsub & _ & Hdet).
    specialize (IH (final (InstallPackage (call_env c) (call_packageId c)
                             (call_trigger c) (call_installRoot c) st))).
    destruct (InstallPackage_all cs _) as [st' l]. cbn [fst snd] in *.
    destruct IH as [IHsub IHdet].
    split; [etransitivity; eassumption|].
    intros Hne. destruct (Hdet Hne) as [Hne1 Hm1].
    destruct (IHdet Hne1) as [Hne2 Hm2].
    split; [exact Hne2|]. rewrite existsb_app, Hm1, Hm2. reflexivity.
Qed.

(** X7: a package in [ignoredPackages] (declined at the prompt, or failed
    to install) stays there through any later [InstallPackage] calls, and
    [EnableInstaller] does not remove it: a later request for it returns
    false without any collaborator call, whatever the installer setting. *)
Theorem declined_package_stays_rejected
    st packageId cs tri env trigger installRoot :
  packageId ∈ ignoredPackages (pimpl st) ->
  let st1 := fst (InstallPackage_all cs st) in
  let st2 := final (EnableInstaller tri st1) in
  let r := InstallPackage env packageId trigger installRoot st2 in
  result r = Ok (false, installRoot) /\ calls r = [] /\ final r = st2.
Proof.
  unused_macros. intros Hin st1 st2 r.
  destruct (InstallPackage_all_policy_evolution cs st) as [Hsub _].
  fold st1 in Hsub.
  assert (Hin2 : packageId ∈ ignoredPackages (pimpl st2))
    by (apply Hsub, Hin).
  pose proof (InstallPackage_guarded env packageId trigger installRoot st2
                (or_introl Hin2)) as H.
  unfold wp in H. fold r in H. tauto.
Qed.

(** X8: once [enableInstaller] is [True] or [False], no later call of
    [InstallPackage] shows the consent prompt; and a prompt answered with
    the "don't ask again" bit leaves [enableInstaller] determined, so the
    user is not asked again. *)
Theorem no_prompt_once_decided env packageId trigger installRoot st cs :
  let r := InstallPackage env packageId trigger installRoot st in
  (enableInstaller (pimpl st) <> TriState_Undetermined ->
   existsb is_MessageBox (snd (InstallPackage_all cs st)) = false) /\
  (existsb is_MessageBox (calls r) = true ->
   Z.land (installPackageMessageBox env packageId trigger) UI_DONTASKAGAIN
   <> 0 ->
   existsb is_MessageBox (snd (InstallPackage_all cs (final r))) = false).
Proof.
  unused_macros. intros r. split.
  - intros Hne. apply InstallPackage_all_policy_evolution, Hne.
  - intros Hbox Hdont.
    pose proof (wp_InstallPackage_policy env packageId trigger installRoot st)
      as H.
    unfold wp, InstallPackage_policy in H. fold r in H.
    destruct H as (_ & Hp & _). destruct (Hp Hbox) as [_ Hne].
    apply InstallPackage_all_policy_evolution, Hne, Hdont.
Qed.

(** X9: a consent prompt answered without the YES bit makes the call return
    false with [installRoot] untouched and puts the package into
    [ignoredPackages]; the auto-admin policy and the session are left alone,
    [enableInstaller] becomes [False] exactly when the DONTASKAGAIN bit is
    set, and the only calls are the lazy creations and the prompt. *)
Theorem declined_prompt_ignores_package
    env packageId trigger installRoot st :
  packageId ∉ ignoredPackages (pimpl st) ->
  enableInstaller (pimpl st) = TriState_Undetermined ->
  Z.land (installPackageMessageBox env packageId trigger) UI_YES = 0 ->
  let r := InstallPackage env packageId trigger installRoot st in
  result r = Ok (false, installRoot) /\
  ignoredPackages (pimpl (final r))
    = {[packageId]} ∪ ignoredPackages (pimpl st) /\
  mpmAutoAdmin (pimpl (final r)) = mpmAutoAdmin (pimpl st) /\
  session (pimpl (final r)) = session (pimpl st) /\
  enableInstaller (pimpl (final r))
    = (if Z.land (installPackageMessageBox env packageId trigger)
             UI_DONTASKAGAIN =? 0
       then TriState_Undetermined else TriState_False) /\
  calls r
    = (if packageManager (pimpl st) then [] else [Ev_PackageManager_Create])
      ++ (if initUiFrameworkDone st then [] else [Ev_UI_InitializeFramework])
      ++ [Ev_InstallPackageMessageBox packageId trigger].
Proof.
  intros Hin Hen Hyes r. subst r.
  change (wp (InstallPackage env packageId trigger installRoot) st
            (fun r st' l =>
               r = Ok (false, installRoot) /\
               ignoredPackages (pimpl st')
                 = {[packageId]} ∪ ignoredPackages (pimpl st) /\
               mpmAutoAdmin (pimpl st') = mpmAutoAdmin (pimpl st) /\
               session (pimpl st') = session (pimpl st) /\
               enableInstaller (pimpl st')
                 = (if Z.land (installPackageMessageBox env packageId trigger)
                          UI_DONTASKAGAIN =? 0
                    then TriState_Undetermined else TriState_False) /\
               l = (if packageManager (pimpl st) then []
                    else [Ev_PackageManager_Create])
                   ++ (if initUiFrameworkDone st then []
                       else [Ev_UI_InitializeFramework])
                   ++ [Ev_InstallPackageMessageBox packageId trigger])).
  apply (bool_decide_eq_false_2 _) in Hin.
  unfold InstallPackage. wp_run. rewrite Hin, Hen. cbn [TriState_eqb].
  unfold ensure_packageManager, ask_user, InitializeFramework_once,
    ignore_package.
  destruct_app st. cbn in Hen. subst ei.
  rewrite Hyes. change (0 =? 0) with true. cbn [negb].
  destruct pm, ui; wp_run;
    destruct (Z.land (installPackageMessageBox env packageId trigger)
                UI_DONTASKAGAIN =? 0); wp_run; cbn; auto 10.
Qed.

Lemma wp_InstallPackage_proxy env packageId trigger installRoot st :
  wp (InstallPackage env packageId trigger installRoot) st
    (fun r st' l =>
       existsb is_ProxyAuthenticationDialog l = true ->
       proxy_credentials_needed env = true /\
       (proxyAuthenticationDialog env = false ->
        r = Ok (false, installRoot) /\
        ignoredPackages (pimpl st') = ignoredPackages (pimpl st) /\
        session (pimpl st') = session (pimpl st) /\
        forallb prelude_event l = true)).
Proof.
  unused_macros.
  unfold InstallPackage. wp_run.
  destruct (bool_decide (packageId ∈ ignoredPackages (pimpl st))).
  { wp_run. discriminate. }
  pose (Q := fun (r : Res (bool * PathName)) (st' : App) (l : list Event) =>
    existsb is_ProxyAuthenticationDialog l = true ->
    proxy_credentials_needed env = true /\
    (proxyAuthenticationDialog env = false ->
     r = Ok (false, installRoot) /\
     ignoredPackages (pimpl st') = ignoredPackages (pimpl st) /\
     session (pimpl st') = session (pimpl st) /\
     forallb prelude_event l = true)).
  assert (Hproxy : forall st1 (pre : list Event -> list Event),
    ignoredPackages (pimpl st1) = ignoredPackages (pimpl st) ->
    session (pimpl st1) = session (pimpl st) ->
    (forall l, forallb prelude_event (pre l) = forallb prelude_event l) ->
    (forall l, existsb is_ProxyAuthenticationDialog (pre l)
               = existsb is_ProxyAuthenticationDialog l) ->
    wp (proxy_dialog_cancelled env) st1
      (fun r st3 l3 =>
         match r with
         | Ok cancelled =>
             wp (if cancelled then ret (false, installRoot)
                 else install_now env packageId trigger installRoot) st3
               (fun r' st' l' => Q r' st' (pre (l3 ++ l')))
         | Throw e => Q (Throw e) st3 (pre l3)
         end)).
  { intros st1 pre Hi1 Hs1 Hl1 Hd1.
    eapply wp_mono; [apply wp_proxy_dialog_cancelled_exact|].
    intros r st3 l3 (-> & Hp3 & Hl3 & _ & Hd3).
    destruct (policy_eq _ _ Hp3) as (Hs3 & _ & _ & Hi3).
    unfold Q.
    destruct (proxy_credentials_needed env) eqn:Hneed;
      destruct (proxyAuthenticationDialog env) eqn:Hdlg; cbn [andb negb].
    - eapply wp_mono; [apply wp_install_now_exact|].
      intros r st' l (-> & _ & _) _. split; [reflexivity|discriminate].
    - wp_run. intros _. split; [reflexivity|]. intros _.
      rewrite Hi3, Hs3, Hi1, Hs1, app_nil_r, Hl1, Hl3. auto.
    - eapply wp_mono; [apply wp_install_now_exact|].
      intros r st' l (-> & _ & _).
      rewrite Hd1, existsb_app, Hd3, install_now_calls_no_dialog.
      discriminate.
    - eapply wp_mono; [apply wp_install_now_exact|].
      intros r st' l (-> & _ & _).
      rewrite Hd1, existsb_app, Hd3, install_now_calls_no_dialog.
      discriminate. }
  destruct (enableInstaller (pimpl st)) eqn:Hen.
  - wp_run. discriminate.
  - wp_run. eapply wp_mono; [apply wp_ensure_packageManager_exact|].
    intros r st1 l1 (-> & Hp1 & Hl1 & _ & Hd1). wp_run.
    destruct (policy_eq _ _ Hp1) as (Hs1 & _ & _ & Hi1).
    refine (Hproxy st1 (fun l => l1 ++ l) Hi1 Hs1 _ _); intros l.
    + rewrite forallb_app, Hl1. reflexivity.
    + rewrite existsb_app, Hd1. reflexivity.
  - wp_run. eapply wp_mono; [apply wp_ensure_packageManager_exact|].
    intros r st1 l1 (-> & Hp1 & Hl1 & _ & Hd1). wp_run.
    destruct (policy_eq _ _ Hp1) as (Hs1 & _ & _ & Hi1).
    eapply wp_mono; [apply wp_ask_user_exact|]. cbv zeta.
    intros r st2 l2 (-> & Hs2 & _ & Hi2 & _ & Hl2 & _).
    assert (Hl2' : forallb prelude_event l2 = true /\
                   existsb is_ProxyAuthenticationDialog l2 = false).
    { rewrite Hl2. destruct (initUiFrameworkDone st1); auto. }
    destruct Hl2' as [Hp2 Hd2].
    destruct (negb (Z.land (installPackageMessageBox env packageId trigger)
                      UI_YES =? 0)) eqn:Hyes; wp_run.
    + refine (Hproxy st2 (fun l => l1 ++ l2 ++ l) _ _ _ _).
      * rewrite Hi2, Hi1. reflexivity.
      * rewrite Hs2, Hs1. reflexivity.
      * intros l. rewrite !forallb_app, Hl1, Hp2. reflexivity.
      * intros l. rewrite !existsb_app, Hd1, Hd2. reflexivity.
    + cbn [app]. rewrite existsb_app, Hd1, app_nil_r, Hd2. discriminate.
Qed.

(** X10: the proxy credentials dialog is shown only when the default
    repository is remote and its proxy needs authentication with no user
    name stored; when the user cancels it the call returns false with
    [installRoot] untouched, the installer is not reached, and -- unlike a
    declined prompt -- the package is not added to [ignoredPackages]. *)
Theorem cancelled_proxy_dialog_keeps_package
    env packageId trigger installRoot st :
  let r := InstallPackage env packageId trigger installRoot st in
  existsb is_ProxyAuthenticationDialog (calls r) = true ->
  proxy_credentials_needed env = true /\
  (proxyAuthenticationDialog env = false ->
   result r = Ok (false, installRoot) /\
   ignoredPackages (pimpl (final r)) = ignoredPackages (pimpl st) /\
   session (pimpl (final r)) = session (pimpl st) /\
   installer_requests (calls r) = [] /\ mode_trace (calls r) = []).
Proof.
  unused_macros. intros r Hshown.
  destruct (wp_InstallPackage_proxy env packageId trigger installRoot st
              Hshown) as [Hneed Hcancel].
  split; [exact Hneed|]. intros Hdlg.
  destruct (Hcancel Hdlg) as (Hr & Hi & Hs & Hl).
  split; [exact Hr|]. split; [exact Hi|]. split; [exact Hs|].
  split; [apply installer_requests_prelude, Hl|apply mode_trace_prelude, Hl].
Qed.

(** ** More about runs of [AutoMaintenance] *)

Lemma wp_run_helper_calls env exe args who st (P : Event -> Prop) :
  P (Ev_Process_Run exe args) -> (forall lv m, P (Ev_Log lv m)) ->
  wp (run_helper env exe args who) st
    (fun r st' l => r = Ok tt /\ st' = st /\ Forall P l).
Proof.
  intros Hrun Hlog. unfold wp.
  destruct (run_helper_run env exe args who st) as (-> & -> & ->).
  split; [reflexivity|]. split; [reflexivity|].
  constructor; [exact Hrun|].
  destruct (fst (processRun env exe args)); repeat constructor. apply Hlog.
Qed.

Lemma commonArgs_created exe st :
  commonArgs exe (with_installer_created st) = commonArgs exe st.
Proof. destruct st as [[] ? ?]. reflexivity. Qed.

Lemma wp_helper_runs_calls env exe fndb languageDat st :
  wp (helper_runs env exe fndb languageDat) st
    (fun r st' l =>
       r = Ok tt /\ st' = st /\
       Forall (fun e => helper_call exe st e /\ is_UpdateDb e = false) l).
Proof.
  assert (Hcmd : forall sub cmd, In (sub, cmd) helper_commands ->
            helper_call exe st
              (Ev_Process_Run exe (commonArgs exe st ++ [sub; cmd]))
            /\ is_UpdateDb
                 (Ev_Process_Run exe (commonArgs exe st ++ [sub; cmd]))
               = false).
  { intros sub cmd Hin. split; [|reflexivity]. split; [reflexivity|].
    exists sub, cmd. auto. }
  assert (Hlog : forall lv m,
            helper_call exe st (Ev_Log lv m)
            /\ is_UpdateDb (Ev_Log lv m) = false)
    by (intros; split; [exact I|reflexivity]).
  unfold helper_runs. wp_run.
  destruct fndb, languageDat; wp_run;
    repeat (eapply wp_mono;
            [apply (wp_run_helper_calls _ _ _ _ _
                      (fun e => helper_call exe st e
                                /\ is_UpdateDb e = false));
             [apply Hcmd; cbn; auto|exact Hlog]|];
            intros ? ? ? (-> & -> & ?); wp_run);
    (split; [reflexivity|]); (split; [reflexivity|]);
    rewrite ?app_nil_r;
    repeat first [ assumption | apply Forall_nil_2
                 | apply Forall_app_2 | apply Forall_cons_2
                 | apply Hlog | split; [exact I|reflexivity] ].
Qed.

Lemma wp_update_db_exact env st :
  wp (update_db_from_cache env) st
    (fun r st' l =>
       r = match updateDb env with
           | None => Ok tt
           | Some e => Throw e
           end /\
       st' = with_installer_created st /\
       Forall (fun e => is_Process_Run e = false) l /\
       existsb is_UpdateDb l = true).
Proof.
  unfold update_db_from_cache, ensure_packageManager, ensure_installer,
    with_installer_created.
  destruct st as [[bq cl ed ei em ip ini inst lg maa pm ptm s] ui lc].
  wp_run.
  destruct pm, inst; wp_run; destruct (updateDb env) as [e|]; wp_run;
    cbn; repeat split; repeat constructor.
Qed.

Lemma wp_maintenance_steps_exact env exe fndb languageDat db st :
  wp (maintenance_steps env exe fndb languageDat db) st
    (fun r st' l =>
       st' = (if db then with_installer_created st else st) /\
       Forall (helper_call exe st) l /\
       existsb is_UpdateDb l = db).
Proof.
  assert (Hhelp : forall st0 l,
    commonArgs exe st0 = commonArgs exe st ->
    Forall (fun e => helper_call exe st0 e /\ is_UpdateDb e = false) l ->
    Forall (helper_call exe st) l /\ existsb is_UpdateDb l = false).
  { intros st0 l Hc Hl. induction Hl as [|e l [He Hu] _ [IH1 IH2]].
    - split; [constructor|reflexivity].
    - split.
      + constructor; [|exact IH1].
        destruct e; try exact I. unfold helper_call in He |- *.
        rewrite <- Hc. exact He.
      + cbn [existsb]. rewrite Hu, IH2. reflexivity. }
  assert (Hnorun : forall l,
    Forall (fun e => is_Process_Run e = false) l ->
    Forall (helper_call exe st) l).
  { intros l Hl. eapply Forall_impl; [exact Hl|].
    intros e He. destruct e; try exact I. discriminate He. }
  unfold maintenance_steps. wp_run.
  destruct db; wp_run.
  - eapply wp_mono; [apply wp_update_db_exact|].
    intros r st1 l1 (-> & -> & Hl1 & Hu1).
    destruct (updateDb env) as [e|].
    + split; [reflexivity|]. cbn [app].
      split; [apply Forall_cons_2; [exact I|apply Hnorun, Hl1]|].
      cbn [existsb is_UpdateDb orb]. exact Hu1.
    + eapply wp_mono; [apply wp_helper_runs_calls|].
      intros r st2 l2 (-> & -> & Hl2).
      destruct (Hhelp _ l2 (commonArgs_created exe st) Hl2) as [H2 Hu2].
      split; [reflexivity|]. cbn [app].
      split.
      * apply Forall_cons_2; [exact I|].
        apply Forall_app_2; [apply Hnorun, Hl1|exact H2].
      * cbn [existsb is_UpdateDb orb]. rewrite existsb_app, Hu1. reflexivity.
  - eapply wp_mono; [apply wp_helper_runs_calls|].
    intros r st2 l2 (-> & -> & Hl2).
    destruct (Hhelp _ l2 eq_refl Hl2) as [H2 Hu2].
    split; [reflexivity|]. cbn [app].
    split; [apply Forall_cons_2; [exact I|exact H2]|].
    cbn [existsb is_UpdateDb orb]. exact Hu2.
Qed.

Lemma wp_AutoMaintenance_exact env st :
  wp (AutoMaintenance env) st
    (fun r st' l =>
       st' = (if existsb is_UpdateDb l then with_installer_created st else st)
       /\
       match findFile env MIKTEX_MIKTEX_EXE with
       | Some exe => Forall (helper_call exe st) l
       | None => Forall (fun e => is_Process_Run e = false) l
       end).
Proof.
  unfold AutoMaintenance. wp_run. cbv zeta.
  assert (Hquiet : forall l : list Event,
    Forall (fun e => is_Process_Run e = false) l ->
    match findFile env MIKTEX_MIKTEX_EXE with
    | Some exe => Forall (helper_call exe st) l
    | None => Forall (fun e => is_Process_Run e = false) l
    end).
  { intros l Hl. destruct (findFile env MIKTEX_MIKTEX_EXE); [|exact Hl].
    eapply Forall_impl; [exact Hl|].
    intros e He. destruct e; try exact I. discriminate He. }
  destruct (isSetupMode (session (pimpl st))).
  { wp_run. split; [reflexivity|]. apply Hquiet. repeat constructor. }
  pose proof (mustRefreshFndb_value (session (pimpl st)) (files env)) as Hf.
  pose proof (mustRefreshUserLanguageDat_value (session (pimpl st)) (files env))
    as Hl.
  pose proof (mustUpdateDb_value (session (pimpl st)) (files env)) as Hd.
  destruct (mustRefreshFndb _ _) as [fndb|]; [clear Hf|discriminate].
  destruct (mustRefreshUserLanguageDat _ _) as [languageDat|];
    [clear Hl|discriminate].
  destruct (mustUpdateDb _ _) as [db|]; [clear Hd|discriminate].
  wp_run.
  destruct (fndb || languageDat || db);
    [|wp_run; split; [reflexivity|]; apply Hquiet; constructor].
  wp_run. destruct (findFile env MIKTEX_MIKTEX_EXE) as [exe|];
    [|wp_run; split; [reflexivity|]; repeat constructor].
  wp_run. cbv zeta. destruct (tryLock env _); cbn [negb];
    [|wp_run; split; [reflexivity|]; repeat constructor].
  eapply wp_mono; [apply wp_maintenance_steps_exact|].
  intros r st' l' (-> & Hl & Hu). cbn [app existsb is_UpdateDb orb].
  rewrite Hu. split; [reflexivity|]. repeat (constructor; [exact I|]).
  exact Hl.
Qed.

(** X11: every process that [AutoMaintenance] starts is the utility that
    [FindFile] returned, run with the common arguments computed from the
    application object at entry (program stem, the installer switch that
    mirrors [enableInstaller], [--admin] exactly in admin mode, [--quiet])
    followed by one of the three helper commands; without the utility no
    process is started. *)
Theorem helpers_run_with_common_arguments env st exe args :
  In (Ev_Process_Run exe args) (calls (AutoMaintenance env st)) ->
  findFile env MIKTEX_MIKTEX_EXE = Some exe /\
  exists sub cmd,
    In (sub, cmd) helper_commands /\ args = commonArgs exe st ++ [sub; cmd].
Proof.
  intros Hin.
  destruct (wp_AutoMaintenance_exact env st) as [_ H].
  destruct (findFile env MIKTEX_MIKTEX_EXE) as [exe0|].
  - rewrite Forall_forall in H. apply list_elem_of_In in Hin.
    destruct (H _ Hin) as [-> Hargs]. split; [reflexivity|exact Hargs].
  - rewrite Forall_forall in H. apply list_elem_of_In in Hin.
    specialize (H _ Hin). discriminate H.
Qed.

(** X12: [AutoMaintenance] leaves the application object as it found it,
    except that the package manager and the installer exist afterwards when
    the package database update was started; in particular the quiet flag
    that is set for the update is restored, also when the update throws. *)
Theorem AutoMaintenance_restores_application env st :
  let r := AutoMaintenance env st in
  final r = (if existsb is_UpdateDb (calls r)
             then with_installer_created st else st) /\
  beQuiet (pimpl (final r)) = beQuiet (pimpl st).
Proof.
  intros r. destruct (wp_AutoMaintenance_exact env st) as [H _].
  fold r in H. split; [exact H|]. rewrite H.
  destruct (existsb is_UpdateDb (calls r)); [|reflexivity].
  destruct st as [[] ? ?]. reflexivity.
Qed.


(** ** More about runs of [Init] *)

Lemma wp_self {A} (m : Prog A) (st : App) :
  wp m st (fun r st' l =>
             r = result (m st) /\ st' = final (m st) /\ l = calls (m st)).
Proof. unfold wp. auto. Qed.

Lemma wp_Init_session_exact created bq cl ed ei em ip ini inst lg maa pm ptm
    s ui lc :
  wp (Init_session created)
    (mkApp (mkImpl bq cl ed ei em ip ini inst lg maa pm ptm s) ui lc)
    (fun r st' l =>
       r = Ok tt /\
       st' = mkApp (mkImpl false cl ed ei em ip true inst true maa pm ptm
                      created) ui true /\
       l = [Ev_ConfigureLogging]
           ++ (if bool_decide (cl = "") then []
               else Ev_Log LOG_INFO (started_message cl)
                    :: (if is_Windows platform
                        then [Ev_Log LOG_INFO running_on_Windows] else []))).
Proof.
  unfold Init_session, ConfigureLogging. wp_run.
  cbn [pimpl with_pimpl commandLine set_logger set_session set_initialized
       set_isLog4cxxConfigured].
  destruct (bool_decide (cl = "")); wp_run; auto.
  destruct (is_Windows platform); wp_run; auto.
Qed.

Lemma wp_Init_installer_policy_exact bq cl ed ei em ip ini inst maa pm ptm
    s ui lc :
  wp Init_installer_policy
    (mkApp (mkImpl bq cl ed ei em ip ini inst true maa pm ptm s) ui lc)
    (fun r st' l =>
       r = Ok tt /\
       st' = mkApp (mkImpl bq cl ed
                      (TriState_default ei
                         (GetConfigValue_TriState s MPM_AUTOINSTALL))
                      em ip ini inst true
                      (if autoAdmin_dropped s then TriState_False
                       else GetConfigValue_TriState s MPM_AUTOADMIN)
                      pm ptm s) ui lc /\
       l = if autoAdmin_dropped s
           then [Ev_Log LOG_WARN AutoAdmin_ignored] else []).
Proof.
  unfold Init_installer_policy, LogWarn, autoAdmin_dropped. wp_run.
  destruct ei; wp_run;
    cbn [pimpl with_pimpl session mpmAutoAdmin set_mpmAutoAdmin
         set_enableInstaller];
    destruct (TriState_eqb (GetConfigValue_TriState s MPM_AUTOADMIN)
                TriState_True && negb (IsSharedSetup s)); wp_run; auto.
Qed.

Lemma wp_SecurityRisk_exact msg st :
  wp (SecurityRisk msg) st
    (fun r st' l =>
       r = Ok tt /\ st' = st /\
       l = (if logger (pimpl st)
            then [Ev_Log LOG_WARN ("security risk: " +:+ msg)] else [])
           ++ (if beQuiet (pimpl st) then []
               else [Ev_Cerr (GetExeName +:+ ": security risk: " +:+ msg
                              +:+ endl)])).
Proof.
  unfold SecurityRisk, LogWarn. wp_run.
  destruct (logger (pimpl st)); wp_run;
    destruct (beQuiet (pimpl st)); wp_run; auto.
Qed.

Lemma wp_Init_maintenance_exact env cl ed ei em ip ini inst maa pm ptm s ui lc :
  let st5 := mkApp (mkImpl false cl (TriState_default ed TriState_True) ei
                      (TriState_default em TriState_True) ip ini inst true
                      maa pm ptm s) ui lc in
  let on := negb (TriState_eqb em TriState_False) in
  wp (Init_maintenance env)
    (mkApp (mkImpl false cl ed ei em ip ini inst true maa pm ptm s) ui lc)
    (fun r st' l =>
       r = (if on then result (AutoMaintenance env st5) else Ok tt) /\
       st' = (if on then final (AutoMaintenance env st5) else st5) /\
       l = [Ev_InstallSignalHandler; Ev_InstallSignalHandler]
           ++ (if elevated_user_mode s
               then [Ev_Log LOG_WARN security_risk_notice;
                     Ev_Cerr security_risk_line]
               else [])
           ++ (if on then calls (AutoMaintenance env st5) else [])).
Proof.
  intros st5 on. subst st5 on.
  unfold Init_maintenance, elevated_user_mode. wp_run.
  destruct em, ed; wp_run;
    cbn [pimpl with_pimpl session set_enableMaintenance set_enableDiagnose];
    destruct (RunningAsAdministrator s && negb (IsAdminMode s)); wp_run;
    try (eapply wp_mono; [apply wp_SecurityRisk_exact|];
         intros ? ? ? (-> & -> & ->); wp_run);
    try (eapply wp_mono; [apply wp_self|]; intros ? ? ? (-> & -> & ->));
    cbn [TriState_eqb negb TriState_default app pimpl logger beQuiet];
    rewrite ?app_nil_r; auto.
Qed.

(** [Init] is its preparations followed by the maintenance run, unless
    maintenance was switched off. *)
Lemma Init_run created env st :
  let st5 := Init_configured created st in
  let on := negb (TriState_eqb (enableMaintenance (pimpl st)) TriState_False) in
  result (Init created env st)
    = (if on then result (AutoMaintenance env st5) else Ok tt) /\
  final (Init created env st)
    = (if on then final (AutoMaintenance env st5) else st5) /\
  calls (Init created env st)
    = Init_prelude created st
      ++ (if on then calls (AutoMaintenance env st5) else []).
Proof.
  destruct st as [[bq cl ed ei em ip ini inst lg maa pm ptm s] ui lc].
  intros st5 on.
  change (wp (Init created env)
            (mkApp (mkImpl bq cl ed ei em ip ini inst lg maa pm ptm s) ui lc)
            (fun r st' l =>
               r = (if on then result (AutoMaintenance env st5) else Ok tt) /\
               st' = (if on then final (AutoMaintenance env st5) else st5) /\
               l = Init_prelude created
                     (mkApp (mkImpl bq cl ed ei em ip ini inst lg maa pm ptm s)
                        ui lc)
                   ++ (if on then calls (AutoMaintenance env st5) else []))).
  unfold Init. wp_run.
  eapply wp_mono; [apply wp_Init_session_exact|].
  intros r st1 l1 (-> & -> & ->). wp_run.
  eapply wp_mono; [apply wp_Init_installer_policy_exact|].
  intros r st2 l2 (-> & -> & ->). wp_run.
  eapply wp_mono; [apply wp_Init_maintenance_exact|].
  intros r st3 l3 (-> & -> & ->).
  subst st5 on. unfold Init_configured, Init_prelude.
  cbn [pimpl commandLine enableDiagnose enableInstaller enableMaintenance
       ignoredPackages installer packageManager pendingTraceMessages
       initUiFrameworkDone].
  split; [reflexivity|]. split; [reflexivity|].
  rewrite <- !app_assoc. reflexivity.
Qed.

Lemma Init_final created env st :
  final (Init created env st) = Init_configured created st \/
  final (Init created env st)
    = with_installer_created (Init_configured created st).
Proof.
  destruct (Init_run created env st) as (_ & Hf & _). rewrite Hf.
  destruct (negb (TriState_eqb (enableMaintenance (pimpl st)) TriState_False));
    [|auto].
  destruct (wp_AutoMaintenance_exact env (Init_configured created st))
    as [-> _].
  destruct (existsb is_UpdateDb _); auto.
Qed.

Lemma Init_prelude_no_maintenance created st :
  existsb is_maintenance_call (Init_prelude created st) = false.
Proof.
  unfold Init_prelude.
  destruct (bool_decide (commandLine (pimpl st) = "")),
    (is_Windows platform), (autoAdmin_dropped created),
    (elevated_user_mode created); reflexivity.
Qed.

(** X13: after [Init] -- whether it returns or the maintenance run throws --
    the application object is initialised on the created session with logging
    configured and the quiet flag off, and every switch that was set before
    the call (by the command line) has kept its value: only an undetermined
    [enableInstaller] is read from the configuration, and undetermined
    [enableMaintenance] and [enableDiagnose] become [True]. The command line
    and the declined packages are untouched. *)
Theorem Init_keeps_command_line_switches created env st :
  let st' := final (Init created env st) in
  session (pimpl st') = created /\
  initialized (pimpl st') = true /\
  logger (pimpl st') = true /\
  isLog4cxxConfigured st' = true /\
  beQuiet (pimpl st') = false /\
  enableInstaller (pimpl st')
    = TriState_default (enableInstaller (pimpl st))
        (GetConfigValue_TriState created MPM_AUTOINSTALL) /\
  enableMaintenance (pimpl st')
    = TriState_default (enableMaintenance (pimpl st)) TriState_True /\
  enableDiagnose (pimpl st')
    = TriState_default (enableDiagnose (pimpl st)) TriState_True /\
  commandLine (pimpl st') = commandLine (pimpl st) /\
  ignoredPackages (pimpl st') = ignoredPackages (pimpl st).
Proof.
  intros st'. subst st'.
  destruct (Init_final created env st) as [-> | ->]; cbn; auto 12.
Qed.

(** X14: [Init] prints the security-risk warning on [cerr] -- the program
    name, [security risk], the reason and a line end -- and logs it, exactly
    when the process runs as administrator while the session is in user mode;
    the quiet flag at entry does not suppress it, because [Init] clears the
    flag first. The preparations make no other [cerr] output. *)
Theorem Init_reports_elevated_user_mode created env st :
  exists pre rest,
    calls (Init created env st) = pre ++ rest /\
    rest = (if TriState_eqb (enableMaintenance (pimpl st)) TriState_False
            then []
            else calls (AutoMaintenance env (Init_configured created st))) /\
    filter is_Cerr pre
      = (if elevated_user_mode created
         then [Ev_Cerr (GetExeName
                        +:+ ": security risk: running with elevated privileges"
                        +:+ endl)]
         else []) /\
    (In (Ev_Log LOG_WARN "security risk: running with elevated privileges") pre
     <-> elevated_user_mode created = true).
Proof.
  destruct (Init_run created env st) as (_ & _ & Hc).
  exists (Init_prelude created st).
  eexists. split; [exact Hc|].
  split; [destruct (enableMaintenance (pimpl st)); reflexivity|].
  unfold Init_prelude.
  destruct (bool_decide (commandLine (pimpl st) = "")),
    (is_Windows platform), (autoAdmin_dropped created),
    (elevated_user_mode created);
    (split; [reflexivity|]); cbn; split; intros H;
    try discriminate; try reflexivity; auto 10;
    repeat (destruct H as [H|H]; try discriminate H);
    try contradiction.
Qed.

(** X15: with maintenance switched off [Init] returns normally without a
    lock attempt, a helper process or any other refresh action; otherwise it
    ends as the maintenance run ends, so in a fresh installation (no
    maintenance ever recorded, not portable) it throws 1 after the notice on
    [cerr], with the application object initialised on the created session
    and no lock attempt or refresh action made. *)
Theorem Init_maintenance_switch created env st :
  let r := Init created env st in
  (enableMaintenance (pimpl st) = TriState_False ->
   result r = Ok tt /\
   existsb is_TryLock (calls r) = false /\
   existsb is_refresh_action (calls r) = false) /\
  (enableMaintenance (pimpl st) <> TriState_False ->
   result r = result (AutoMaintenance env (Init_configured created st)) /\
   (isSetupMode created = true ->
    result r = Throw (Exn_int 1) /\
    last (calls r) = Some (Ev_Cerr fresh_installation_notice) /\
    count is_Cerr (calls r)
      = (if elevated_user_mode created then 2%nat else 1%nat) /\
    existsb is_TryLock (calls r) = false /\
    existsb is_refresh_action (calls r) = false /\
    initialized (pimpl (final r)) = true /\
    session (pimpl (final r)) = created /\
    enableMaintenance (pimpl (final r))
      = TriState_default (enableMaintenance (pimpl st)) TriState_True)).
Proof.
  intros r. destruct (Init_run created env st) as (Hr & Hf & Hc).
  fold r in Hr, Hf, Hc.
  assert (Hpre : existsb is_TryLock (Init_prelude created st) = false /\
                 existsb is_refresh_action (Init_prelude created st) = false /\
                 count is_Cerr (Init_prelude created st)
                 = (if elevated_user_mode created then 1%nat else 0%nat)).
  { unfold Init_prelude.
    destruct (bool_decide (commandLine (pimpl st) = "")),
      (is_Windows platform), (autoAdmin_dropped created),
      (elevated_user_mode created); repeat split. }
  destruct Hpre as (Hlock & Hact & Hcerr).
  split.
  - intros Hoff. rewrite Hoff in Hr, Hc. cbn [TriState_eqb negb] in Hr, Hc.
    split; [exact Hr|]. rewrite Hc, app_nil_r. auto.
  - intros Hon.
    assert (Hb : negb (TriState_eqb (enableMaintenance (pimpl st))
                         TriState_False) = true)
      by (destruct (enableMaintenance (pimpl st)); [contradiction|auto..]).
    rewrite Hb in Hr, Hf, Hc. split; [exact Hr|]. intros Hsetup.
    pose proof (wp_AutoMaintenance env (Init_configured created st)) as H.
    unfold wp in H. cbv zeta in H. destruct H as [_ H].
    change (session (pimpl (Init_configured created st))) with created in H.
    rewrite Hsetup in H. destruct H as (Hr' & Hf' & Hc').
    rewrite Hr, Hf, Hc, Hr', Hf', Hc'.
    split; [reflexivity|]. split; [rewrite last_app; reflexivity|].
    rewrite count_app, !existsb_app, Hlock, Hact, Hcerr.
    split; [destruct (elevated_user_mode created); reflexivity|].
    repeat split.
Qed.


(** ** Runs of [TryCreateFile] *)

Lemma wp_TryCreateFile env fileName fileType st :
  wp (TryCreateFile env fileName fileType) st
    (fun r st' l =>
       st' = st /\
       match make_utility fileType with
       | None => r = Ok false /\ l = []
       | Some name =>
           match create_findFile env name with
           | None =>
               (exists m i f n, r = Throw (Exn_MiKTeX m i f n)) /\
               l = [Ev_FindFile name]
           | Some exe =>
               let args := create_command_line env fileName fileType st exe in
               r = Ok (fst (fst (create_run env exe args))
                       && (snd (fst (create_run env exe args)) =? 0)) /\
               filter is_Process_Run l = [Ev_Process_Run exe args] /\
               head l = Some (Ev_FindFile name)
           end
       end).
Proof.
  unfold TryCreateFile, MIKTEX_FATAL_ERROR, create_command_line, create_args,
    make_utility, make_command.
  wp_run.
  destruct fileType; wp_run;
    try (split; [reflexivity|]; split; reflexivity);
    match goal with
    | |- context [create_findFile env ?n] =>
        destruct (create_findFile env n) as [exe|]
    end;
    wp_run; try (split; [reflexivity|]; split; [eauto 8|reflexivity]);
    destruct (enableInstaller (pimpl st)),
      (IsAdminMode (session (pimpl st)));
    cbn [app insert list_insert];
    match goal with
    | |- context [create_run env ?e ?a] =>
        destruct (create_run env e a) as [[started exitCode] output]
    end;
    destruct started; cbn [negb fst snd andb]; wp_run;
    try (destruct (exitCode =? 0); cbn [negb]; wp_run);
    (split; [reflexivity|]); (split; [reflexivity|]);
    (split; reflexivity).
Qed.

(** X16: [TryCreateFile] returns true exactly when the file type is one it
    can make (BASE, FMT, TFM), the utility for it is found, the utility could
    be started and it exited with code 0. For any other file type it returns
    false without any call; a missing utility is not a false return but a
    [MiKTeXException], raised right after the lookup. The application object
    is never changed. *)
Theorem TryCreateFile_succeeds_iff env fileName fileType st :
  let r := TryCreateFile env fileName fileType st in
  final r = st /\
  (result r = Ok true <->
   exists name exe args output,
     make_utility fileType = Some name /\
     create_findFile env name = Some exe /\
     In (Ev_Process_Run exe args) (calls r) /\
     create_run env exe args = (true, 0, output)) /\
  (make_utility fileType = None -> result r = Ok false /\ calls r = []) /\
  (forall name,
     make_utility fileType = Some name -> create_findFile env name = None ->
     (exists m i f n, result r = Throw (Exn_MiKTeX m i f n)) /\
     calls r = [Ev_FindFile name]).
Proof.
  intros r. pose proof (wp_TryCreateFile env fileName fileType st) as H.
  unfold wp in H. fold r in H. destruct H as [Hst H].
  split; [exact Hst|].
  destruct (make_utility fileType) as [name|].
  2: { destruct H as [Hr Hl]. split; [|split; [auto|discriminate]].
       rewrite Hr. split; [discriminate|].
       intros (? & ? & ? & ? & ? & _). discriminate. }
  destruct (create_findFile env name) as [exe|] eqn:Hfind.
  2: { destruct H as [(m & i & f & n & Hr) Hl].
       split; [|split; [discriminate|]].
       - rewrite Hr. split; [discriminate|].
         intros (name' & ? & ? & ? & Hn & Hf & _).
         injection Hn as <-. congruence.
       - intros name' Hn _. injection Hn as <-. eauto 8. }
  cbv zeta in H. destruct H as (Hr & Hl & _).
  split; [|split; [discriminate|]].
  2: { intros name' Hn Hf. injection Hn as <-. congruence. }
  set (args := create_command_line env fileName fileType st exe) in *.
  assert (Hin : forall exe' args',
    In (Ev_Process_Run exe' args') (calls r) -> exe' = exe /\ args' = args).
  { intros exe' args' Hin.
    assert (Hf : Ev_Process_Run exe' args' ∈ filter is_Process_Run (calls r)).
    { apply list_elem_of_filter. split; [exact I|].
      apply list_elem_of_In, Hin. }
    rewrite Hl in Hf. apply list_elem_of_singleton in Hf.
    injection Hf as -> ->. auto. }
  rewrite Hr. split.
  - intros Hok. injection Hok as Hok. apply andb_true_iff in Hok as [Hs He].
    apply Z.eqb_eq in He.
    destruct (create_run env exe args) as [[started code] output] eqn:Hrun.
    cbn [fst snd] in Hs, He. subst started code.
    exists name, exe, args, output. repeat split; auto.
    apply list_elem_of_In.
    assert (Hf : Ev_Process_Run exe args ∈ filter is_Process_Run (calls r))
      by (rewrite Hl; apply list_elem_of_singleton; reflexivity).
    apply list_elem_of_filter in Hf. apply Hf.
  - intros (name' & exe' & args' & output & Hn & Hf & Hi & Hrun).
    destruct (Hin _ _ Hi) as [-> ->]. rewrite Hrun. reflexivity.
Qed.

(** X17: [TryCreateFile] starts at most one process: the utility that
    [FindFile] returned, with the program stem as argument 0, the same
    installer and admin switches that [AutoMaintenance] passes to its helpers
    (but never [--quiet]), and then [formats build <base>] for BASE, the same
    with [--engine <engine>] for FMT, or just [<base>] for TFM. *)
Theorem TryCreateFile_command_line env fileName fileType st exe args :
  In (Ev_Process_Run exe args) (calls (TryCreateFile env fileName fileType st)) ->
  (exists name,
     make_utility fileType = Some name /\
     create_findFile env name = Some exe) /\
  (exists switches,
     commonArgs exe st = switches ++ ["--quiet"] /\
     args = switches ++ make_command env fileName fileType) /\
  count is_Process_Run (calls (TryCreateFile env fileName fileType st)) = 1%nat.
Proof.
  intros Hin. pose proof (wp_TryCreateFile env fileName fileType st) as H.
  unfold wp in H. destruct H as [_ H].
  destruct (make_utility fileType) as [name|].
  2: { destruct H as [_ Hl]. rewrite Hl in Hin. destruct Hin. }
  destruct (create_findFile env name) as [exe0|] eqn:Hfind.
  2: { destruct H as [_ Hl]. rewrite Hl in Hin.
       destruct Hin as [Hin|[]]. discriminate Hin. }
  cbv zeta in H. destruct H as (_ & Hl & _).
  assert (Hf : Ev_Process_Run exe args
               ∈ filter is_Process_Run
                   (calls (TryCreateFile env fileName fileType st))).
  { apply list_elem_of_filter. split; [exact I|].
    apply list_elem_of_In, Hin. }
  rewrite Hl in Hf. apply list_elem_of_singleton in Hf.
  injection Hf as -> ->.
  split; [eauto|]. split.
  - unfold create_command_line, commonArgs.
    eexists. split; [|rewrite !app_assoc; reflexivity].
    rewrite !app_assoc. reflexivity.
  - unfold count. rewrite Hl. reflexivity.
Qed.


(** ** The command-line switches *)

Lemma ExamineArgs_loop_spec args : forall initInfo i commandLine,
  ExamineArgs_loop args initInfo i commandLine =
  (map Some (filter kept (arguments args)) ++ from_terminator args,
   fst (examine_all (arguments args) initInfo i),
   snd (examine_all (arguments args) initInfo i),
   commandLine ++ arguments args).
Proof.
  induction args as [|[a|] rest IH]; intros initInfo i commandLine.
  - cbn. rewrite app_nil_r. reflexivity.
  - cbn [ExamineArgs_loop arguments from_terminator examine_all fold_left
         fst snd].
    rewrite filter_cons.
    assert (Hk : examine a initInfo i = None <-> kept a = true).
    { unfold examine, kept, is_miktex_option, miktex_options.
      cbn [existsb].
      repeat match goal with
             | |- context [String.eqb a ?s] => destruct (String.eqb a s)
             end; cbn; split; congruence. }
    destruct (examine a initInfo i) as [[initInfo' i']|] eqn:He.
    + rewrite IH. destruct (kept a) eqn:Hkept.
      * destruct Hk as [_ Hk]. discriminate (Hk eq_refl).
      * rewrite decide_False by (intros []). unfold examine_all.
        rewrite <- app_assoc. reflexivity.
    + rewrite IH. destruct Hk as [Hk _]. rewrite (Hk eq_refl).
      rewrite decide_True by exact I. unfold examine_all.
      rewrite <- app_assoc. reflexivity.
  - cbn. rewrite app_nil_r. reflexivity.
Qed.

Lemma last_switch_cons off on a argv t :
  last_switch off on (a :: argv) t =
  last_switch off on argv
    (if String.eqb a off then TriState_False
     else if String.eqb a on then TriState_True else t).
Proof.
  unfold last_switch. rewrite filter_cons.
  destruct (String.eqb a off) eqn:Hoff; cbn [orb].
  - rewrite decide_True by exact I. rewrite last_cons.
    destruct (last _); [reflexivity|]. rewrite Hoff. reflexivity.
  - destruct (String.eqb a on) eqn:Hon.
    + rewrite decide_True by exact I. rewrite last_cons.
      destruct (last _); [reflexivity|]. rewrite Hoff. reflexivity.
    + rewrite decide_False by (intros []). reflexivity.
Qed.

(** What one argument does to each switch. *)
Lemma examine_switches a initInfo i :
  let s := match examine a initInfo i with
           | Some s' => s'
           | None => (initInfo, i)
           end in
  option_AdminMode (fst s)
    = option_AdminMode initInfo || String.eqb a "--miktex-admin" /\
  programInvocationName (fst s) = programInvocationName initInfo /\
  theNameOfTheGame (fst s) = theNameOfTheGame initInfo /\
  enableInstaller (snd s)
    = (if String.eqb a "--miktex-disable-installer" then TriState_False
       else if String.eqb a "--miktex-enable-installer" then TriState_True
       else enableInstaller i) /\
  enableMaintenance (snd s)
    = (if String.eqb a "--miktex-disable-maintenance" then TriState_False
       else if String.eqb a "--miktex-enable-maintenance" then TriState_True
       else enableMaintenance i) /\
  enableDiagnose (snd s)
    = (if String.eqb a "--miktex-disable-diagnose" then TriState_False
       else if String.eqb a "--miktex-enable-diagnose" then TriState_True
       else enableDiagnose i) /\
  not_a_switch (snd s) = not_a_switch i /\
  commandLine (snd s) = commandLine i.
Proof.
  unfold examine.
  repeat match goal with
         | |- context [if String.eqb a ?s then _ else _] =>
             let H := fresh "H" in
             destruct (String.eqb a s) eqn:H;
             [apply String.eqb_eq in H; subst a; cbn;
              rewrite ?orb_true_r, ?orb_false_r; auto 10|]
         end.
  cbn. rewrite orb_false_r. auto 10.
Qed.

Lemma examine_all_switches argv : forall initInfo i,
  let s := examine_all argv initInfo i in
  option_AdminMode (fst s)
    = option_AdminMode initInfo
      || existsb (fun a => String.eqb a "--miktex-admin") argv /\
  programInvocationName (fst s) = programInvocationName initInfo /\
  theNameOfTheGame (fst s) = theNameOfTheGame initInfo /\
  enableInstaller (snd s)
    = last_switch "--miktex-disable-installer" "--miktex-enable-installer"
        argv (enableInstaller i) /\
  enableMaintenance (snd s)
    = last_switch "--miktex-disable-maintenance" "--miktex-enable-maintenance"
        argv (enableMaintenance i) /\
  enableDiagnose (snd s)
    = last_switch "--miktex-disable-diagnose" "--miktex-enable-diagnose"
        argv (enableDiagnose i) /\
  not_a_switch (snd s) = not_a_switch i /\
  commandLine (snd s) = commandLine i.
Proof.
  induction argv as [|a argv IH]; intros initInfo i.
  - cbn. rewrite orb_false_r. auto 10.
  - unfold examine_all. cbn [fold_left fst snd].
    pose proof (examine_switches a initInfo i) as Ha. cbv zeta in Ha.
    destruct (match examine a initInfo i with
              | Some s' => s'
              | None => (initInfo, i)
              end) as [initInfo1 i1].
    cbn [fst snd] in Ha.
    destruct Ha as (Ha1 & Ha2 & Ha3 & Ha4 & Ha5 & Ha6 & Ha7 & Ha8).
    specialize (IH initInfo1 i1). cbv zeta in IH. unfold examine_all in IH.
    destruct IH as (H1 & H2 & H3 & H4 & H5 & H6 & H7 & H8).
    rewrite !last_switch_cons, <- Ha4, <- Ha5, <- Ha6.
    cbn [existsb]. rewrite orb_assoc, <- Ha1.
    repeat split; try assumption; congruence.
Qed.

Lemma wp_ExamineArgs args initInfo st :
  wp (ExamineArgs args initInfo) st
    (fun r st' l =>
       let s := examine_all (arguments args) initInfo (pimpl st) in
       r = Ok (map Some (filter kept (arguments args)) ++ from_terminator args,
               fst s) /\
       st' = with_pimpl
               (fun _ => set_commandLine
                           (CommandLineBuilder_ToString (arguments args))
                           (snd s)) st /\
       l = []).
Proof.
  unfold ExamineArgs. wp_run. rewrite ExamineArgs_loop_spec. wp_run. auto.
Qed.

(** X18: [ExamineArgs] removes exactly the seven [--miktex-...] options from
    the arguments before the first [nullptr], keeps every other argument in
    its place, and leaves the vector untouched from the first [nullptr] on;
    the command line it records still contains the removed options. It makes
    no call and does not throw. *)
Theorem ExamineArgs_strips_miktex_options args initInfo st :
  let r := ExamineArgs args initInfo st in
  exists args' initInfo',
    result r = Ok (args', initInfo') /\
    args' = map Some (filter kept (arguments args)) ++ from_terminator args /\
    arguments args' = filter kept (arguments args) /\
    from_terminator args' = from_terminator args /\
    Forall (fun a => is_miktex_option a = false) (arguments args') /\
    commandLine (pimpl (final r))
      = CommandLineBuilder_ToString (arguments args) /\
    calls r = [].
Proof.
  intros r. pose proof (wp_ExamineArgs args initInfo st) as H.
  unfold wp in H. cbv zeta in H. fold r in H. destruct H as (Hr & Hf & Hl).
  eexists _, _. split; [exact Hr|]. split; [reflexivity|].
  assert (Hterm : forall l : list (option string),
            match l with Some _ :: _ => False | _ => True end ->
            forall argv : list string,
            arguments (map Some argv ++ l) = argv /\
            from_terminator (map Some argv ++ l) = l).
  { intros l Hl0 argv. induction argv as [|a argv [IH1 IH2]].
    - destruct l as [|[b|] l]; [auto|destruct Hl0|auto].
    - cbn. rewrite IH1, IH2. auto. }
  assert (Hhead : match from_terminator args with
                  | Some _ :: _ => False
                  | _ => True
                  end).
  { clear. induction args as [|[a|] rest IH]; cbn; auto. }
  destruct (Hterm _ Hhead (filter kept (arguments args))) as [H1 H2].
  rewrite H1, H2. split; [reflexivity|]. split; [reflexivity|].
  split.
  - apply Forall_forall. intros a Ha. apply list_elem_of_filter in Ha as [Ha _].
    unfold kept in Ha. destruct (is_miktex_option a); [destruct Ha|reflexivity].
  - split; [|exact Hl]. rewrite Hf. reflexivity.
Qed.

(** X19: each of [enableInstaller], [enableMaintenance] and [enableDiagnose]
    ends up as the last of its two switches among the arguments says, and
    keeps its value when neither occurs; the admin-mode option is added to
    [initInfo] when [--miktex-admin] occurs and is never taken away; nothing
    else in [initInfo] or in the application object changes, apart from the
    recorded command line. *)
Theorem ExamineArgs_last_switch_wins args initInfo st :
  let r := ExamineArgs args initInfo st in
  let argv := arguments args in
  exists args' initInfo',
    result r = Ok (args', initInfo') /\
    option_AdminMode initInfo'
      = option_AdminMode initInfo
        || existsb (fun a => String.eqb a "--miktex-admin") argv /\
    programInvocationName initInfo' = programInvocationName initInfo /\
    theNameOfTheGame initInfo' = theNameOfTheGame initInfo /\
    enableInstaller (pimpl (final r))
      = last_switch "--miktex-disable-installer" "--miktex-enable-installer"
          argv (enableInstaller (pimpl st)) /\
    enableMaintenance (pimpl (final r))
      = last_switch "--miktex-disable-maintenance"
          "--miktex-enable-maintenance" argv (enableMaintenance (pimpl st)) /\
    enableDiagnose (pimpl (final r))
      = last_switch "--miktex-disable-diagnose" "--miktex-enable-diagnose"
          argv (enableDiagnose (pimpl st)) /\
    not_a_switch (pimpl (final r)) = not_a_switch (pimpl st) /\
    initUiFrameworkDone (final r) = initUiFrameworkDone st /\
    isLog4cxxConfigured (final r) = isLog4cxxConfigured st.
Proof.
  intros r argv. pose proof (wp_ExamineArgs args initInfo st) as H.
  unfold wp in H. cbv zeta in H. fold r in H. destruct H as (Hr & Hf & _).
  pose proof (examine_all_switches argv initInfo (pimpl st)) as Hs.
  cbv zeta in Hs. fold argv in Hr, Hf.
  destruct (examine_all argv initInfo (pimpl st)) as [initInfo' i'].
  cbn [fst snd] in *.
  destruct Hs as (H1 & H2 & H3 & H4 & H5 & H6 & H7 & _).
  eexists _, initInfo'. split; [exact Hr|]. rewrite Hf.
  cbn [pimpl with_pimpl set_commandLine enableInstaller enableMaintenance
       enableDiagnose initUiFrameworkDone isLog4cxxConfigured].
  repeat (split; [assumption|]). auto.
Qed.


Lemma then_ret_run {A B} (m : Prog A) (x : B) (st : App) :
  result (bind m (fun _ => ret x) st)
    = match result (m st) with
      | Ok _ => Ok x
      | Throw e => Throw e
      end /\
  final (bind m (fun _ => ret x) st) = final (m st) /\
  calls (bind m (fun _ => ret x) st) = calls (m st).
Proof.
  rewrite result_bind, final_bind, calls_bind.
  destruct (result (m st)); cbn; rewrite app_nil_r; auto.
Qed.

Lemma wp_Init_args Session_Create env initInfoArg args st :
  wp (Init_args Session_Create env initInfoArg args) st
    (fun r st' l =>
       let s := examine_all (arguments args) initInfoArg (pimpl st) in
       let st1 := with_pimpl
                    (fun _ => set_commandLine
                                (CommandLineBuilder_ToString (arguments args))
                                (snd s)) st in
       let run := Init (Session_Create (fst s)) env st1 in
       r = match result run with
           | Ok _ =>
               Ok (map Some (filter kept (arguments args))
                   ++ from_terminator args)
           | Throw e => Throw e
           end /\
       st' = final run /\ l = calls run).
Proof.
  pose proof (wp_ExamineArgs args initInfoArg st) as HE.
  unfold wp in HE |- *. cbv zeta in HE |- *. destruct HE as (Hr & Hf & Hl).
  unfold Init_args.
  rewrite result_bind, final_bind, calls_bind, Hr, Hf, Hl.
  cbn [fst snd app].
  generalize (Init (Session_Create
                      (fst (examine_all (arguments args) initInfoArg (pimpl st))))
                env).
  intros m. apply then_ret_run.
Qed.

(** X20: the switches on the command line rule what [Init] with arguments
    does. The session is created from an [initInfo] that has the admin-mode
    option when [--miktex-admin] was given. When the last maintenance switch
    is [--miktex-disable-maintenance], [Init] returns the stripped arguments
    and makes no maintenance call. When the last installer switch is
    [--miktex-disable-installer], the configuration value [AutoInstall] is not
    consulted: [enableInstaller] is [False] after [Init], and every later
    [InstallPackage] returns false without any call. *)
Theorem command_line_switches_rule_Init
    Session_Create env initInfoArg args st :
  let argv := arguments args in
  let r := Init_args Session_Create env initInfoArg args st in
  (exists initInfo,
     session (pimpl (final r)) = Session_Create initInfo /\
     option_AdminMode initInfo
       = option_AdminMode initInfoArg
         || existsb (fun a => String.eqb a "--miktex-admin") argv /\
     programInvocationName initInfo = programInvocationName initInfoArg) /\
  (last_switch "--miktex-disable-maintenance" "--miktex-enable-maintenance"
     argv (enableMaintenance (pimpl st)) = TriState_False ->
   result r = Ok (map Some (filter kept argv) ++ from_terminator args) /\
   existsb is_maintenance_call (calls r) = false) /\
  (last_switch "--miktex-disable-installer" "--miktex-enable-installer"
     argv (enableInstaller (pimpl st)) = TriState_False ->
   enableInstaller (pimpl (final r)) = TriState_False /\
   forall ienv packageId trigger installRoot,
     let r' := InstallPackage ienv packageId trigger installRoot (final r) in
     result r' = Ok (false, installRoot) /\ calls r' = []).
Proof.
  intros argv r.
  pose proof (wp_Init_args Session_Create env initInfoArg args st) as H.
  unfold wp in H. cbv zeta in H. fold r argv in H.
  pose proof (examine_all_switches argv initInfoArg (pimpl st)) as Hs.
  cbv zeta in Hs.
  destruct (examine_all argv initInfoArg (pimpl st)) as [initInfo i'].
  cbn [fst snd] in H, Hs.
  destruct Hs as (Hadm & Hname & _ & Hinst & Hmnt & _).
  set (st1 := with_pimpl
                (fun _ => set_commandLine (CommandLineBuilder_ToString argv) i')
                st) in *.
  destruct H as (Hr & Hf & Hc).
  assert (Hst1 : enableInstaller (pimpl st1) = enableInstaller i' /\
                 enableMaintenance (pimpl st1) = enableMaintenance i')
    by (split; reflexivity).
  destruct Hst1 as [Hi1 Hm1].
  assert (Hfinal : session (pimpl (final r)) = Session_Create initInfo /\
                   enableInstaller (pimpl (final r))
                   = TriState_default (enableInstaller i')
                       (GetConfigValue_TriState (Session_Create initInfo)
                          MPM_AUTOINSTALL)).
  { rewrite Hf, <- Hi1.
    destruct (Init_final (Session_Create initInfo) env st1) as [-> | ->];
      split; reflexivity. }
  destruct Hfinal as [Hsess Hinst'].
  split; [exists initInfo; auto|]. split.
  - intros Hoff. rewrite <- Hmnt, <- Hm1 in Hoff.
    destruct (Init_run (Session_Create initInfo) env st1) as (Hr1 & _ & Hc1).
    rewrite Hoff in Hr1, Hc1. cbn [TriState_eqb negb] in Hr1, Hc1.
    rewrite Hr1 in Hr. split; [exact Hr|].
    rewrite Hc, Hc1, app_nil_r. apply Init_prelude_no_maintenance.
  - intros Hoff. rewrite <- Hinst in Hoff. rewrite Hoff in Hinst'.
    split; [exact Hinst'|].
    intros ienv packageId trigger installRoot r'.
    pose proof (InstallPackage_guarded ienv packageId trigger installRoot
                  (final r) (or_intror Hinst')) as Hg.
    unfold wp in Hg. fold r' in Hg. tauto.
Qed.


(** ** Runs of [AutoDiagnose] *)

Lemma wp_report_issue issue st :
  wp (report_issue issue) st
    (fun r st' l =>
       r = Ok tt /\ st' = st /\
       l = (if logger (pimpl st) then [issue_log_entry issue] else [])
           ++ (if serious issue && negb (beQuiet (pimpl st))
               then [issue_cerr_line issue] else [])).
Proof.
  unfold report_issue, GetQuietFlag, serious, issue_log_entry, issue_cerr_line.
  wp_run.
  destruct (logger (pimpl st)), (severity issue); wp_run;
    try (destruct (beQuiet (pimpl st)); wp_run); auto.
Qed.

Lemma wp_report_issues issues st :
  wp (for_each report_issue issues) st
    (fun r st' l =>
       r = Ok tt /\ st' = st /\
       filter is_Log l
         = (if logger (pimpl st) then map issue_log_entry issues else []) /\
       filter is_Cerr l
         = (if beQuiet (pimpl st) then []
            else map issue_cerr_line (filter serious issues)) /\
       forallb (fun e => is_Log e || is_Cerr e) l = true).
Proof.
  induction issues as [|issue issues IH]; cbn [for_each].
  - wp_run. destruct (logger (pimpl st)), (beQuiet (pimpl st)); auto.
  - apply wp_bind. eapply wp_mono; [apply wp_report_issue|].
    intros r st1 l1 (-> & -> & ->).
    eapply wp_mono; [apply IH|].
    intros r st2 l2 (-> & -> & Hlog & Hcerr & Hall).
    split; [reflexivity|]. split; [reflexivity|].
    rewrite !filter_app, !forallb_app, Hlog, Hcerr, Hall, filter_cons.
    unfold issue_log_entry, issue_cerr_line.
    destruct (logger (pimpl st)), (serious issue), (beQuiet (pimpl st));
      cbn [andb negb]; rewrite ?decide_True by exact I;
      rewrite ?decide_False by (intros []); auto.
Qed.

(** Sums in [time_t]: the plain sum when it fits, and the sum less [2 ^ 64]
    when it is above the largest value. *)
Lemma time_t_add_in_range (a b : time_t) :
  TIME_MIN <= a + b <= TIME_MAX -> time_t_add a b = a + b.
Proof.
  clear - a b. unfold time_t_add, time_t_wrap, TIME_MIN, TIME_MAX.
  change (2 ^ 63) with 9223372036854775808.
  change (2 ^ 64) with 18446744073709551616.
  intros H. Z.div_mod_to_equations. lia.
Qed.

Lemma time_t_add_overflow (a b : time_t) :
  TIME_MAX < a + b <= TIME_MAX + 2 ^ 64 ->
  time_t_add a b = a + b - 2 ^ 64.
Proof.
  clear - a b. unfold time_t_add, time_t_wrap, TIME_MIN, TIME_MAX.
  change (2 ^ 63) with 9223372036854775808.
  change (2 ^ 64) with 18446744073709551616.
  intros H. Z.div_mod_to_equations. lia.
Qed.

(** X21: [AutoDiagnose] asks for a fresh evaluation ([FindIssues]) exactly
    when the issues file is missing or now is greater than its last write
    time plus 604800 seconds, the sum taken in [time_t], and takes the stored
    issues ([GetIssues]) otherwise. For a last write time at least a week
    below the largest [time_t] the sum is the plain one, so a file that is
    exactly a week old is not evaluated afresh; for a last write time within
    a week of the largest [time_t] the sum wraps around, and a fresh
    evaluation is made. Every issue is logged, in order, at a level given by
    its severity, when there is a logger; Critical and Major issues -- and no
    others -- also go to [cerr], in order, unless the quiet flag is set.
    Nothing else is output, the application object is unchanged, and the
    call does not throw. *)
Theorem AutoDiagnose_reports env st :
  let r := AutoDiagnose env st in
  let issuesJson :=
    GetSpecialPath (session (pimpl st)) SpecialPath_ConfigRoot
    // MIKTEX_PATH_ISSUES_JSON in
  let issues :=
    match diagnose_files env !! issuesJson with
    | None => findIssues env
    | Some w =>
        if time_t_add w 604800 <? now env then findIssues env
        else getIssues env
    end in
  result r = Ok tt /\ final r = st /\
  filter is_Log (calls r)
    = (if logger (pimpl st) then map issue_log_entry issues else []) /\
  filter is_Cerr (calls r)
    = (if beQuiet (pimpl st) then []
       else map issue_cerr_line (filter serious issues)) /\
  forallb (fun e => is_Log e || is_Cerr e) (calls r) = true /\
  (forall w,
     File_GetLastWriteTime (diagnose_files env) issuesJson = Some w ->
     TIME_MIN <= w <= TIME_MAX - 604800 ->
     issues = if w + 604800 <? now env then findIssues env
              else getIssues env) /\
  (forall w,
     File_GetLastWriteTime (diagnose_files env) issuesJson = Some w ->
     TIME_MAX - 604800 < w <= TIME_MAX ->
     TIME_MIN + 604800 <= now env ->
     issues = findIssues env).
Proof.
  intros r issuesJson issues.
  assert (Hrun : result r = Ok tt /\ final r = st /\
    filter is_Log (calls r)
      = (if logger (pimpl st) then map issue_log_entry issues else []) /\
    filter is_Cerr (calls r)
      = (if beQuiet (pimpl st) then []
         else map issue_cerr_line (filter serious issues)) /\
    forallb (fun e => is_Log e || is_Cerr e) (calls r) = true).
  { change (wp (AutoDiagnose env) st
              (fun r st' l =>
                 r = Ok tt /\ st' = st /\
                 filter is_Log l
                   = (if logger (pimpl st) then map issue_log_entry issues
                      else []) /\
                 filter is_Cerr l
                   = (if beQuiet (pimpl st) then []
                      else map issue_cerr_line (filter serious issues)) /\
                 forallb (fun e => is_Log e || is_Cerr e) l = true)).
    unfold AutoDiagnose. wp_run. cbv zeta. fold issuesJson.
    unfold File_Exists, File_GetLastWriteTime. subst issues.
    destruct (diagnose_files env !! issuesJson) as [w|]; cbn [negb or_else];
      wp_run.
    - change ONE_WEEK with 604800.
      destruct (time_t_add w 604800 <? now env);
        (eapply wp_mono; [apply wp_report_issues|]);
        intros r' st' l' (-> & -> & Hlog & Hcerr & Hall); auto.
    - eapply wp_mono; [apply wp_report_issues|].
      intros r' st' l' (-> & -> & Hlog & Hcerr & Hall); auto. }
  destruct Hrun as (H1 & H2 & H3 & H4 & H5).
  repeat (split; [assumption|]).
  unfold TIME_MIN, TIME_MAX, File_GetLastWriteTime.
  split; intros w Hw Hrange; subst issues; rewrite Hw.
  - rewrite time_t_add_in_range; [reflexivity|].
    unfold TIME_MIN, TIME_MAX. lia.
  - intros Hnow. rewrite time_t_add_overflow.
    + assert (Hlt : (w + 604800 - 2 ^ 64 <? now env) = true)
        by (apply Z.ltb_lt; lia).
      rewrite Hlt. reflexivity.
    + unfold TIME_MAX. lia.
Qed.


(** ** The editor command *)

Lemma scan_program_no_space p : forall quoted commandLine fileName,
  Forall (fun c => c <> SPACE) p ->
  scan_program p quoted commandLine fileName = None.
Proof.
  induction p as [|c p IH]; intros quoted commandLine fileName Hp.
  - reflexivity.
  - inversion Hp as [|c' p' Hc Hp']; subst. cbn [scan_program].
    apply Ascii.eqb_neq in Hc. rewrite Hc. cbn [negb orb].
    destruct (Ascii.eqb c QUOTE); apply IH, Hp'.
Qed.

Lemma scan_program_word w rest : forall commandLine fileName,
  Forall (fun c => c <> SPACE /\ c <> QUOTE) w ->
  scan_program (w ++ SPACE :: rest) false commandLine fileName
  = Some (commandLine ++ w, fileName ++ w, SPACE :: rest).
Proof.
  induction w as [|c w IH]; intros commandLine fileName Hw.
  - cbn. rewrite !app_nil_r. reflexivity.
  - inversion Hw as [|c' w' [Hs Hq] Hw']; subst.
    cbn [scan_program app].
    apply Ascii.eqb_neq in Hs, Hq. rewrite Hs, Hq. cbn [negb orb].
    rewrite IH by exact Hw'. rewrite <- !app_assoc. reflexivity.
Qed.

Lemma scan_program_in_quotes w rest : forall commandLine fileName,
  Forall (fun c => c <> QUOTE) w ->
  scan_program (w ++ QUOTE :: SPACE :: rest) true commandLine fileName
  = Some (commandLine ++ w ++ [QUOTE], fileName ++ w, SPACE :: rest).
Proof.
  induction w as [|c w IH]; intros commandLine fileName Hw.
  - cbn. rewrite !app_nil_r. reflexivity.
  - inversion Hw as [|c' w' Hq Hw']; subst.
    cbn [scan_program app].
    apply Ascii.eqb_neq in Hq. rewrite Hq.
    assert (Hgo : negb (Ascii.eqb c SPACE) || negb (Ascii.eqb c NUL) && true
                  = true).
    { destruct (Ascii.eqb c SPACE) eqn:Hs; [|reflexivity].
      apply Ascii.eqb_eq in Hs. subst c. reflexivity. }
    rewrite Hgo, IH by exact Hw'. rewrite <- !app_assoc. reflexivity.
Qed.

Lemma expand_placeholders_plain env editFileName editLineNumber
    transcriptFileName lit p st :
  Forall plain lit ->
  let r := expand_placeholders env editFileName editLineNumber
             transcriptFileName p st in
  let r' := expand_placeholders env editFileName editLineNumber
              transcriptFileName (lit ++ p) st in
  result r' = match result r with
              | Ok x => Ok (lit ++ x)
              | Throw e => Throw e
              end /\
  final r' = final r /\ calls r' = calls r.
Proof.
  intros Hlit. induction Hlit as [|c lit [Hp Hn] _ IH]; cbv zeta.
  - cbn [app]. destruct (result _); auto.
  - cbv zeta in IH. destruct IH as (IHr & IHf & IHc).
    cbn [app expand_placeholders].
    apply Ascii.eqb_neq in Hp, Hn. rewrite Hp, Hn.
    rewrite result_bind, final_bind, calls_bind, IHr, IHf, IHc.
    destruct (result (expand_placeholders _ _ _ _ p st));
      cbn; rewrite ?app_nil_r; auto.
Qed.

Lemma expand_placeholders_returns env editFileName editLineNumber
    transcriptFileName n : forall p st,
  (length p <= n)%nat ->
  exists x,
    result (expand_placeholders env editFileName editLineNumber
              transcriptFileName p st) = Ok x /\
    final (expand_placeholders env editFileName editLineNumber
             transcriptFileName p st) = st.
Proof.
  induction n as [|n IH]; intros p st Hlen.
  - destruct p; [|cbn in Hlen; lia]. cbn. eauto.
  - destruct p as [|c p]; [cbn; eauto|].
    assert (Hlit : forall st0,
      exists x,
        result (bind (expand_placeholders env editFileName editLineNumber
                        transcriptFileName p)
                  (fun rest => ret (c :: rest)) st0) = Ok x /\
        final (bind (expand_placeholders env editFileName editLineNumber
                       transcriptFileName p)
                 (fun rest => ret (c :: rest)) st0) = st0).
    { intros st0. destruct (IH p st0) as (x & Hr & Hf);
        [cbn in Hlen; lia|].
      rewrite result_bind, final_bind, Hr, Hf. cbn. eauto. }
    cbn [expand_placeholders].
    destruct (Ascii.eqb c NUL); [cbn; eauto|].
    destruct (Ascii.eqb c PERCENT); [|apply Hlit].
    destruct p as [|d p]; [apply Hlit|].
    destruct (Ascii.eqb d NUL); [apply Hlit|].
    destruct (IH p) with (st := st) as (x & Hr & Hf); [cbn in Hlen; lia|].
    rewrite result_bind, final_bind.
    assert (Htext : exists text,
      result ((if Ascii.eqb d "%"%char then ret ["%"%char]
               else if Ascii.eqb d "f"%char then
                 bind (emit (Ev_FindFile editFileName))
                   (fun _ => match findEditFile env with
                             | Some path => ret (c_str path)
                             | None => ret (c_str editFileName)
                             end)
               else if Ascii.eqb d "h"%char then ret []
               else if Ascii.eqb d "t"%char then ret (c_str transcriptFileName)
               else if Ascii.eqb d "l"%char then
                 ret (c_str (pretty editLineNumber))
               else if Ascii.eqb d "m"%char then ret []
               else ret []) st) = Ok text /\
      final ((if Ascii.eqb d "%"%char then ret ["%"%char]
              else if Ascii.eqb d "f"%char then
                bind (emit (Ev_FindFile editFileName))
                  (fun _ => match findEditFile env with
                            | Some path => ret (c_str path)
                            | None => ret (c_str editFileName)
                            end)
              else if Ascii.eqb d "h"%char then ret []
              else if Ascii.eqb d "t"%char then ret (c_str transcriptFileName)
              else if Ascii.eqb d "l"%char then
                ret (c_str (pretty editLineNumber))
              else if Ascii.eqb d "m"%char then ret []
              else ret []) st) = st).
    { repeat match goal with
             | |- context [if Ascii.eqb d ?k then _ else _] =>
                 destruct (Ascii.eqb d k); [cbn; eauto; fail|]
             | |- context [if Ascii.eqb d ?k then _ else _] =>
                 destruct (Ascii.eqb d k);
                 [destruct (findEditFile env); cbn; eauto|]
             end. cbn. eauto. }
    destruct Htext as (text & Ht & Hft). rewrite Ht, Hft.
    rewrite result_bind, final_bind, Hr, Hf. cbn. eauto.
Qed.

Lemma skip_spaces_spec p : forall commandLine,
  exists sp p',
    skip_spaces p commandLine = (commandLine ++ sp, p') /\
    p = sp ++ p' /\
    Forall (fun c => c = SPACE) sp /\
    match p' with
    | c :: _ => c <> SPACE
    | [] => True
    end.
Proof.
  induction p as [|c p IH]; intros commandLine.
  - exists [], []. cbn. rewrite app_nil_r. auto.
  - cbn [skip_spaces]. destruct (Ascii.eqb c SPACE) eqn:Hc.
    + apply Ascii.eqb_eq in Hc. subst c.
      destruct (IH (commandLine ++ [SPACE])) as (sp & p' & Hs & Hp & Hsp & Hp').
      exists (SPACE :: sp), p'. rewrite Hs, <- app_assoc.
      split; [reflexivity|]. split; [cbn; congruence|]. auto.
    + apply Ascii.eqb_neq in Hc. exists [], (c :: p).
      rewrite app_nil_r. auto.
Qed.

Lemma wp_InvokeEditor_command
    TEXWORKS Q env editFileName editLineNumber transcriptFileName st templ :
  configEditor env = Some templ ->
  wp (InvokeEditor_command TEXWORKS Q env editFileName editLineNumber
        transcriptFileName) st
    (fun r st' l =>
       st' = st /\
       match scan_program (c_str templ) false [] [] with
       | None => r = Ok None /\ l = [Ev_FindFile TEXWORKS]
       | Some (commandLine, fileName, p) =>
           exists sp p' x,
             p = sp ++ p' /\
             Forall (fun c => c = SPACE) sp /\
             match p' with
             | c :: _ => c <> SPACE
             | [] => True
             end /\
             result (expand_placeholders env editFileName editLineNumber
                       transcriptFileName p' st) = Ok x /\
             l = Ev_FindFile TEXWORKS
                 :: calls (expand_placeholders env editFileName editLineNumber
                             transcriptFileName p' st) /\
             r = Ok (Some (string_of_list_ascii fileName,
                           string_of_list_ascii (commandLine ++ sp ++ x)))
       end).
Proof.
  intros Hcfg. unfold InvokeEditor_command. wp_run. rewrite Hcfg.
  destruct (scan_program (c_str templ) false [] [])
    as [[[commandLine fileName] p]|]; [|wp_run; auto].
  destruct (skip_spaces_spec p commandLine) as (sp & p' & Hs & Hp & Hsp & Hp').
  rewrite Hs. apply wp_bind. eapply wp_mono; [apply wp_self|].
  intros r st1 l1 (-> & -> & ->).
  destruct (expand_placeholders_returns env editFileName editLineNumber
              transcriptFileName (length p') p' st (Nat.le_refl _))
    as (x & Hr & Hf).
  rewrite Hr, Hf. wp_run. split; [reflexivity|].
  exists sp, p', x. rewrite app_nil_r, <- app_assoc. auto 10.
Qed.

(** X22: [InvokeEditor] takes the program to start from the command-line
    template: everything up to the first space that is not inside double
    quotes, with the quotes removed. A template that has no space at all
    (just a program name) makes the scan step past the end of the template
    string. A template whose arguments contain no [%] is handed on
    unchanged, with no file lookup. *)
Theorem InvokeEditor_program_from_template
    TEXWORKS Q env editFileName editLineNumber transcriptFileName st templ :
  configEditor env = Some templ ->
  let r := InvokeEditor_command TEXWORKS Q env editFileName editLineNumber
             transcriptFileName st in
  final r = st /\
  (Forall (fun c => c <> SPACE) (c_str templ) ->
   result r = Ok None /\ calls r = [Ev_FindFile TEXWORKS]) /\
  (forall w rest,
     c_str templ = w ++ SPACE :: rest ->
     Forall (fun c => c <> SPACE /\ c <> QUOTE) w ->
     (exists tail,
        result r = Ok (Some (string_of_list_ascii w,
                             string_of_list_ascii (w ++ SPACE :: tail)))) /\
     (Forall plain rest ->
      result r = Ok (Some (string_of_list_ascii w, templ)) /\
      calls r = [Ev_FindFile TEXWORKS])) /\
  (forall w rest,
     c_str templ = QUOTE :: w ++ QUOTE :: SPACE :: rest ->
     Forall (fun c => c <> QUOTE) w ->
     exists tail,
       result r = Ok (Some (string_of_list_ascii w,
                            string_of_list_ascii
                              (QUOTE :: w ++ QUOTE :: SPACE :: tail)))).
Proof.
  unused_macros. intros Hcfg r.
  pose proof (wp_InvokeEditor_command TEXWORKS Q env editFileName
                editLineNumber transcriptFileName st templ Hcfg) as H.
  unfold wp in H. fold r in H. destruct H as [Hst H].
  assert (Hstart : forall sp p' rest,
            SPACE :: rest = sp ++ p' ->
            Forall (fun c => c = SPACE) sp ->
            match p' with c :: _ => c <> SPACE | [] => True end ->
            exists sp', sp = SPACE :: sp').
  { intros sp p' rest Hp Hsp Hp'. destruct sp as [|c sp].
    - cbn in Hp. subst p'. destruct Hp'. reflexivity.
    - injection Hp as <- _. eauto. }
  split; [exact Hst|]. split; [|split].
  - intros Hns. rewrite scan_program_no_space in H by exact Hns. exact H.
  - intros w rest Ht Hw. rewrite Ht, scan_program_word in H by exact Hw.
    cbn [app] in H.
    destruct H as (sp & p' & x & Hp & Hsp & Hp' & Hx & Hl & Hr).
    destruct (Hstart _ _ _ Hp Hsp Hp') as [sp' ->].
    split; [exists (sp' ++ x); rewrite Hr; reflexivity|].
    intros Hrest.
    assert (Hplain : Forall plain p').
    { assert (Hall : Forall plain (SPACE :: rest))
        by (constructor; [split; discriminate|exact Hrest]).
      rewrite Hp in Hall. apply Forall_app in Hall. apply Hall. }
    destruct (expand_placeholders_plain env editFileName editLineNumber
                transcriptFileName p' [] st Hplain) as (Hr' & _ & Hc').
    rewrite app_nil_r in Hr', Hc'. cbn in Hr', Hc'.
    rewrite Hr' in Hx. injection Hx as <-.
    rewrite Hl, Hc', Hr. split; [|reflexivity].
    rewrite app_nil_r.
    replace (w ++ (SPACE :: sp') ++ p') with (c_str templ)
      by (rewrite Ht, Hp; reflexivity).
    unfold c_str. rewrite string_of_list_ascii_of_string. reflexivity.
  - intros w rest Ht Hw. rewrite Ht in H. cbn [scan_program] in H.
    change (negb (Ascii.eqb QUOTE SPACE)
            || negb (Ascii.eqb QUOTE NUL) && false) with true in H.
    change (Ascii.eqb QUOTE QUOTE) with true in H. cbv iota in H.
    cbn [negb] in H. rewrite scan_program_in_quotes in H by exact Hw.
    cbn [app] in H.
    destruct H as (sp & p' & x & Hp & Hsp & Hp' & Hx & Hl & Hr).
    destruct (Hstart _ _ _ Hp Hsp Hp') as [sp' ->].
    exists (sp' ++ x). rewrite Hr. rewrite <- !app_assoc. reflexivity.
Qed.



Lemma wp_expand_placeholder env editFileName editLineNumber
    transcriptFileName d p st :
  d <> NUL ->
  wp (expand_placeholders env editFileName editLineNumber transcriptFileName
        (PERCENT :: d :: p)) st
    (fun r st' l =>
       let file := match findEditFile env with
                   | Some path => path
                   | None => editFileName
                   end in
       let rest := expand_placeholders env editFileName editLineNumber
                     transcriptFileName p st in
       st' = st /\
       exists x,
         result rest = Ok x /\
         r = Ok ((if Ascii.eqb d "f"%char then c_str file
                  else placeholder_text editLineNumber transcriptFileName d)
                 ++ x) /\
         l = (if Ascii.eqb d "f"%char then [Ev_FindFile editFileName] else [])
             ++ calls rest).
Proof.
  intros Hd. cbv zeta.
  destruct (expand_placeholders_returns env editFileName editLineNumber
              transcriptFileName (length p) p st (Nat.le_refl _))
    as (x & Hr & Hf).
  cbn [expand_placeholders].
  change (Ascii.eqb PERCENT NUL) with false.
  change (Ascii.eqb PERCENT PERCENT) with true. cbv iota.
  apply Ascii.eqb_neq in Hd. rewrite Hd.
  assert (Hrest : forall (text : Prog (list ascii)) t l0,
    result (text st) = Ok t -> final (text st) = st -> calls (text st) = l0 ->
    wp (let* text := text in
        let* rest := expand_placeholders env editFileName editLineNumber
                       transcriptFileName p in
        ret (text ++ rest))%prog st
      (fun r st' l =>
         st' = st /\
         exists x0,
           result (expand_placeholders env editFileName editLineNumber
                     transcriptFileName p st) = Ok x0 /\
           r = Ok (t ++ x0) /\
           l = l0 ++ calls (expand_placeholders env editFileName
                              editLineNumber transcriptFileName p st))).
  { intros text t l0 Ht Hft Hlt. unfold wp.
    rewrite result_bind, final_bind, calls_bind, Ht, Hft, Hlt.
    cbv beta iota.
    rewrite result_bind, final_bind, calls_bind, Hr, Hf.
    cbn. rewrite app_nil_r. split; [reflexivity|]. exists x. auto. }
  unfold placeholder_text.
  destruct (Ascii.eqb d "%"%char) eqn:H1;
    [apply Ascii.eqb_eq in H1; subst d; apply Hrest; reflexivity|].
  destruct (Ascii.eqb d "f"%char) eqn:H2;
    [apply Hrest; destruct (findEditFile env); reflexivity|].
  destruct (Ascii.eqb d "h"%char) eqn:H3;
    [apply Ascii.eqb_eq in H3; subst d; apply Hrest; reflexivity|].
  destruct (Ascii.eqb d "t"%char) eqn:H4; [apply Hrest; reflexivity|].
  destruct (Ascii.eqb d "l"%char) eqn:H5; [apply Hrest; reflexivity|].
  destruct (Ascii.eqb d "m"%char) eqn:H6; apply Hrest; reflexivity.
Qed.

(** X23: the arguments of the editor template are copied to the command
    line, with each placeholder replaced where it stands: [%%] by a percent
    sign, [%f] by the path of the file when [FindFile] finds it and by the
    file name as given otherwise (one lookup per [%f]), [%t] by the
    transcript file name, [%l] by the line number; [%h], [%m] and any other
    character after [%] are dropped together with the [%]. A [%] at the very
    end is copied. The expansion does not throw and leaves the application
    object alone. *)
Theorem placeholders_expand_in_place
    env editFileName editLineNumber transcriptFileName lit st :
  Forall plain lit ->
  let expand := expand_placeholders env editFileName editLineNumber
                  transcriptFileName in
  let file := match findEditFile env with
              | Some path => path
              | None => editFileName
              end in
  (result (expand lit st) = Ok lit /\ calls (expand lit st) = []) /\
  (result (expand (lit ++ [PERCENT]) st) = Ok (lit ++ [PERCENT]) /\
   calls (expand (lit ++ [PERCENT]) st) = []) /\
  (forall d p,
     d <> NUL ->
     final (expand (lit ++ PERCENT :: d :: p) st) = st /\
     exists x,
       result (expand p st) = Ok x /\
       result (expand (lit ++ PERCENT :: d :: p) st)
         = Ok (lit
               ++ (if Ascii.eqb d "f"%char then c_str file
                   else placeholder_text editLineNumber transcriptFileName d)
               ++ x) /\
       calls (expand (lit ++ PERCENT :: d :: p) st)
         = (if Ascii.eqb d "f"%char then [Ev_FindFile editFileName] else [])
           ++ calls (expand p st)).
Proof.
  unused_macros. intros Hlit expand file. subst expand.
  assert (Hpeel := fun p =>
    expand_placeholders_plain env editFileName editLineNumber
      transcriptFileName lit p st Hlit).
  cbv zeta in Hpeel. split; [|split].
  - destruct (Hpeel []) as (Hr & _ & Hc). rewrite app_nil_r in Hr, Hc.
    rewrite Hr, Hc. cbn. rewrite app_nil_r. auto.
  - destruct (Hpeel [PERCENT]) as (Hr & _ & Hc). rewrite Hr, Hc.
    cbn. auto.
  - intros d p Hd. destruct (Hpeel (PERCENT :: d :: p)) as (Hr & Hf & Hc).
    pose proof (wp_expand_placeholder env editFileName editLineNumber
                  transcriptFileName d p st Hd) as H.
    unfold wp in H. cbv zeta in H. destruct H as (Hst & x & Hx & Hrx & Hl).
    rewrite Hf, Hr, Hc, Hrx, Hl.
    split; [exact Hst|]. exists x. auto.
Qed.

(** X24: with no editor configured, no TeXworks found and no editor in
    yap.ini (which is only read in user mode), [InvokeEditor] starts
    [notepad] with one argument in double quotes: the path [FindFile] returns
    for the file, or the file name as given when it is not found. *)
Theorem InvokeEditor_falls_back_to_notepad
    TEXWORKS Q env editFileName editLineNumber transcriptFileName st :
  configEditor env = None ->
  findTexworks env = None ->
  IsAdminMode (session (pimpl st)) = true \/ yapEditor env = None ->
  let r := InvokeEditor_command TEXWORKS Q env editFileName editLineNumber
             transcriptFileName st in
  let file := match findEditFile env with
              | Some path => path
              | None => editFileName
              end in
  result r = Ok (Some ("notepad",
                       string_of_list_ascii
                         (c_str "notepad " ++ QUOTE :: c_str file ++ [QUOTE])))
  /\
  calls r = [Ev_FindFile TEXWORKS; Ev_FindFile editFileName] /\
  final r = st.
Proof.
  unused_macros. intros Hcfg Htw Hyap r file.
  change (wp (InvokeEditor_command TEXWORKS Q env editFileName editLineNumber
                transcriptFileName) st
            (fun r st' l =>
               r = Ok (Some ("notepad",
                             string_of_list_ascii
                               (c_str "notepad "
                                ++ QUOTE :: c_str file ++ [QUOTE]))) /\
               l = [Ev_FindFile TEXWORKS; Ev_FindFile editFileName] /\
               st' = st)).
  unfold InvokeEditor_command, builtin_editor. wp_run.
  rewrite Hcfg, Htw.
  assert (Htempl : (if negb (IsAdminMode (session (pimpl st)))
                    then match yapEditor env with
                         | Some yapEditor => yapEditor
                         | None =>
                             "notepad "
                             +:+ String QUOTE ("%f" +:+ String QUOTE EmptyString)
                         end
                    else "notepad "
                         +:+ String QUOTE ("%f" +:+ String QUOTE EmptyString))
                   = "notepad "
                     +:+ String QUOTE ("%f" +:+ String QUOTE EmptyString)).
  { destruct Hyap as [-> | ->]; [reflexivity|].
    destruct (negb _); reflexivity. }
  rewrite Htempl.
  match goal with
  | |- context [scan_program ?a ?b ?c ?d] =>
      let v := eval vm_compute in (scan_program a b c d) in
      change (scan_program a b c d) with v
  end.
  cbv beta iota.
  match goal with
  | |- context [skip_spaces ?a ?b] =>
      let v := eval vm_compute in (skip_spaces a b) in
      change (skip_spaces a b) with v
  end.
  cbv beta iota.
  cbn [expand_placeholders Ascii.eqb Bool.eqb andb NUL PERCENT].
  subst file. destruct (findEditFile env) as [path|]; wp_run;
    rewrite ?app_nil_r; auto.
Qed.


(** ** Runs of [Sorry] and [FatalError] *)

Lemma wp_Sorry Q env name description remedy url st :
  wp (Sorry Q env name description remedy url) st
    (fun r st' l =>
       r = Ok tt /\ st' = st /\ forallb is_Cerr l = true /\
       (cerr_fail env = true -> l = []) /\
       (cerr_fail env = false ->
        exists banner rest,
          l = Ev_Cerr endl :: Ev_Cerr banner :: rest /\
          (description <> "" ->
           banner = "Sorry, but " +:+ Q name
                    +:+ " did not succeed for the following reason:"
                    +:+ endl +:+ endl +:+ "  " +:+ description +:+ endl) /\
          (description = "" ->
           banner = "Sorry, but " +:+ Q name +:+ " did not succeed." +:+ endl
           /\
           length rest
           = ((if isLog4cxxConfigured st && bool_decide (is_Some (rollingLogFile env))
               then 1 else 0)
              + (if bool_decide (url = "") then 0 else 1))%nat))).
Proof.
  unfold Sorry. destruct (cerr_fail env).
  { wp_run. repeat split; auto; discriminate. }
  wp_run.
  destruct (bool_decide (description = "")) eqn:Hd.
  - apply bool_decide_eq_true in Hd. wp_run.
    destruct (isLog4cxxConfigured st); wp_run;
      try (destruct (rollingLogFile env) as [file|]; wp_run);
      destruct (bool_decide (url = "")); wp_run;
      (split; [reflexivity|]); (split; [reflexivity|]);
      (split; [reflexivity|]); (split; [discriminate|]); intros _;
      eexists _, _; (split; [reflexivity|]);
      (split; [intros Hne; destruct (Hne Hd)|]);
      intros _; (split; [reflexivity|]);
      try reflexivity;
      cbn [andb app length]; try rewrite bool_decide_true by eauto;
      try rewrite bool_decide_false by (intros [? ?]; discriminate);
      reflexivity.
  - apply bool_decide_eq_false in Hd. wp_run.
    destruct (bool_decide (remedy = "")); wp_run;
      destruct (isLog4cxxConfigured st); wp_run;
      try (destruct (rollingLogFile env) as [file|]; wp_run);
      destruct (bool_decide (url = "")); wp_run;
      (split; [reflexivity|]); (split; [reflexivity|]);
      (split; [reflexivity|]); (split; [discriminate|]); intros _;
      eexists _, _; (split; [reflexivity|]);
      (split; [reflexivity|]); intros He; destruct (Hd He).
Qed.

(** X25: [FatalError] never returns: it always ends with [throw 1] and
    leaves the application object alone. Before that it logs the message at
    fatal level when there is a logger, and, unless [cerr] has failed, prints
    the "Sorry" text with the message as the reason -- also when the quiet
    flag is set. When [cerr] has failed nothing is printed. *)
Theorem FatalError_throws_1 Q env s st :
  let r := FatalError Q env s st in
  result r = Throw (Exn_int 1) /\ final r = st /\
  filter is_Log (calls r)
    = (if logger (pimpl st) then [Ev_Log LOG_FATAL s] else []) /\
  (cerr_fail env = true -> filter is_Cerr (calls r) = []) /\
  (cerr_fail env = false -> s <> "" ->
   exists rest,
     filter is_Cerr (calls r)
     = Ev_Cerr endl
       :: Ev_Cerr ("Sorry, but " +:+ Q GetExeName
                   +:+ " did not succeed for the following reason:"
                   +:+ endl +:+ endl +:+ "  " +:+ s +:+ endl)
       :: rest).
Proof.
  intros r.
  assert (Hfilter : forall l : list Event,
            forallb is_Cerr l = true ->
            filter is_Cerr l = l /\ filter is_Log l = []).
  { induction l as [|e l IH]; [auto|]. cbn [forallb]. intros H.
    apply andb_true_iff in H as [He Hl]. destruct (IH Hl) as [IH1 IH2].
    rewrite !filter_cons, IH1, IH2. destruct e; try discriminate He.
    rewrite decide_True by exact I. rewrite decide_False by (intros []).
    auto. }
  change (wp (FatalError Q env s) st
            (fun r st' l =>
               r = Throw (Exn_int 1) /\ st' = st /\
               filter is_Log l
               = (if logger (pimpl st) then [Ev_Log LOG_FATAL s] else []) /\
               (cerr_fail env = true -> filter is_Cerr l = []) /\
               (cerr_fail env = false -> s <> "" ->
                exists rest,
                  filter is_Cerr l
                  = Ev_Cerr endl
                    :: Ev_Cerr ("Sorry, but " +:+ Q GetExeName
                                +:+ " did not succeed for the following reason:"
                                +:+ endl +:+ endl +:+ "  " +:+ s +:+ endl)
                    :: rest))).
  unfold FatalError. wp_run.
  destruct (logger (pimpl st)); wp_run;
    (eapply wp_mono; [apply wp_Sorry|]);
    intros r0 st' l (-> & -> & Hall & Hfail & Hok); wp_run;
    destruct (Hfilter l Hall) as [Hc Hg];
    rewrite ?app_nil_r; cbn [app]; rewrite ?filter_cons;
    rewrite ?decide_True by exact I; rewrite ?decide_False by (intros []);
    rewrite Hc, Hg;
    (split; [reflexivity|]); (split; [reflexivity|]);
    (split; [reflexivity|]);
    (split; [exact Hfail|]);
    intros Hcerr Hs; destruct (Hok Hcerr) as (banner & rest & -> & Hb & _);
    exists rest; rewrite (Hb Hs); reflexivity.
Qed.


End Application.

(** * The cfg utility *)

Lemma ToStr_length (s : list ascii) :
  (length s <= length (Cfg.ToStr s) <= 2 * length s)%nat.
Proof.
  induction s as [|ch s IH]; cbn [Cfg.ToStr length]; [lia|].
  rewrite length_app.
  destruct (Ascii.eqb ch BACKSLASH); [cbn [length]; lia|].
  destruct (Ascii.eqb ch QUOTE); cbn [length]; lia.
Qed.

(** X26: [ToStr] escapes exactly the backslash and the double quote, each
    with one backslash. Its result read back gives the argument (so
    [ToStr] loses nothing), it can stand between two double quotes (no
    bare quote, no backslash left over at the end), it is at most twice
    as long as the argument, it works character by character, and it is the
    argument itself exactly when that has no backslash and no quote. *)
Theorem ToStr_reads_back (s : list ascii) :
  Cfg.FromStr (Cfg.ToStr s) = s /\
  Cfg.closes_literal (Cfg.ToStr s) = true /\
  (length s <= length (Cfg.ToStr s) <= 2 * length s)%nat /\
  (forall t, Cfg.ToStr (s ++ t) = Cfg.ToStr s ++ Cfg.ToStr t) /\
  (Cfg.ToStr s = s <-> Forall (fun ch => ch <> BACKSLASH /\ ch <> QUOTE) s).
Proof.
  split; [|split; [|split; [apply ToStr_length|split]]].
  - induction s as [|ch s IH]; [reflexivity|]. cbn [Cfg.ToStr].
    destruct (Ascii.eqb ch BACKSLASH) eqn:Hb.
    { apply Ascii.eqb_eq in Hb. subst ch. cbn. rewrite IH. reflexivity. }
    destruct (Ascii.eqb ch QUOTE) eqn:Hq.
    { apply Ascii.eqb_eq in Hq. subst ch. cbn. rewrite IH. reflexivity. }
    cbn [app Cfg.FromStr]. rewrite Hb, IH. reflexivity.
  - induction s as [|ch s IH]; [reflexivity|]. cbn [Cfg.ToStr].
    destruct (Ascii.eqb ch BACKSLASH) eqn:Hb; [cbn; exact IH|].
    destruct (Ascii.eqb ch QUOTE) eqn:Hq; [cbn; exact IH|].
    cbn [app Cfg.closes_literal]. rewrite Hb, Hq. exact IH.
  - intros t. induction s as [|ch s IH]; [reflexivity|].
    cbn [Cfg.ToStr app]. rewrite IH, app_assoc. reflexivity.
  - split.
    + induction s as [|ch s IH]; [constructor|]. cbn [Cfg.ToStr].
      pose proof (ToStr_length s) as Hlen.
      destruct (Ascii.eqb ch BACKSLASH) eqn:Hb.
      { intros H. apply (f_equal (@length ascii)) in H.
        cbn [app length] in H. lia. }
      destruct (Ascii.eqb ch QUOTE) eqn:Hq.
      { intros H. apply (f_equal (@length ascii)) in H.
        cbn [app length] in H. lia. }
      cbn [app]. intros H. injection H as H.
      apply Ascii.eqb_neq in Hb, Hq. constructor; auto.
    + induction 1 as [|ch s [Hb Hq] _ IH]; [reflexivity|].
      cbn [Cfg.ToStr]. apply Ascii.eqb_neq in Hb, Hq.
      rewrite Hb, Hq, IH. reflexivity.
Qed.

Lemma find_equals_In (s : list ascii) :
  In "="%char s -> exists pos, Cfg.find_equals s = Some pos.
Proof.
  induction s as [|ch s IH]; cbn [Cfg.find_equals In]; [tauto|].
  intros H. destruct (Ascii.eqb ch "="%char) eqn:He; [eauto|].
  apply Ascii.eqb_neq in He. destruct H as [H|H]; [congruence|].
  destruct (IH H) as [pos ->]. cbn. eauto.
Qed.

Lemma find_equals_notin (s : list ascii) :
  ~ In "="%char s -> Cfg.find_equals s = None.
Proof.
  induction s as [|ch s IH]; cbn [Cfg.find_equals In]; [reflexivity|].
  intros H. destruct (Ascii.eqb ch "="%char) eqn:He.
  - apply Ascii.eqb_eq in He. exfalso. auto.
  - rewrite IH by tauto. reflexivity.
Qed.

Lemma find_equals_Some (s : list ascii) : forall pos,
  Cfg.find_equals s = Some pos ->
  s = take pos s ++ "="%char :: drop (pos + 1) s /\
  ~ In "="%char (take pos s).
Proof.
  induction s as [|ch s IH]; cbn [Cfg.find_equals]; [discriminate|].
  intros pos. destruct (Ascii.eqb ch "="%char) eqn:He.
  - intros H. injection H as <-. apply Ascii.eqb_eq in He. subst ch.
    cbn. rewrite drop_0. auto.
  - destruct (Cfg.find_equals s) as [pos'|]; cbn [option_map];
      [|discriminate].
    intros H. injection H as <-. destruct (IH pos' eq_refl) as [IH1 IH2].
    cbn [take drop Nat.add app In]. split; [congruence|].
    apply Ascii.eqb_neq in He. intros [H|H]; [congruence|auto].
Qed.

(** The settings the option loop reaches over options that pass. *)
Lemma parse_options_passes (pre : list (Cfg.Option * string)) :
  forall rest s,
    Forall Cfg.passes pre ->
    exists s',
      Cfg.parse_options (pre ++ rest) s = Cfg.parse_options rest s' /\
      Cfg.task s' = match last (omap (fun o => Cfg.task_of (fst o)) pre) with
                    | Some t => t
                    | None => Cfg.task s
                    end /\
      Cfg.values s'
      = Cfg.values s ++ map Cfg.name_value (Cfg.set_value_args pre).
Proof.
  induction pre as [|[o a] pre IH]; intros rest s Hpre.
  - exists s. cbn. rewrite app_nil_r. auto.
  - inversion Hpre as [|? ? [Hv Hs] Hpre']; subst. cbn [fst snd] in Hv, Hs.
    assert (Hlast : forall (t : Cfg.TASK) l d,
              match last (t :: l) with Some x => x | None => d end
              = match last l with Some x => x | None => t end).
    { intros t l d. rewrite last_cons. destruct (last l); reflexivity. }
    destruct o; cbn [app Cfg.parse_options];
      try (match goal with
           | |- context [Cfg.parse_options (pre ++ rest) ?s0] =>
               destruct (IH rest s0 Hpre') as (s' & Hp & Ht & Hvs)
           end;
           exists s'; rewrite Hp, Ht, Hvs;
           cbn [Cfg.task Cfg.values omap list_omap fst snd Cfg.task_of
                Cfg.set_value_args app];
           rewrite ?Hlast, ?app_nil_r; auto; fail).
    + destruct (find_equals_In _ (Hs eq_refl)) as [pos Hpos]. rewrite Hpos.
      destruct (IH rest
                  (Cfg.mkSettings Cfg.TASK_SetValue (Cfg.privateKeyFile s)
                     (Cfg.values s
                      ++ [(Cfg.substr a 0 (Some pos),
                           Cfg.substr a (pos + 1) None)])) Hpre')
        as (s' & Hp & Ht & Hvs).
      exists s'. rewrite Hp, Ht, Hvs.
      cbn [Cfg.task Cfg.values omap list_omap fst snd Cfg.task_of
           Cfg.set_value_args map].
      unfold Cfg.name_value at 2. rewrite Hpos, Hlast, <- app_assoc. auto.
    + destruct Hv. reflexivity.
Qed.

Lemma process_files_read_only exe fs s leftovers :
  Cfg.task s = Cfg.TASK_ComputeDigest \/ Cfg.task s = Cfg.TASK_PrintClasses ->
  existsb Cfg.is_write_call (fst (Cfg.process_files exe fs s leftovers))
  = false.
Proof.
  intros Ht. induction leftovers as [|f rest IH]; [reflexivity|].
  cbn [Cfg.process_files].
  destruct (Cfg.cfg_read fs f) as [[cfg digest]|]; [|reflexivity].
  unfold Cfg.task_calls.
  destruct (Cfg.process_files exe fs s rest) as [calls' exit].
  cbn [fst] in IH.
  destruct Ht as [-> | ->]; cbn [fst existsb Cfg.is_write_call app orb];
    exact IH.
Qed.

Lemma process_files_set_value exe fs s leftovers :
  Cfg.task s = Cfg.TASK_SetValue ->
  Forall (fun f => is_Some (Cfg.cfg_read fs f) /\ Cfg.cfg_write fs f = true)
    leftovers ->
  Cfg.process_files exe fs s leftovers
  = (concat (map (fun f =>
                    Cfg.Cfg_Read f
                    :: map (fun nv => Cfg.Cfg_PutValue "" (fst nv) (snd nv))
                         (Cfg.values s)
                    ++ [Cfg.Cfg_Write f]) leftovers),
     Cfg.Returned).
Proof.
  intros Ht Hfs. induction Hfs as [|f rest [[[cfg digest] Hr] Hw] _ IH];
    [reflexivity|].
  cbn [Cfg.process_files map concat]. rewrite Hr. unfold Cfg.task_calls.
  rewrite Ht, Hw, IH. reflexivity.
Qed.

(** X27: [main] of cfg stops before any file is touched when the options
    end early. Going through the options in order, the first [--version]
    prints the version text and gives exit code 0, and the first
    [--set-value] argument without [=] gives "bad value" on [cerr] and exit
    code 1 -- whichever comes first, and whatever follows. With all options
    passed, an option error reported by popt, or no file name at all, also
    gives one line on [cerr] and exit code 1. *)
Theorem cfg_stops_before_any_file
    exe ver strtol fs popt (pre post : list (Cfg.Option * string)) o :
  Forall Cfg.passes pre ->
  (Cfg.popt_options popt = pre ++ o :: post ->
   (fst o = Cfg.OPT_VERSION ->
    Cfg.main exe ver strtol true fs popt = ([Cfg.Cout ver], 0)) /\
   (fst o = Cfg.OPT_SET_VALUE -> ~ In "="%char (c_str (snd o)) ->
    Cfg.main exe ver strtol true fs popt
    = ([Cfg.Cerr (exe +:+ ": " +:+ "bad value" +:+ endl)], 1))) /\
  (Cfg.popt_options popt = pre ->
   (Cfg.popt_end popt <> -1 ->
    Cfg.main exe ver strtol true fs popt
    = ([Cfg.Cerr (exe +:+ ": "
                  +:+ (Cfg.popt_BadOption popt +:+ ": "
                       +:+ Cfg.popt_Strerror popt) +:+ endl)], 1)) /\
   (Cfg.popt_end popt = -1 -> Cfg.popt_leftovers popt = [] ->
    Cfg.main exe ver strtol true fs popt
    = ([Cfg.Cerr (exe +:+ ": " +:+ "no file name arguments" +:+ endl)], 1))).
Proof.
  intros Hpre. split.
  - intros Hopts.
    destruct (parse_options_passes pre (o :: post)
                (Cfg.mkSettings Cfg.TASK_ComputeDigest "" []) Hpre)
      as (s' & Hp & _).
    unfold Cfg.main, Cfg.Main. rewrite Hopts, Hp. destruct o as [o a].
    cbn [fst snd]. split.
    + intros ->. reflexivity.
    + intros -> Hno. cbn [Cfg.parse_options].
      rewrite (find_equals_notin _ Hno). reflexivity.
  - intros Hopts.
    destruct (parse_options_passes pre []
                (Cfg.mkSettings Cfg.TASK_ComputeDigest "" []) Hpre)
      as (s' & Hp & _).
    rewrite app_nil_r in Hp.
    unfold Cfg.main, Cfg.Main. rewrite Hopts, Hp. cbn [Cfg.parse_options].
    split.
    + intros Hend. apply Z.eqb_neq in Hend. rewrite Hend. reflexivity.
    + intros -> ->. reflexivity.
Qed.

(** X28: [--set-value NAME=VALUE] is cut at the first [=]: the name has no
    [=], the value is everything after it. When the last task option on the
    command line is a [--set-value], every file named is read, gets all the
    given values put -- those of every [--set-value] on the command line, in
    order, also of those given before another task option -- and is written,
    one file after the other, and the exit code is 0. When the last task
    option is [--compute-digest] or [--print-classes], or there is none,
    nothing is put or written. *)
Theorem cfg_set_value_puts_all_values exe ver strtol fs popt :
  Forall Cfg.passes (Cfg.popt_options popt) ->
  Cfg.popt_end popt = -1 ->
  Cfg.popt_leftovers popt <> [] ->
  let opts := Cfg.popt_options popt in
  let nvs := map Cfg.name_value (Cfg.set_value_args opts) in
  Forall (fun a =>
            c_str a = c_str (fst (Cfg.name_value a))
                      ++ "="%char :: c_str (snd (Cfg.name_value a)) /\
            ~ In "="%char (c_str (fst (Cfg.name_value a))))
    (Cfg.set_value_args opts) /\
  (Cfg.last_task opts = Cfg.TASK_SetValue ->
   Forall (fun f => is_Some (Cfg.cfg_read fs f) /\ Cfg.cfg_write fs f = true)
     (Cfg.popt_leftovers popt) ->
   Cfg.main exe ver strtol true fs popt
   = (concat (map (fun f =>
                     Cfg.Cfg_Read f
                     :: map (fun nv => Cfg.Cfg_PutValue "" (fst nv) (snd nv))
                          nvs
                     ++ [Cfg.Cfg_Write f]) (Cfg.popt_leftovers popt)),
      0)) /\
  (Cfg.last_task opts = Cfg.TASK_ComputeDigest \/
   Cfg.last_task opts = Cfg.TASK_PrintClasses ->
   existsb Cfg.is_write_call (fst (Cfg.main exe ver strtol true fs popt))
   = false).
Proof.
  intros Hpass Hend Hleft opts nvs.
  destruct (parse_options_passes opts []
              (Cfg.mkSettings Cfg.TASK_ComputeDigest "" []) Hpass)
    as (s & Hp & Ht & Hv).
  rewrite app_nil_r in Hp. cbn [Cfg.parse_options Cfg.task Cfg.values app] in *.
  fold (Cfg.last_task opts) in Ht. fold nvs in Hv.
  assert (Hmain : Cfg.Main exe ver strtol fs popt
                  = Cfg.process_files strtol fs s (Cfg.popt_leftovers popt)).
  { unfold Cfg.Main. fold opts. rewrite Hp, Hend. cbn [Z.eqb negb].
    destruct (Cfg.popt_leftovers popt); [destruct Hleft|]; reflexivity. }
  split; [|split].
  - apply Forall_forall. intros a Ha. unfold opts, Cfg.set_value_args in Ha.
    apply list_elem_of_omap in Ha as ([o a'] & Hin & Ho).
    cbn [fst snd] in Ho. destruct o; try discriminate Ho.
    injection Ho as ->.
    rewrite Forall_forall in Hpass. destruct (Hpass _ Hin) as [_ Heq].
    pose proof (Heq eq_refl) as Hin2. cbn [snd] in Hin2.
    destruct (find_equals_In _ Hin2) as [pos Hpos].
    unfold Cfg.name_value. rewrite Hpos. cbn [fst snd]. unfold Cfg.substr.
    unfold c_str at 2 3 5.
    rewrite !list_ascii_of_string_of_list_ascii, drop_0.
    destruct (find_equals_Some _ _ Hpos) as [H1 H2]. auto.
  - intros Hlast Hfs. unfold Cfg.main. rewrite Hmain.
    rewrite Hlast in Ht.
    rewrite (process_files_set_value strtol fs s _ Ht Hfs), Hv. reflexivity.
  - intros Hlast. unfold Cfg.main. rewrite Hmain.
    assert (Hro : Cfg.task s = Cfg.TASK_ComputeDigest \/
                  Cfg.task s = Cfg.TASK_PrintClasses) by (rewrite Ht; exact Hlast).
    pose proof (process_files_read_only strtol fs s
                  (Cfg.popt_leftovers popt) Hro) as H.
    destruct (Cfg.process_files strtol fs s (Cfg.popt_leftovers popt))
      as [calls [| r |]]; cbn [fst] in H |- *; [exact H| exact H|].
    rewrite existsb_app, H. reflexivity.
Qed.


(** * MakeTFM *)

Lemma expand_template_plain supplier typeface lit p :
  Forall plain lit ->
  MakeTfm.expand_template supplier typeface (lit ++ p)
  = option_map (app lit) (MakeTfm.expand_template supplier typeface p).
Proof.
  induction 1 as [|c lit [Hp Hn] _ IH].
  - cbn [app]. destruct (MakeTfm.expand_template supplier typeface p);
      reflexivity.
  - cbn [app MakeTfm.expand_template].
    apply Ascii.eqb_neq in Hp, Hn. rewrite Hp, Hn, IH.
    destruct (MakeTfm.expand_template supplier typeface p); reflexivity.
Qed.

(** X29: the destination template of MakeTFM is copied with its
    placeholders replaced where they stand: [%%] by a percent sign, [%s] by
    the supplier, [%t] by the typeface, while [%R] is kept for
    [CreateDirectoryFromTemplate] and [%] with any other character is
    dropped. A template without [%] is unchanged. A template that ends in a
    single [%] makes the loop step over the end of the string. *)
Theorem destination_template_expands supplier typeface lit :
  Forall plain lit ->
  MakeTfm.expand_template supplier typeface lit = Some lit /\
  MakeTfm.expand_template supplier typeface (lit ++ [PERCENT]) = None /\
  (forall d p,
     MakeTfm.expand_template supplier typeface (lit ++ PERCENT :: d :: p)
     = option_map
         (fun x => lit ++ MakeTfm.placeholder supplier typeface d ++ x)
         (MakeTfm.expand_template supplier typeface p)) /\
  MakeTfm.placeholder supplier typeface "R"%char = [PERCENT; "R"%char] /\
  MakeTfm.placeholder supplier typeface "s"%char = supplier /\
  MakeTfm.placeholder supplier typeface "t"%char = typeface /\
  MakeTfm.placeholder supplier typeface "%"%char = [PERCENT].
Proof.
  intros Hlit. split; [|split; [|split]].
  - rewrite <- (app_nil_r lit) at 1.
    rewrite (expand_template_plain _ _ _ _ Hlit). cbn. rewrite app_nil_r.
    reflexivity.
  - rewrite (expand_template_plain _ _ _ _ Hlit). reflexivity.
  - intros d p. rewrite (expand_template_plain _ _ _ _ Hlit).
    cbn [MakeTfm.expand_template].
    change (Ascii.eqb PERCENT NUL) with false.
    change (Ascii.eqb PERCENT PERCENT) with true. cbv iota.
    destruct (MakeTfm.expand_template supplier typeface p); reflexivity.
  - repeat split.
Qed.

(** Case analysis over the steps of a run. *)
Ltac in_cases :=
  unfold is_Some in *;
  repeat match goal with
         | H : _ /\ _ |- _ => destruct H
         | H : _ \/ _ |- _ => destruct H
         | H : exists _, _ |- _ => destruct H
         | H : False |- _ => destruct H
         | H : _ = _ |- _ => discriminate H
         end;
  first [ reflexivity | discriminate | tauto | eauto 6 ].

(** X30: what a run of MakeTFM does, step by step, given what its helpers
    return. A bad command line ends the run with a fatal error before
    anything is made. With a good command line and a destination template
    that expands: when the TFM file exists the run only says so. Otherwise,
    when the METAFONT source is found METAFONT is run on it; when it is not
    found MakeMF is run, and METAFONT is run if MakeMF succeeded; when MakeMF
    failed, hbf2gf is run, and PLtoTF only if hbf2gf succeeded, and METAFONT
    is not run. The TFM file is installed exactly when the last build step
    succeeded, as the last step of the run; a failed METAFONT, hbf2gf or
    PLtoTF ends the run with its fatal error and nothing is installed. *)
Theorem MakeTfm_Run_steps HBF2GF PLTOTF MAKEMF Q env :
  let r := MakeTfm.Run HBF2GF PLTOTF MAKEMF Q env in
  let steps := filter MakeTfm.is_step (fst r) in
  let name := nth (Z.to_nat (MakeTfm.optionIndex env)) (MakeTfm.argv env) "" in
  let wrk := MakeTfm.wrkDir env in
  let font := match MakeTfm.GetFontInfo env name with
              | Some font => font
              | None => ("public", "misc")
              end in
  let tfm := name +:+ ".tfm" in
  let makemf_args :=
    (if MakeTfm.debug env then ["--debug"] else [])
    ++ (if MakeTfm.verbose env then ["--verbose"] else [])
    ++ (if MakeTfm.printOnly env then ["--print-only"] else [])
    ++ [name] in
  let hbf2gf_args :=
    (if MakeTfm.debug env then ["-q"] else []) ++ ["-g"; name; "300"] in
  let pltotf_args := [name +:+ ".pl"; tfm] in
  let makemf := MakeTfm.RunProcess MAKEMF makemf_args wrk in
  let hbf2gf := MakeTfm.RunProcess HBF2GF hbf2gf_args wrk in
  let pltotf := MakeTfm.RunProcess PLTOTF pltotf_args wrk in
  let metafont := MakeTfm.RunMETAFONT name wrk in
  (Z.of_nat (length (MakeTfm.argv env)) - MakeTfm.optionIndex env <> 1 ->
   steps = [MakeTfm.FatalError "Invalid command-line."] /\
   snd r = MakeTfm.Thrown) /\
  (Z.of_nat (length (MakeTfm.argv env)) - MakeTfm.optionIndex env = 1 ->
   forall templ2,
     MakeTfm.expand_template (c_str (fst font)) (c_str (snd font))
       (c_str (MakeTfm.DestDir env)) = Some templ2 ->
     let dest :=
       MakeTfm.directoryFromTemplate env (string_of_list_ascii templ2)
       // tfm in
     let install := MakeTfm.Install (wrk // tfm) dest in
     let after_metafont :=
       if MakeTfm.runMETAFONT env name
       then ([metafont; install], MakeTfm.Done tt)
       else ([metafont;
              MakeTfm.FatalError ("METAFONT failed on " +:+ Q name +:+ ".")],
             MakeTfm.Thrown) in
     (steps, snd r) =
       (if MakeTfm.File_Exists env dest then
          ([MakeTfm.Message ("TFM file " +:+ Q dest +:+ " already exists.")],
           MakeTfm.Done tt)
        else
          match MakeTfm.FindFile_MF env name with
          | Some _ => after_metafont
          | None =>
              if MakeTfm.runProcess env MAKEMF makemf_args then
                (makemf :: fst after_metafont, snd after_metafont)
              else if negb (MakeTfm.runProcess env HBF2GF hbf2gf_args) then
                ([makemf; hbf2gf;
                  MakeTfm.FatalError
                    ("No creation rule for font " +:+ Q name +:+ ".")],
                 MakeTfm.Thrown)
              else if negb (MakeTfm.runProcess env PLTOTF pltotf_args) then
                ([makemf; hbf2gf; pltotf;
                  MakeTfm.FatalError ("PLtoTF failed on " +:+ Q name +:+ ".")],
                 MakeTfm.Thrown)
              else ([makemf; hbf2gf; pltotf; install], MakeTfm.Done tt)
          end) /\
     (In metafont steps <->
      MakeTfm.File_Exists env dest = false /\
      (is_Some (MakeTfm.FindFile_MF env name) \/
       MakeTfm.runProcess env MAKEMF makemf_args = true)) /\
     (In install steps <-> last steps = Some install) /\
     (In install steps <->
      snd r = MakeTfm.Done tt /\ MakeTfm.File_Exists env dest = false)).
Proof.
  intros r steps name wrk font tfm makemf_args hbf2gf_args pltotf_args
    makemf hbf2gf pltotf metafont.
  split.
  - intros Hbad. subst r steps. unfold MakeTfm.Run.
    cbn [MakeTfm.mbind MakeTfm.call].
    destruct (Z.eqb_spec (Z.of_nat (length (MakeTfm.argv env))
                          - MakeTfm.optionIndex env) 1) as [E|E];
      [contradiction|]. split; reflexivity.
  - intros Hgood templ2 Htempl dest install after_metafont.
    assert (Htable : (steps, snd r) =
       (if MakeTfm.File_Exists env dest then
          ([MakeTfm.Message ("TFM file " +:+ Q dest +:+ " already exists.")],
           MakeTfm.Done tt)
        else
          match MakeTfm.FindFile_MF env name with
          | Some _ => after_metafont
          | None =>
              if MakeTfm.runProcess env MAKEMF makemf_args then
                (makemf :: fst after_metafont, snd after_metafont)
              else if negb (MakeTfm.runProcess env HBF2GF hbf2gf_args) then
                ([makemf; hbf2gf;
                  MakeTfm.FatalError
                    ("No creation rule for font " +:+ Q name +:+ ".")],
                 MakeTfm.Thrown)
              else if negb (MakeTfm.runProcess env PLTOTF pltotf_args) then
                ([makemf; hbf2gf; pltotf;
                  MakeTfm.FatalError ("PLtoTF failed on " +:+ Q name +:+ ".")],
                 MakeTfm.Thrown)
              else ([makemf; hbf2gf; pltotf; install], MakeTfm.Done tt)
          end)).
    { subst r steps after_metafont.
      unfold MakeTfm.Run, MakeTfm.CreateDestinationDirectory,
        MakeTfm.MakeFromHBF.
      fold name. fold wrk. fold font. fold tfm.
      cbn [MakeTfm.mbind MakeTfm.call].
      rewrite Hgood. cbn [Z.eqb Pos.eqb negb MakeTfm.mbind MakeTfm.call].
      destruct font as [supplier typeface]. cbn [fst snd] in Htempl.
      rewrite Htempl.
      cbn [MakeTfm.mbind MakeTfm.call MakeTfm.mret app]. fold dest.
      destruct (MakeTfm.File_Exists env dest); [reflexivity|].
      destruct (MakeTfm.FindFile_MF env name) as [mfPath|].
      { cbn [MakeTfm.mbind MakeTfm.call MakeTfm.mret app].
        destruct (MakeTfm.runMETAFONT env name); reflexivity. }
      cbn [MakeTfm.mbind MakeTfm.call MakeTfm.mret app].
      fold makemf_args. fold hbf2gf_args. fold pltotf_args.
      destruct (MakeTfm.runProcess env MAKEMF makemf_args);
        cbn [negb MakeTfm.mbind MakeTfm.call MakeTfm.mret app].
      { destruct (MakeTfm.runMETAFONT env name); reflexivity. }
      destruct (MakeTfm.runProcess env HBF2GF hbf2gf_args);
        cbn [negb MakeTfm.mbind MakeTfm.call MakeTfm.mret MakeTfm.fatal app];
        [|reflexivity].
      destruct (MakeTfm.runProcess env PLTOTF pltotf_args); reflexivity. }
    split; [exact Htable|].
    assert (Hs : steps = fst (steps, snd r)) by reflexivity.
    assert (Hr : snd r = snd (steps, snd r)) by reflexivity.
    rewrite Htable in Hs, Hr. rewrite Hs, Hr. clear Hs Hr Htable.
    subst after_metafont.
    generalize ("TFM file " +:+ Q dest +:+ " already exists.").
    generalize ("METAFONT failed on " +:+ Q name +:+ ".").
    generalize ("No creation rule for font " +:+ Q name +:+ ".").
    generalize ("PLtoTF failed on " +:+ Q name +:+ ".").
    intros t1 t2 t3 t4.
    clearbody dest makemf_args hbf2gf_args pltotf_args tfm wrk name.
    clear r steps font Htempl Hgood.
    destruct (MakeTfm.File_Exists env dest).
    { cbn [fst snd In last]. repeat split; intros; in_cases. }
    destruct (MakeTfm.FindFile_MF env name) as [mfPath|].
    { destruct (MakeTfm.runMETAFONT env name); cbn [fst snd In last];
        repeat split; intros; in_cases. }
    destruct (MakeTfm.runProcess env MAKEMF makemf_args).
    { destruct (MakeTfm.runMETAFONT env name); cbn [fst snd In last];
        repeat split; intros; in_cases. }
    destruct (MakeTfm.runProcess env HBF2GF hbf2gf_args); cbn [negb].
    2: { cbn [fst snd In last]. repeat split; intros; in_cases. }
    destruct (MakeTfm.runProcess env PLTOTF pltotf_args); cbn [negb];
      cbn [fst snd In last]; repeat split; intros; in_cases.
Qed.


(** ** Concrete runs *)

Local Abbreviation AutoMaintenance_sample :=
  (AutoMaintenance sample_LANGUAGE_DAT sample_LANGUAGES_INI
     sample_PACKAGE_MANIFESTS_INI sample_AUTO_MAINTENANCE_LOCK
     sample_MIKTEX_EXE sample_stem sample_platform).

Local Abbreviation InstallPackage_sample :=
  (InstallPackage sample_YES sample_DONTASKAGAIN sample_ADMIN).

Local Abbreviation Init_sample :=
  (Init sample_LANGUAGE_DAT sample_LANGUAGES_INI
     sample_PACKAGE_MANIFESTS_INI sample_AUTO_MAINTENANCE_LOCK
     sample_MIKTEX_EXE sample_stem sample_GetExeName sample_platform
     sample_Q sample_process).

(** C8, claim as stated: with 150 messages recorded into an empty queue the
    101st message does not empty the queue; all 101 messages are pending. *)
Lemma queue_not_cleared_at_101st :
  ~ cleared_at_101st
      (sample_app (sample_session false true) TriState_True TriState_True)
      sample_messages.
Proof.
  unfold cleared_at_101st. intros H. apply (f_equal length) in H.
  vm_compute in H. discriminate H.
Qed.

(** C8, run: 150 messages into an empty queue leave the last 49. *)
Lemma Trace_queue_discarded_above_100_witness :
  let st := sample_app (sample_session false true) TriState_True TriState_True in
  isLog4cxxConfigured st = false /\
  pending st = [] /\
  length sample_messages = 150%nat /\
  pending (Trace_all sample_messages st) = drop 101 sample_messages /\
  length (pending (Trace_all sample_messages st)) = 49%nat.
Proof.
  intros st.
  destruct (Trace_queue_discarded_above_100 st sample_messages eq_refl)
    as [_ H].
  destruct (H eq_refl eq_refl) as (_ & _ & H1 & H2).
  split; [reflexivity|]. split; [reflexivity|]. split; [reflexivity|].
  split; [exact H1 | exact H2].
Defined.

(** C2, claim as stated: in user mode, with no language.dat and no package
    manifest file, neither decision is [NeedsRefresh] of its source and the
    missing file: the code says false where the contract says true. *)
Lemma missing_file_is_not_stale :
  let s := sample_session false true in
  mustRefreshUserLanguageDat sample_LANGUAGE_DAT sample_LANGUAGES_INI s ∅
  <> Some (NeedsRefresh (GetConfigValue_TimeT s CORE_LAST_ADMIN_MAINTENANCE)
             (File_GetLastWriteTime ∅ (userLanguageDat sample_LANGUAGE_DAT s)))
  /\
  mustUpdateDb sample_PACKAGE_MANIFESTS_INI s ∅
  <> Some (NeedsRefresh (GetConfigValue_TimeT s MPM_LAST_ADMIN_UPDATE_DB)
             (File_GetLastWriteTime ∅
                (userPackageManifestsIni sample_PACKAGE_MANIFESTS_INI s))).
Proof. split; vm_compute; discriminate. Qed.

(** C3, run: an admin-mode session whose file-name database is missing. *)
Lemma admin_mode_only_missing_fndb_witness :
  let st := sample_app (sample_session true true) TriState_True TriState_True in
  let env := sample_maintenance ∅ true in
  IsAdminMode (session (pimpl st)) = true /\
  existsb is_refresh_action (calls (AutoMaintenance_sample env st)) = true /\
  File_Exists (files env) (GetMpmDatabasePathName (session (pimpl st))) = false.
Proof.
  intros st env.
  destruct (admin_mode_only_missing_fndb sample_LANGUAGE_DAT
              sample_LANGUAGES_INI sample_PACKAGE_MANIFESTS_INI
              sample_AUTO_MAINTENANCE_LOCK sample_MIKTEX_EXE sample_stem
              sample_platform env st eq_refl) as (_ & _ & _ & H).
  assert (Hact : existsb is_refresh_action
                   (calls (AutoMaintenance_sample env st)) = true)
    by (vm_compute; reflexivity).
  split; [reflexivity|]. split; [exact Hact|]. exact (H Hact).
Defined.

(** C4, run: everything is stale, the lock is free and every helper run
    fails with exit code 1; all four steps are made, in order. *)
Lemma maintenance_steps_in_order_witness :
  let st := sample_app (sample_session false true) TriState_True TriState_True in
  let env := sample_maintenance sample_files_stale true in
  lock_acquired env (calls (AutoMaintenance_sample env st)) = true /\
  steps_of (calls (AutoMaintenance_sample env st))
  = [Step_UpdateDb; Step_Fndb; Step_Fontmaps; Step_Languages].
Proof.
  intros st env.
  assert (Hf : mustRefreshFndb (session (pimpl st)) (files env) = Some true)
    by (vm_compute; reflexivity).
  assert (Hl : mustRefreshUserLanguageDat sample_LANGUAGE_DAT
                 sample_LANGUAGES_INI (session (pimpl st)) (files env)
               = Some true) by (vm_compute; reflexivity).
  assert (Hd : mustUpdateDb sample_PACKAGE_MANIFESTS_INI (session (pimpl st))
                 (files env) = Some true) by (vm_compute; reflexivity).
  assert (Hlock : lock_acquired env (calls (AutoMaintenance_sample env st))
                  = true) by (vm_compute; reflexivity).
  destruct (maintenance_steps_in_order sample_LANGUAGE_DAT
              sample_LANGUAGES_INI sample_PACKAGE_MANIFESTS_INI
              sample_AUTO_MAINTENANCE_LOCK sample_MIKTEX_EXE sample_stem
              sample_platform env st true true true Hf Hl Hd Hlock) as (_ & H & _).
  split; [exact Hlock|]. apply H. right. reflexivity.
Defined.

(** C5, runs: everything stale with the lock held elsewhere; and nothing
    stale. *)
Lemma lock_held_or_nothing_stale_witness :
  let st := sample_app (sample_session false true) TriState_True TriState_True in
  (let env := sample_maintenance sample_files_stale false in
   result (AutoMaintenance_sample env st) = Ok tt /\
   final (AutoMaintenance_sample env st) = st /\
   existsb is_refresh_action (calls (AutoMaintenance_sample env st)) = false) /\
  (let env := sample_maintenance sample_files_fresh true in
   result (AutoMaintenance_sample env st) = Ok tt /\
   calls (AutoMaintenance_sample env st) = []).
Proof.
  intros st. split; intros env.
  - destruct (lock_held_or_nothing_stale sample_LANGUAGE_DAT
                sample_LANGUAGES_INI sample_PACKAGE_MANIFESTS_INI
                sample_AUTO_MAINTENANCE_LOCK sample_MIKTEX_EXE sample_stem
                sample_platform env st) as [H _].
    destruct H as (H1 & H2 & H3 & _).
    + vm_compute; reflexivity.
    + left. vm_compute; reflexivity.
    + vm_compute; reflexivity.
    + auto.
  - destruct (lock_held_or_nothing_stale sample_LANGUAGE_DAT
                sample_LANGUAGES_INI sample_PACKAGE_MANIFESTS_INI
                sample_AUTO_MAINTENANCE_LOCK sample_MIKTEX_EXE sample_stem
                sample_platform env st) as [_ H].
    destruct H as (_ & H); [vm_compute; reflexivity ..|].
    destruct H as (H1 & _ & H3); [vm_compute; reflexivity|]. auto.
Defined.

(** C10, runs: with everything stale and the lock free the font-map step is
    made, as is the file-name database step; with only language.dat stale no
    font-map step is made. *)
Lemma fontmaps_share_fndb_gate_witness :
  let st := sample_app (sample_session false true) TriState_True TriState_True in
  (let env := sample_maintenance sample_files_stale true in
   In Step_Fontmaps (steps_of (calls (AutoMaintenance_sample env st))) /\
   In Step_Fndb (steps_of (calls (AutoMaintenance_sample env st)))) /\
  (let env := sample_maintenance sample_files_language_only true in
   ~ In Step_Fontmaps (steps_of (calls (AutoMaintenance_sample env st))) /\
   steps_of (calls (AutoMaintenance_sample env st)) = [Step_Languages]).
Proof.
  intros st. split; intros env.
  - destruct (fontmaps_share_fndb_gate sample_LANGUAGE_DAT
                sample_LANGUAGES_INI sample_PACKAGE_MANIFESTS_INI
                sample_AUTO_MAINTENANCE_LOCK sample_MIKTEX_EXE sample_stem
                sample_platform env st true true true)
      as (Hsame & _ & Hrun); [vm_compute; reflexivity ..|].
    destruct Hrun as (Hiff & _).
    + vm_compute; reflexivity.
    + exists "/common/bin/miktex". reflexivity.
    + vm_compute; reflexivity.
    + right. reflexivity.
    + assert (Hin : In Step_Fontmaps
                      (steps_of (calls (AutoMaintenance_sample env st))))
        by (apply Hiff; reflexivity).
      split; [exact Hin|]. apply Hsame. exact Hin.
  - destruct (fontmaps_share_fndb_gate sample_LANGUAGE_DAT
                sample_LANGUAGES_INI sample_PACKAGE_MANIFESTS_INI
                sample_AUTO_MAINTENANCE_LOCK sample_MIKTEX_EXE sample_stem
                sample_platform env st false true false)
      as (_ & Honly & Hrun); [vm_compute; reflexivity ..|].
    split.
    + intros Hin. discriminate (Honly Hin).
    + destruct Hrun as (_ & _ & Hlang).
      * vm_compute; reflexivity.
      * exists "/common/bin/miktex". reflexivity.
      * vm_compute; reflexivity.
      * right. reflexivity.
      * apply Hlang; reflexivity.
Defined.

(** C7, run: the installer is disabled. *)
Lemma InstallPackage_rejected_witness :
  let st := sample_app (sample_session false true) TriState_False TriState_True in
  let env := sample_install sample_YES None in
  enableInstaller (pimpl st) = TriState_False /\
  result (InstallPackage_sample env "pkg" "paper.tex" "" st) = Ok (false, "") /\
  calls (InstallPackage_sample env "pkg" "paper.tex" "" st) = [].
Proof.
  intros st env.
  destruct (InstallPackage_rejected sample_YES sample_DONTASKAGAIN sample_ADMIN
              env "pkg" "paper.tex" "" st) as (H1 & _ & H3).
  - right. reflexivity.
  - auto.
Defined.

(** Runs with the installer enabled, auto-admin [True] and the session in
    user mode: the installer succeeds, or throws a [MiKTeXException]. *)
Lemma scoped_elevation_restored_witness :
  let st := sample_app (sample_session false true) TriState_True TriState_True in
  (let env := sample_install 0 None in
   existsb is_elevation
     (calls (InstallPackage_sample env "pkg" "paper.tex" "" st)) = true /\
   result (InstallPackage_sample env "pkg" "paper.tex" "" st)
     = Ok (true, "/common") /\
   IsAdminMode
     (session (pimpl (final (InstallPackage_sample env "pkg" "paper.tex" "" st))))
   = false) /\
  (let env := sample_install 0 (Some sample_failure) in
   existsb is_elevation
     (calls (InstallPackage_sample env "pkg" "paper.tex" "" st)) = true /\
   result (InstallPackage_sample env "pkg" "paper.tex" "" st)
     = Ok (false, "") /\
   IsAdminMode
     (session (pimpl (final (InstallPackage_sample env "pkg" "paper.tex" "" st))))
   = false).
Proof.
  intros st. split; intros env.
  - assert (He : existsb is_elevation
                   (calls (InstallPackage_sample env "pkg" "paper.tex" "" st))
                 = true) by (vm_compute; reflexivity).
    assert (Hr : result (InstallPackage_sample env "pkg" "paper.tex" "" st)
                 = Ok (true, "/common")) by (vm_compute; reflexivity).
    destruct (scoped_elevation_restored sample_YES sample_DONTASKAGAIN
                sample_ADMIN env "pkg" "paper.tex" "" st He) as (_ & _ & H).
    split; [exact He|]. split; [exact Hr|]. exact (H _ Hr).
  - assert (He : existsb is_elevation
                   (calls (InstallPackage_sample env "pkg" "paper.tex" "" st))
                 = true) by (vm_compute; reflexivity).
    assert (Hr : result (InstallPackage_sample env "pkg" "paper.tex" "" st)
                 = Ok (false, "")) by (vm_compute; reflexivity).
    destruct (scoped_elevation_restored sample_YES sample_DONTASKAGAIN
                sample_ADMIN env "pkg" "paper.tex" "" st He) as (_ & _ & H).
    split; [exact He|]. split; [exact Hr|]. exact (H _ Hr).
Defined.

(** C1, failing run: the installer is enabled, auto-admin is [True], the
    session is in user mode, and the installer throws an exception that is
    not a [MiKTeXException]. [InstallPackage] has switched the session to
    admin mode, the exception passes the handler and the switch back, and the
    session is left in admin mode: the flag is not the one before the call. *)
Lemma elevation_survives_foreign_exception :
  let st := sample_app (sample_session false true) TriState_True TriState_True in
  let r := InstallPackage_sample (sample_install 0 (Some Exn_other))
             "pkg" "paper.tex" "" st in
  IsAdminMode (session (pimpl st)) = false /\
  result r = Throw Exn_other /\
  mode_trace (calls r) = [Ev_SetAdminMode true; Ev_InstallRemove] /\
  IsAdminMode (session (pimpl (final r))) = true.
Proof. vm_compute. repeat split. Qed.

(** C6, run: the installer throws a [MiKTeXException]. *)
Lemma installer_failure_contained_witness :
  let st := sample_app (sample_session false true) TriState_True TriState_False in
  let env := sample_install 0 (Some sample_failure) in
  existsb is_InstallRemove
    (calls (InstallPackage_sample env "pkg" "paper.tex" "" st)) = true /\
  result (InstallPackage_sample env "pkg" "paper.tex" "" st) = Ok (false, "") /\
  enableInstaller
    (pimpl (final (InstallPackage_sample env "pkg" "paper.tex" "" st)))
  = TriState_False /\
  "pkg" ∈ ignoredPackages
            (pimpl (final (InstallPackage_sample env "pkg" "paper.tex" "" st))).
Proof.
  intros st env.
  assert (Hi : existsb is_InstallRemove
                 (calls (InstallPackage_sample env "pkg" "paper.tex" "" st))
               = true) by (vm_compute; reflexivity).
  destruct (installer_failure_contained sample_YES sample_DONTASKAGAIN
              sample_ADMIN env "pkg" "paper.tex" "" st) as [H _].
  destruct (H Hi eq_refl) as (H1 & H2 & H3). auto.
Defined.

(** C9, runs: [AutoAdmin] is [True] in the configuration. Outside a shared
    setup [Init] turns the policy off; in a shared setup a later installation
    switches to admin mode without asking. *)
Lemma auto_admin_only_in_shared_setup_witness :
  let env := sample_maintenance sample_files_fresh true in
  let st0 :=
    sample_app (sample_session false true) TriState_Undetermined
      TriState_Undetermined in
  (let created := sample_session false false in
   GetConfigValue_TriState created MPM_AUTOADMIN = TriState_True /\
   IsSharedSetup created = false /\
   mpmAutoAdmin (pimpl (final (Init_sample created env st0))) = TriState_False) /\
  (let created := sample_session false true in
   let cs := [mkInstallCall (sample_install 0 None) "pkg" "paper.tex" ""] in
   let evs :=
     snd (InstallPackage_all sample_YES sample_DONTASKAGAIN sample_ADMIN cs
            (final (Init_sample created env st0))) in
   existsb is_MessageBox evs = false /\
   existsb is_elevation evs = true /\
   IsSharedSetup created = true).
Proof.
  intros env st0. split.
  - intros created.
    destruct (auto_admin_only_in_shared_setup sample_LANGUAGE_DAT
                sample_LANGUAGES_INI sample_PACKAGE_MANIFESTS_INI
                sample_AUTO_MAINTENANCE_LOCK sample_MIKTEX_EXE sample_stem
                sample_YES sample_DONTASKAGAIN sample_ADMIN
                sample_GetExeName sample_platform sample_Q sample_process
                created env st0 []) as [H _].
    destruct (H eq_refl eq_refl) as [H1 _]. auto.
  - intros created cs evs.
    assert (Hb : existsb is_MessageBox evs = false) by (vm_compute; reflexivity).
    assert (He : existsb is_elevation evs = true) by (vm_compute; reflexivity).
    destruct (auto_admin_only_in_shared_setup sample_LANGUAGE_DAT
                sample_LANGUAGES_INI sample_PACKAGE_MANIFESTS_INI
                sample_AUTO_MAINTENANCE_LOCK sample_MIKTEX_EXE sample_stem
                sample_YES sample_DONTASKAGAIN sample_ADMIN
                sample_GetExeName sample_platform sample_Q sample_process
                created env st0 cs) as (_ & _ & H).
    destruct (H Hb He) as [H1 _]. auto.
Defined.

(** X2, run: three messages traced before logging is configured, a fourth
    after. *)
Lemma Trace_delivers_buffered_in_order_witness :
  let st := sample_app (sample_session false true) TriState_True TriState_True in
  let ms := map sample_message [1; 2; 3]%nat in
  let r := Trace (sample_message 4)
             (final (ConfigureLogging (Trace_all ms st))) in
  result r = Ok true /\
  calls r = map Ev_TraceSink (map sample_message [1; 2; 3; 4]%nat) /\
  pending (final r) = [].
Proof.
  intros st ms r.
  apply (Trace_delivers_buffered_in_order st ms (sample_message 4));
    [reflexivity|reflexivity|cbn; lia].
Defined.

(** X4, run: a user-mode session with auto-admin on; the installation root
    reported is the one of admin mode. *)
Lemma installRoot_of_install_mode_witness :
  let st := sample_app (sample_session false true) TriState_True TriState_True in
  let env := sample_install 0 None in
  result (InstallPackage_sample env "pkg" "paper.tex" "" st)
    = Ok (true, "/common") /\
  "/common" = specialPath (session (pimpl st))
                (autoAdmin_in_force sample_ADMIN env "pkg" "paper.tex" st
                 || adminMode (session (pimpl st)))
                SpecialPath_InstallRoot.
Proof.
  intros st env.
  assert (Hr : result (InstallPackage_sample env "pkg" "paper.tex" "" st)
               = Ok (true, "/common")) by (vm_compute; reflexivity).
  split; [exact Hr|].
  exact (installRoot_of_install_mode sample_YES sample_DONTASKAGAIN sample_ADMIN
           env "pkg" "paper.tex" "" st "/common" Hr).
Defined.

(** X7, run: the package was declined at the prompt; the installer is then
    enabled, and the package is still rejected without a call. *)
Lemma declined_package_stays_rejected_witness :
  let st0 :=
    sample_app (sample_session false true) TriState_Undetermined TriState_True in
  let st := final (InstallPackage_sample (sample_install 0 None)
                     "pkg" "paper.tex" "" st0) in
  let st2 := final (EnableInstaller TriState_True st) in
  let r := InstallPackage_sample (sample_install sample_YES None)
             "pkg" "paper.tex" "" st2 in
  "pkg" ∈ ignoredPackages (pimpl st) /\
  result r = Ok (false, "") /\ calls r = [] /\ final r = st2.
Proof.
  intros st0 st st2 r.
  assert (Hin : "pkg" ∈ ignoredPackages (pimpl st))
    by (vm_compute; reflexivity).
  split; [exact Hin|].
  exact (declined_package_stays_rejected sample_YES sample_DONTASKAGAIN
           sample_ADMIN st "pkg" [] TriState_True
           (sample_install sample_YES None) "paper.tex" "" Hin).
Defined.

(** X8, run: the prompt is answered "yes, don't ask again"; two more
    requests follow without a prompt. *)
Lemma no_prompt_once_decided_witness :
  let st :=
    sample_app (sample_session false true) TriState_Undetermined TriState_True in
  let env := sample_install (sample_YES + sample_DONTASKAGAIN) None in
  let r := InstallPackage_sample env "pkg" "paper.tex" "" st in
  let cs := [mkInstallCall env "pkg2" "paper.tex" "";
             mkInstallCall env "pkg3" "paper.tex" ""] in
  existsb is_MessageBox (calls r) = true /\
  existsb is_MessageBox
    (snd (InstallPackage_all sample_YES sample_DONTASKAGAIN sample_ADMIN cs
            (final r))) = false.
Proof.
  intros st env r cs.
  assert (Hbox : existsb is_MessageBox (calls r) = true)
    by (vm_compute; reflexivity).
  split; [exact Hbox|].
  destruct (no_prompt_once_decided sample_YES sample_DONTASKAGAIN sample_ADMIN
              env "pkg" "paper.tex" "" st cs) as [_ H].
  apply H; [exact Hbox|vm_compute; discriminate].
Defined.

(** X9, run: the prompt is answered "no". *)
Lemma declined_prompt_ignores_package_witness :
  let st :=
    sample_app (sample_session false true) TriState_Undetermined TriState_True in
  let env := sample_install 0 None in
  let r := InstallPackage_sample env "pkg" "paper.tex" "" st in
  result r = Ok (false, "") /\
  ignoredPackages (pimpl (final r)) = {["pkg"]} ∪ ∅ /\
  enableInstaller (pimpl (final r)) = TriState_Undetermined /\
  calls r = [Ev_PackageManager_Create; Ev_UI_InitializeFramework;
             Ev_InstallPackageMessageBox "pkg" "paper.tex"].
Proof.
  intros st env r.
  destruct (declined_prompt_ignores_package sample_YES sample_DONTASKAGAIN
              sample_ADMIN env "pkg" "paper.tex" "" st)
    as (H1 & H2 & _ & _ & H5 & H6).
  - apply not_elem_of_empty.
  - reflexivity.
  - reflexivity.
  - split; [exact H1|]. split; [exact H2|]. split; [exact H5|exact H6].
Defined.

(** X10, run: the proxy needs credentials and the dialog is cancelled. *)
Lemma cancelled_proxy_dialog_keeps_package_witness :
  let st := sample_app (sample_session false true) TriState_True TriState_True in
  let env := sample_install_proxy false in
  let r := InstallPackage_sample env "pkg" "paper.tex" "" st in
  existsb is_ProxyAuthenticationDialog (calls r) = true /\
  result r = Ok (false, "") /\
  ignoredPackages (pimpl (final r)) = ∅ /\
  installer_requests (calls r) = [].
Proof.
  intros st env r.
  assert (Hshown : existsb is_ProxyAuthenticationDialog (calls r) = true)
    by (vm_compute; reflexivity).
  split; [exact Hshown|].
  destruct (cancelled_proxy_dialog_keeps_package sample_YES sample_DONTASKAGAIN
              sample_ADMIN env "pkg" "paper.tex" "" st Hshown) as [_ H].
  destruct (H eq_refl) as (H1 & H2 & _ & H4 & _).
  split; [exact H1|]. split; [exact H2|exact H4].
Defined.

(** X11, run: everything is stale in a user-mode session with the installer
    enabled; the file-name database refresh is one of the helper runs. *)
Lemma helpers_run_with_common_arguments_witness :
  let st := sample_app (sample_session false true) TriState_True TriState_True in
  let env := sample_maintenance sample_files_stale true in
  let args := ["miktex"; "--enable-installer"; "--quiet"; "fndb"; "refresh"] in
  In (Ev_Process_Run "/common/bin/miktex" args)
     (calls (AutoMaintenance_sample env st)) /\
  findFile env sample_MIKTEX_EXE = Some "/common/bin/miktex" /\
  exists sub cmd,
    In (sub, cmd) helper_commands /\
    args = commonArgs sample_stem "/common/bin/miktex" st ++ [sub; cmd].
Proof.
  intros st env args.
  assert (Hin : In (Ev_Process_Run "/common/bin/miktex" args)
                   (calls (AutoMaintenance_sample env st))).
  { vm_compute. repeat (first [left; reflexivity | right]). }
  split; [exact Hin|].
  exact (helpers_run_with_common_arguments sample_LANGUAGE_DAT
           sample_LANGUAGES_INI sample_PACKAGE_MANIFESTS_INI
           sample_AUTO_MAINTENANCE_LOCK sample_MIKTEX_EXE sample_stem
           sample_platform env st "/common/bin/miktex" args Hin).
Defined.

(** X15, runs: maintenance switched off; and a fresh installation. *)
Lemma Init_maintenance_switch_witness :
  let env := sample_maintenance sample_files_stale true in
  (let st := with_pimpl (set_enableMaintenance TriState_False)
               (sample_app (sample_session false true) TriState_True
                  TriState_True) in
   result (Init_sample (sample_session false true) env st) = Ok tt /\
   existsb is_TryLock
     (calls (Init_sample (sample_session false true) env st)) = false /\
   existsb is_refresh_action
     (calls (Init_sample (sample_session false true) env st)) = false) /\
  (let st := sample_app (sample_session false true) TriState_True
               TriState_True in
   let created :=
     mkSession false true false false (fun _ => None) (fun _ => TriState_True)
       (fun _ _ => "/home/u") (fun _ => "/home/u/mpm.fndb") in
   result (Init_sample created env st) = Throw (Exn_int 1) /\
   last (calls (Init_sample created env st))
     = Some (Ev_Cerr (fresh_installation_notice sample_platform))).
Proof.
  intros env. split.
  - intros st.
    destruct (Init_maintenance_switch sample_LANGUAGE_DAT
                sample_LANGUAGES_INI sample_PACKAGE_MANIFESTS_INI
                sample_AUTO_MAINTENANCE_LOCK sample_MIKTEX_EXE sample_stem
                sample_GetExeName sample_platform sample_Q sample_process
                (sample_session false true) env st) as [H _].
    exact (H eq_refl).
  - intros st created.
    destruct (Init_maintenance_switch sample_LANGUAGE_DAT
                sample_LANGUAGES_INI sample_PACKAGE_MANIFESTS_INI
                sample_AUTO_MAINTENANCE_LOCK sample_MIKTEX_EXE sample_stem
                sample_GetExeName sample_platform sample_Q sample_process
                created env st) as [_ H].
    destruct H as (_ & H); [vm_compute; discriminate|].
    destruct (H eq_refl) as (H1 & H2 & _). split; [exact H1|exact H2].
Defined.

(** X17, run: a format file is made in a user-mode session with the
    installer enabled. *)
Lemma TryCreateFile_command_line_witness :
  let st := sample_app (sample_session false true) TriState_True TriState_True in
  let run := TryCreateFile sample_MIKTEX_EXE sample_stem "maketfm" "app.cpp"
               sample_create "plain.fmt" FileType_FMT st in
  let args := ["miktex"; "--enable-installer"; "formats"; "build"; "miktex";
               "--engine"; "pdftex"] in
  In (Ev_Process_Run "/common/bin/miktex" args) (calls run) /\
  count is_Process_Run (calls run) = 1%nat.
Proof.
  intros st run args.
  assert (Hin : In (Ev_Process_Run "/common/bin/miktex" args) (calls run)).
  { vm_compute. repeat (first [left; reflexivity | right]). }
  split; [exact Hin|].
  exact (proj2 (proj2 (TryCreateFile_command_line sample_MIKTEX_EXE sample_stem
                         "maketfm" "app.cpp" sample_create "plain.fmt"
                         FileType_FMT st "/common/bin/miktex" args Hin))).
Defined.

(** X22, run: the configured editor is just a program name. *)
Lemma InvokeEditor_program_from_template_witness :
  let st := sample_app (sample_session false true) TriState_True TriState_True in
  let r := InvokeEditor_command "texworks" (fun s => s)
             (sample_editor (Some "notepad")) "paper.tex" 12 "paper.log" st in
  result r = Ok None /\ calls r = [Ev_FindFile "texworks"].
Proof.
  intros st r.
  destruct (InvokeEditor_program_from_template "texworks" (fun s => s)
              (sample_editor (Some "notepad")) "paper.tex" 12 "paper.log" st
              "notepad" eq_refl) as (_ & H & _).
  apply H. repeat (constructor; [discriminate|]). constructor.
Defined.

(** X23, run: the line number is put where [%l] stands. *)
Lemma placeholders_expand_in_place_witness :
  let st := sample_app (sample_session false true) TriState_True TriState_True in
  result (expand_placeholders (sample_editor None) "paper.tex" 12 "paper.log"
            (c_str "-p=%l") st) = Ok (c_str "-p=12").
Proof.
  intros st.
  destruct (placeholders_expand_in_place (sample_editor None) "paper.tex" 12
              "paper.log" (c_str "-p=") st) as (_ & _ & H).
  - repeat (constructor; [split; discriminate|]). constructor.
  - destruct (H "l"%char []) as (_ & x & Hx & Hr & _); [discriminate|].
    injection Hx as <-. exact Hr.
Defined.

(** X24, run: nothing is configured. *)
Lemma InvokeEditor_falls_back_to_notepad_witness :
  let st := sample_app (sample_session false true) TriState_True TriState_True in
  let r := InvokeEditor_command "texworks" (fun s => s) (sample_editor None)
             "paper.tex" 12 "paper.log" st in
  result r
  = Ok (Some ("notepad",
              string_of_list_ascii
                (c_str "notepad " ++ QUOTE :: c_str "/home/u/paper.tex"
                 ++ [QUOTE]))) /\
  calls r = [Ev_FindFile "texworks"; Ev_FindFile "paper.tex"].
Proof.
  intros st r.
  destruct (InvokeEditor_falls_back_to_notepad "texworks" (fun s => s)
              (sample_editor None) "paper.tex" 12 "paper.log" st)
    as (H1 & H2 & _); [reflexivity|reflexivity|right; reflexivity|].
  split; [exact H1|exact H2].
Defined.

(** X27, run: [--set-value novalue] comes before [--version]. *)
Lemma cfg_stops_before_any_file_witness :
  Cfg.main "cfg" "cfg 4.9" (fun _ => 0%nat) true sample_cfg_files
    sample_popt_bad
  = ([Cfg.Cerr ("cfg" +:+ ": " +:+ "bad value" +:+ endl)], 1).
Proof.
  destruct (cfg_stops_before_any_file "cfg" "cfg 4.9" (fun _ => 0%nat)
              sample_cfg_files sample_popt_bad
              [(Cfg.OPT_PRINT_CLASSES, "")] [(Cfg.OPT_VERSION, "")]
              (Cfg.OPT_SET_VALUE, "novalue")) as [H _].
  - constructor; [|constructor]. split; [discriminate|].
    intros H. discriminate H.
  - destruct (H eq_refl) as [_ Hbad]. apply Hbad; [reflexivity|].
    cbn. intros Hin. repeat (destruct Hin as [Hin|Hin]; [discriminate Hin|]).
    exact Hin.
Defined.

(** X28, run: two values for two files; the second value contains [=]. *)
Lemma cfg_set_value_puts_all_values_witness :
  Cfg.main "cfg" "cfg 4.9" (fun _ => 0%nat) true sample_cfg_files sample_popt
  = ([Cfg.Cfg_Read "one.ini"; Cfg.Cfg_PutValue "" "a" "1";
      Cfg.Cfg_PutValue "" "b" "x=y"; Cfg.Cfg_Write "one.ini";
      Cfg.Cfg_Read "two.ini"; Cfg.Cfg_PutValue "" "a" "1";
      Cfg.Cfg_PutValue "" "b" "x=y"; Cfg.Cfg_Write "two.ini"], 0).
Proof.
  destruct (cfg_set_value_puts_all_values "cfg" "cfg 4.9" (fun _ => 0%nat)
              sample_cfg_files sample_popt) as (_ & H & _).
  - repeat (constructor;
            [split; [discriminate|];
             intros H; first [discriminate H | cbn; auto 8]|]).
    constructor.
  - reflexivity.
  - discriminate.
  - rewrite H; [reflexivity|reflexivity|].
    repeat (constructor; [split; [eexists; reflexivity|reflexivity]|]).
    constructor.
Defined.

(** X29, run: a font without font information, and a template that ends
    in [%]. *)
Lemma destination_template_expands_witness :
  MakeTfm.expand_template (c_str "public") (c_str "misc")
    (c_str "fonts/tfm/%s/%t") = Some (c_str "fonts/tfm/public/misc") /\
  MakeTfm.expand_template (c_str "public") (c_str "misc")
    (c_str "fonts/tfm/%") = None.
Proof.
  destruct (destination_template_expands (c_str "public") (c_str "misc")
              (c_str "fonts/tfm/")) as (_ & H2 & H3 & _).
  - repeat (constructor; [split; discriminate|]). constructor.
  - split; [exact (H3 "s"%char (c_str "/%t"))|exact H2].
Defined.

(** X30, run: no METAFONT source and MakeMF fails; the font is made by
    hbf2gf and PLtoTF and installed, and METAFONT is not run. *)
Lemma MakeTfm_Run_steps_witness :
  let r := MakeTfm.Run "hbf2gf" "pltotf" "makemf" sample_Q sample_maketfm in
  let steps := filter MakeTfm.is_step (fst r) in
  steps =
    [MakeTfm.RunProcess "makemf" ["bsmi00"] "/tmp/w";
     MakeTfm.RunProcess "hbf2gf" ["-g"; "bsmi00"; "300"] "/tmp/w";
     MakeTfm.RunProcess "pltotf" ["bsmi00.pl"; "bsmi00.tfm"] "/tmp/w";
     MakeTfm.Install "/tmp/w/bsmi00.tfm"
       "/home/u/fonts/tfm/public/misc/bsmi00.tfm"] /\
  snd r = MakeTfm.Done tt /\
  ~ In (MakeTfm.RunMETAFONT "bsmi00" "/tmp/w") steps.
Proof.
  intros r steps.
  destruct (MakeTfm_Run_steps "hbf2gf" "pltotf" "makemf" sample_Q
              sample_maketfm) as [_ H].
  destruct (H eq_refl (c_str "%R/fonts/tfm/public/misc") eq_refl)
    as (Htable & Hmf & _).
  split; [exact (f_equal fst Htable)|].
  split; [exact (f_equal snd Htable)|].
  intros Hin. apply Hmf in Hin. destruct Hin as [_ [[x Hx] | Hx]];
    discriminate Hx.
Defined.
